(** * Workspace Navigator: the standalone workspace manager

    A shallow embedding of [src/workspace-manager.ts] (class
    [WorkspaceManager], the revision that carries the development logger),
    of the navigation-layout memory of the plugin class ([WorkspaceNavigator]
    in [src/main.ts] and its later revision), of the switcher's item
    listing, and of the gestures of the switcher and of the editor that write
    the store (rename, delete, create, choose an item) with the naming of a
    duplicate.

    Conventions.
    - A name is a [string], read as a sequence of UTF-16 code units below 256.
    - A JavaScript object used as a dictionary is an association list kept in
      creation order ([Obj]); [Object.keys] is computed from it with the
      integer-like keys first.  The store's [workspaces] object also has its
      prototype chain: [in] and property reads see the names inherited from
      [Object.prototype], and an assignment to ['__proto__'] replaces the
      prototype.
    - The plugin's [Map] of navigation layouts is a [gmap].
    - The host application (layout engine, local storage, file explorer,
      side docks, notices, event bus) is a record [World] plus a trace of
      [Event]s; every manager operation is a computation in the monad [M],
      which threads the store, the host and the trace and may raise.
    - [logger.log] and [console.log] only append text to a log kept in
      memory and to the console; they are left out, as is what the gestures
      do to the page.  [logger.save()], which writes that log to a file of
      the vault, is an event of the trace ([LogSave]); the text of the log and
      the files of the vault are not modelled.
    - [getLayout()] returns a layout, an object that [JSON.stringify]
      accepts; an error raised by the host is an [Error] object. *)

From Stdlib Require Import ZArith NArith Ascii String List Permutation Sorted.
From Stdlib Require Import DecimalNat DecimalString.
From stdpp Require Import base option list strings gmap.
Import ListNotations.
Local Open Scope string_scope.
Local Open Scope list_scope.

(* ===================================================================== *)
(** * JavaScript strings and objects *)
(* ===================================================================== *)

Module Js.

(** White space in the sense of [String.prototype.trim], restricted to the
    code units the model has: TAB, LF, VT, FF, CR, SPACE and NBSP. *)
Definition is_whitespace (c : ascii) : bool :=
  let n := nat_of_ascii c in
  Nat.eqb n 9 || Nat.eqb n 10 || Nat.eqb n 11 || Nat.eqb n 12
  || Nat.eqb n 13 || Nat.eqb n 32 || Nat.eqb n 160.

Fixpoint trimStart (s : string) : string :=
  match s with
  | EmptyString => EmptyString
  | String c r => if is_whitespace c then trimStart r else s
  end.

Fixpoint trimEnd (s : string) : string :=
  match s with
  | EmptyString => EmptyString
  | String c r =>
      match trimEnd r with
      | EmptyString => if is_whitespace c then EmptyString else String c EmptyString
      | r' => String c r'
      end
  end.

(** [s.trim()] *)
Definition trim (s : string) : string := trimEnd (trimStart s).

(** The guard [!name || name.trim() === ''] of the source. *)
Definition blank (name : string) : bool :=
  String.eqb name "" || String.eqb (trim name) "".

(** ** Objects as dictionaries *)

Section Obj.
Context {V : Type}.

(** Own properties, in creation order. *)
Definition Obj := list (string * V).

(** [o[k]] ([None] is [undefined]). *)
Fixpoint get (k : string) (o : Obj) : option V :=
  match o with
  | [] => None
  | (k', v) :: r => if String.eqb k k' then Some v else get k r
  end.

(** [k in o] *)
Definition has (k : string) (o : Obj) : bool :=
  match get k o with Some _ => true | None => false end.

Fixpoint replace (k : string) (v : V) (o : Obj) : Obj :=
  match o with
  | [] => []
  | (k', v') :: r =>
      if String.eqb k k' then (k', v) :: replace k v r
      else (k', v') :: replace k v r
  end.

(** [o[k] = v]: an existing property keeps its place, a new one is
    created last. *)
Definition set (k : string) (v : V) (o : Obj) : Obj :=
  if has k o then replace k v o else o ++ [(k, v)].

(** [delete o[k]] *)
Fixpoint delete (k : string) (o : Obj) : Obj :=
  match o with
  | [] => []
  | (k', v') :: r =>
      if String.eqb k k' then delete k r else (k', v') :: delete k r
  end.

Definition names (o : Obj) : list string := map fst o.
End Obj.
Arguments Obj : clear implicits.

(** ** [Object.keys]: integer-like keys ascending, then the others in
    creation order. *)

Definition is_digit (c : ascii) : bool :=
  let n := nat_of_ascii c in Nat.leb 48 n && Nat.leb n 57.

Definition digit_value (c : ascii) : N := N.of_nat (nat_of_ascii c - 48).

Fixpoint all_digits (s : string) : bool :=
  match s with
  | EmptyString => true
  | String c r => is_digit c && all_digits r
  end.

Fixpoint decimal (acc : N) (s : string) : N :=
  match s with
  | EmptyString => acc
  | String c r => decimal (10 * acc + digit_value c)%N r
  end.

(** A canonical array index: ["0"], or digits without a leading zero, below
    [2^32 - 1]. *)
Definition array_index (k : string) : option N :=
  match k with
  | EmptyString => None
  | String c r =>
      if all_digits k && (negb (Ascii.eqb c "0"%char) || String.eqb r "")
      then let n := decimal 0 k in
           if (n <? 4294967295)%N then Some n else None
      else None
  end.

Definition is_index (k : string) : bool :=
  match array_index k with Some _ => true | None => false end.

Definition index_leb (a b : string) : bool :=
  match array_index a, array_index b with
  | Some x, Some y => (x <=? y)%N
  | _, _ => true
  end.

(** Stable insertion sort: the element goes before the first element it is
    not above. *)
Fixpoint insert_by {A} (leb : A -> A -> bool) (x : A) (l : list A) : list A :=
  match l with
  | [] => [x]
  | y :: r => if leb x y then x :: l else y :: insert_by leb x r
  end.

Fixpoint sort_by {A} (leb : A -> A -> bool) (l : list A) : list A :=
  match l with
  | [] => []
  | x :: r => insert_by leb x (sort_by leb r)
  end.

Definition keys {V} (o : Obj V) : list string :=
  let ks := names o in
  sort_by index_leb (List.filter is_index ks)
    ++ List.filter (fun k => negb (is_index k)) ks.

(** [l.sort(cmp)]: a stable sort driven by the sign of the callback. *)
Definition sort {A} (cmp : A -> A -> comparison) (l : list A) : list A :=
  sort_by (fun a b => match cmp a b with Gt => false | _ => true end) l.

(** [l.includes(x)] on an array of strings. *)
Definition includes (x : string) (l : list string) : bool :=
  existsb (String.eqb x) l.

(** The property names a plain object inherits from [Object.prototype]:
    [k in o] holds of them whatever the own properties of [o] are. *)
Definition objectPrototype : list string :=
  ["constructor"; "__defineGetter__"; "__defineSetter__"; "hasOwnProperty";
   "__lookupGetter__"; "__lookupSetter__"; "isPrototypeOf";
   "propertyIsEnumerable"; "toString"; "valueOf"; "__proto__"; "toLocaleString"].

Definition inherited (k : string) : bool := includes k objectPrototype.

(** A double quote, for the template strings of the notices. *)
Definition dq : string := String (ascii_of_nat 34) EmptyString.
Definition quoted (s : string) : string := dq ++ s ++ dq.

End Js.

(* ===================================================================== *)
(** * Natural name comparator *)
(* ===================================================================== *)

Module Collation.

(** Case folding of the letters [A]-[Z]. *)
Definition to_lower (c : ascii) : ascii :=
  let n := nat_of_ascii c in
  if Nat.leb 65 n && Nat.leb n 90 then ascii_of_nat (n + 32) else c.


(** What a name is compared by: the numbers of its digit runs and its other
    characters, case folded. *)
Inductive Token :=
| TNum (value : N)
| TChr (c : ascii).

Definition flush (run : option N) : list Token :=
  match run with
  | Some n => [TNum n]
  | None => []
  end.

(** The tokens of [s], [run] being the value of the digit run under way. *)
Fixpoint tokens_from (run : option N) (s : string) : list Token :=
  match s with
  | EmptyString => flush run
  | String c r =>
      if Js.is_digit c
      then tokens_from (Some (10 * default 0%N run + Js.digit_value c)%N) r
      else flush run ++ TChr (to_lower c) :: tokens_from None r
  end.

Definition tokens (s : string) : list Token := tokens_from None s.

(** The place of a token: its code point, then its numeric value. *)
Definition token_key (t : Token) : N * N :=
  match t with
  | TNum n => (48%N, n)
  | TChr c => (N.of_nat (nat_of_ascii c), 0%N)
  end.

Definition key_compare (a b : N * N) : comparison :=
  match N.compare (fst a) (fst b) with
  | Eq => N.compare (snd a) (snd b)
  | r => r
  end.

Definition token_compare (a b : Token) : comparison :=
  key_compare (token_key a) (token_key b).

Fixpoint lex_compare (a b : list Token) : comparison :=
  match a, b with
  | [], [] => Eq
  | [], _ :: _ => Lt
  | _ :: _, [] => Gt
  | x :: a', y :: b' =>
      match token_compare x y with
      | Eq => lex_compare a' b'
      | r => r
      end
  end.

(** Modelled from the spec: the sign of
    [a.localeCompare(b, undefined, { numeric: true, sensitivity: 'base' })].
    The comparison itself is the collation of the JavaScript runtime; the
    source calls it and does not contain it.  Following the contract of the
    natural name comparator, a name is cut into runs of decimal digits, each
    compared by its numeric value, and single other characters, each compared
    by code point after folding [A]-[Z] to lower case.  The contract leaves
    open how a digit run compares with another character: here it stands at
    the code point of ['0'].  The token lists are compared lexicographically,
    a proper prefix first. *)
Definition localeCompare (a b : string) : comparison :=
  lex_compare (tokens a) (tokens b).

(** [a] is listed no later than [b]. *)
Definition natural_le (a b : string) : Prop := localeCompare a b <> Gt.

(** The same as a boolean, the way [Js.sort] reads the callback. *)
Definition natural_leb (a b : string) : bool :=
  match localeCompare a b with Gt => false | _ => true end.

End Collation.

(* ===================================================================== *)
(** * The host application *)
(* ===================================================================== *)

Module Host.

(** A thrown JavaScript [Error], with its [message]. *)
Record Error := MkError { message : string }.

(** What the local-storage cell ['file-explorer-unfold'] and the field
    [folderExpandState] hold: nothing ([undefined]), [null], or the array of
    the expanded folders' paths. *)
Inductive FolderState :=
| FsUndefined
| FsNull
| FsPaths (paths : list string).

(** JavaScript truthiness, as in [if (workspace.folderExpandState)]. *)
Definition truthy (f : FolderState) : bool :=
  match f with
  | FsPaths _ => true
  | _ => false
  end.

(** An item of the file explorer's tree: [file?.path], whether it has a
    [setCollapsed] method, its [collapsed] flag, its [children]. *)
#[warnings="-register-all"]
Inductive TreeNode :=
| Node (path : option string) (canCollapse : bool) (collapsed : option bool)
       (children : list TreeNode).

(** [internalPlugins.plugins['file-explorer']]: its [enabled] flag and
    [instance?.tree?.root]. *)
Record FileExplorer := {
  enabled : bool;
  treeRoot : option TreeNode
}.

(** A side dock ([workspace.leftSplit], [workspace.rightSplit]): [collapsed]
    ([None] when the property is undefined), the view type of its active
    leaf, and [containerEl.offsetWidth]. *)
Record Split := {
  splitCollapsed : option bool;
  activeTab : option string;
  offsetWidth : option Z
}.

(** Host contract: [split.expand()] and [split.collapse()] clear and set the
    [collapsed] flag. *)
Definition expand (s : Split) : Split :=
  {| splitCollapsed := Some false; activeTab := activeTab s; offsetWidth := offsetWidth s |}.
Definition collapse (s : Split) : Split :=
  {| splitCollapsed := Some true; activeTab := activeTab s; offsetWidth := offsetWidth s |}.

(** [x.collapsed] read as a condition: undefined is falsy. *)
Definition isCollapsed (s : Split) : bool := default false (splitCollapsed s).

Section World.
Context {Layout : Type}.

(** The state of the host and the way its calls answer.  A fault field, when
    set, is the error the corresponding call raises. *)
Record World := {
  currentLayout : Layout;            (* what [workspace.getLayout()] returns *)
  folderCell : FolderState;          (* local storage, 'file-explorer-unfold' *)
  fileExplorer : option FileExplorer;
  leftSplit : option Split;
  rightSplit : option Split;
  now : Z;                           (* [Date.now()] *)
  layoutAfterUndefined : Layout;     (* what [getLayout()] returns once
                                        [changeLayout(undefined)] went through *)
  getLayoutFault : option Error;
  loadLocalStorageFault : option Error;
  saveLocalStorageFault : option Error;
  changeLayoutFault : option Error
}.

(** What the program does to the host, in order. *)
Inductive Event :=
| Notice (text : string)
| ConsoleWarn (e : Error)
| ConsoleError (e : Error)
| SaveLocalStorageCall (value : FolderState)
| SaveLocalStorageDone
| ChangeLayoutCall (layout : Layout)
| ChangeLayoutUndefined              (* [changeLayout(undefined)] *)
| ChangeLayoutDone
| ChangeLayoutRaised (e : Error)
| Trigger (event : string) (args : list string)
| SaveData
| LogSave.                           (* [logger.save()]: the session's log is
                                        written to a file of the vault *)

Definition set_folderCell (v : FolderState) (w : World) : World :=
  {| currentLayout := currentLayout w; folderCell := v;
     fileExplorer := fileExplorer w; leftSplit := leftSplit w;
     rightSplit := rightSplit w; now := now w;
     layoutAfterUndefined := layoutAfterUndefined w;
     getLayoutFault := getLayoutFault w;
     loadLocalStorageFault := loadLocalStorageFault w;
     saveLocalStorageFault := saveLocalStorageFault w;
     changeLayoutFault := changeLayoutFault w |}.

Definition set_currentLayout (l : Layout) (w : World) : World :=
  {| currentLayout := l; folderCell := folderCell w;
     fileExplorer := fileExplorer w; leftSplit := leftSplit w;
     rightSplit := rightSplit w; now := now w;
     layoutAfterUndefined := layoutAfterUndefined w;
     getLayoutFault := getLayoutFault w;
     loadLocalStorageFault := loadLocalStorageFault w;
     saveLocalStorageFault := saveLocalStorageFault w;
     changeLayoutFault := changeLayoutFault w |}.

Definition set_fileExplorer (f : option FileExplorer) (w : World) : World :=
  {| currentLayout := currentLayout w; folderCell := folderCell w;
     fileExplorer := f; leftSplit := leftSplit w;
     rightSplit := rightSplit w; now := now w;
     layoutAfterUndefined := layoutAfterUndefined w;
     getLayoutFault := getLayoutFault w;
     loadLocalStorageFault := loadLocalStorageFault w;
     saveLocalStorageFault := saveLocalStorageFault w;
     changeLayoutFault := changeLayoutFault w |}.

Definition set_splits (l r : option Split) (w : World) : World :=
  {| currentLayout := currentLayout w; folderCell := folderCell w;
     fileExplorer := fileExplorer w; leftSplit := l;
     rightSplit := r; now := now w;
     layoutAfterUndefined := layoutAfterUndefined w;
     getLayoutFault := getLayoutFault w;
     loadLocalStorageFault := loadLocalStorageFault w;
     saveLocalStorageFault := saveLocalStorageFault w;
     changeLayoutFault := changeLayoutFault w |}.

End World.
Arguments World : clear implicits.
Arguments Event : clear implicits.

(** ** The file explorer's tree *)

(** [node.file?.path] as a condition: an absent or empty path is falsy. *)
Definition hasPath (p : option string) : bool :=
  match p with
  | Some s => negb (String.eqb s "")
  | None => false
  end.

(** [checkNode] of [saveWorkspace]: the paths of the items whose [collapsed]
    is exactly [false], the item before its children. *)
Fixpoint checkNode (n : TreeNode) : list string :=
  match n with
  | Node p _ c ch =>
      (match p, c with
       | Some s, Some false => if hasPath p then [s] else []
       | _, _ => []
       end) ++ flat_map checkNode ch
  end.

(** [collapseAll] of [loadWorkspace]. *)
Fixpoint collapseAll (n : TreeNode) : TreeNode :=
  match n with
  | Node p can c ch =>
      Node p can (if hasPath p && can then Some true else c) (map collapseAll ch)
  end.

Definition notAFunction : Error := MkError "node.setCollapsed is not a function".

(** [expandSaved] of [loadWorkspace]: the tree as far as it was updated, and
    the [TypeError] of calling [setCollapsed] on an item that has none. *)
Fixpoint expandSaved (saved : list string) (n : TreeNode) : TreeNode * option Error :=
  match n with
  | Node p can c ch =>
      let hit := match p with
                 | Some s => hasPath p && Js.includes s saved
                 | None => false
                 end in
      if hit && negb can then (n, Some notAFunction)
      else
        let c' := if hit then Some false else c in
        let '(ch', e) :=
          (fix each (l : list TreeNode) : list TreeNode * option Error :=
             match l with
             | [] => ([], None)
             | x :: r =>
                 match expandSaved saved x with
                 | (x', Some e) => (x' :: r, Some e)
                 | (x', None) => let '(r', e) := each r in (x' :: r', e)
                 end
             end) ch in
        (Node p can c' ch', e)
  end.

End Host.

(* ===================================================================== *)
(** * Computations: state, trace and exceptions *)
(* ===================================================================== *)

Module Eff.

Inductive Result (A : Type) :=
| Ok (a : A)
| Raised (e : Host.Error).
Arguments Ok {A} a.
Arguments Raised {A} e.

(** A computation over a state [S]: it ends normally or raises, and leaves a
    state either way (what was done before a [throw] stays done). *)
Definition M (S A : Type) : Type := S -> Result A * S.

Definition ret {S A} (a : A) : M S A := fun s => (Ok a, s).

Definition bind {S A B} (m : M S A) (k : A -> M S B) : M S B :=
  fun s =>
    match m s with
    | (Ok a, s') => k a s'
    | (Raised e, s') => (Raised e, s')
    end.

Definition throw {S A} (e : Host.Error) : M S A := fun s => (Raised e, s).

(** [try { m } catch (e) { h e }] *)
Definition try_catch {S A} (m : M S A) (h : Host.Error -> M S A) : M S A :=
  fun s =>
    match m s with
    | (Ok a, s') => (Ok a, s')
    | (Raised e, s') => h e s'
    end.

Definition gets {S A} (f : S -> A) : M S A := fun s => (Ok (f s), s).
Definition modify {S} (f : S -> S) : M S unit := fun s => (Ok tt, f s).

(** Run a computation on a part [T] of the state [S]. *)
Definition zoom {S T A} (get : S -> T) (put : T -> S -> S) (m : M T A) : M S A :=
  fun s => let '(r, t) := m (get s) in (r, put t s).

Definition when {S} (b : bool) (m : M S unit) : M S unit :=
  if b then m else ret tt.

End Eff.

Notation "'let*' x ':=' m 'in' k" := (Eff.bind m (fun x => k))
  (at level 10, x name, m at level 100, k at level 200).
Notation "m ';;' k" := (Eff.bind m (fun _ => k))
  (at level 100, k at level 200, right associativity).

(* ===================================================================== *)
(** * [WorkspaceManager] *)
(* ===================================================================== *)

Module Manager.
Import Host Eff.

Record Metadata := {
  description : option string;
  tags : option (list string)
}.

Section Manager.
Context {Layout : Type}.

(** [interface WorkspaceData] *)
Record WorkspaceData := {
  layout : Layout;
  lastSaved : Z;
  folderExpandState : FolderState;
  metadata : option Metadata
}.

(** What a property of [this.storage.workspaces] holds: a record, or a value
    that is none (a member of [Object.prototype], a field of a record that
    serves as prototype, [undefined]).  Of such a value the manager sees
    whether it is truthy, and reads its [layout] and [folderExpandState] as
    [undefined] (a layout blob is taken to have no fields of these names). *)
Inductive Value :=
| Stored (data : WorkspaceData)
| Foreign (isTruthy : bool).

Definition truthyValue (v : Value) : bool :=
  match v with
  | Stored _ => true
  | Foreign b => b
  end.

(** [workspace.layout] and [workspace.folderExpandState] of a value;
    [None] is [undefined]. *)
Definition layoutOf (v : Value) : option Layout :=
  match v with
  | Stored data => Some (layout data)
  | Foreign _ => None
  end.

Definition folderOf (v : Value) : FolderState :=
  match v with
  | Stored data => folderExpandState data
  | Foreign _ => FsUndefined
  end.

(** [interface WorkspacesStorage].  [workspaces] is a plain object: its own
    properties in creation order and its prototype, [Object.prototype]
    ([None]) unless an assignment to ['__proto__'] has put a record in
    between ([Some]). *)
Record WorkspacesStorage := {
  workspaces : Js.Obj Value;
  prototype : option WorkspaceData;
  activeWorkspace : option string;
  version : string
}.

(** The storage a manager starts from when none was saved. *)
Definition emptyStorage : WorkspacesStorage :=
  {| workspaces := []; prototype := None; activeWorkspace := None; version := "2.0.0" |}.

(** [this.storage], the host ([this.app]) and what was done to it so far. *)
Record State := {
  storage : WorkspacesStorage;
  world : World Layout;
  trace : list (Event Layout)
}.

Definition with_storage (f : WorkspacesStorage -> WorkspacesStorage) (s : State) : State :=
  {| storage := f (storage s); world := world s; trace := trace s |}.
Definition with_world (f : World Layout -> World Layout) (s : State) : State :=
  {| storage := storage s; world := f (world s); trace := trace s |}.

Definition set_workspaces (o : Js.Obj Value) (st : WorkspacesStorage) : WorkspacesStorage :=
  {| workspaces := o; prototype := prototype st;
     activeWorkspace := activeWorkspace st; version := version st |}.
Definition set_prototype (r : option WorkspaceData) (st : WorkspacesStorage)
  : WorkspacesStorage :=
  {| workspaces := workspaces st; prototype := r;
     activeWorkspace := activeWorkspace st; version := version st |}.
Definition set_activeWorkspace (a : option string) (st : WorkspacesStorage) : WorkspacesStorage :=
  {| workspaces := workspaces st; prototype := prototype st;
     activeWorkspace := a; version := version st |}.

(** ** The object [this.storage.workspaces] *)

(** The own keys of a record made by [saveWorkspace]. *)
Definition recordKeys : list string := ["layout"; "lastSaved"; "folderExpandState"].

(** [name in workspaces] for a name that is no own key: the name comes from
    the prototype chain. *)
Definition inheritedName (name : string) (st : WorkspacesStorage) : bool :=
  match prototype st with
  | Some _ => Js.includes name recordKeys || Js.inherited name
  | None => Js.inherited name
  end.

(** [workspaces[name]], read: the own property, or else what the prototype
    chain gives; [Foreign false] is [undefined]. *)
Definition read (name : string) (st : WorkspacesStorage) : Value :=
  match Js.get name (workspaces st) with
  | Some v => v
  | None =>
      match prototype st with
      | Some data =>
          if String.eqb name "__proto__" then Stored data
          else if String.eqb name "layout" then Foreign true
          else if String.eqb name "lastSaved" then Foreign (negb (Z.eqb (lastSaved data) 0))
          else if String.eqb name "folderExpandState"
          then Foreign (truthy (folderExpandState data))
          else Foreign (Js.inherited name)
      | None => Foreign (Js.inherited name)
      end
  end.

(** [workspaces[name] = v]: an own property is overwritten in place; a new
    name becomes the last own property, except ['__proto__'], whose setter
    replaces the prototype and creates no property (both callers assign a
    record there, or nothing: [renameWorkspace] never reaches it). *)
Definition assign (name : string) (v : Value) (st : WorkspacesStorage) : WorkspacesStorage :=
  if negb (Js.has name (workspaces st)) && String.eqb name "__proto__" then
    match v with
    | Stored data => set_prototype (Some data) st
    | Foreign _ => st
    end
  else set_workspaces (Js.set name v (workspaces st)) st.

(** [delete workspaces[name]]: only an own property is removed. *)
Definition remove (name : string) (st : WorkspacesStorage) : WorkspacesStorage :=
  set_workspaces (Js.delete name (workspaces st)) st.

(** ** Calls into the host *)

Definition emit (e : Event Layout) : M State unit :=
  modify (fun s => {| storage := storage s; world := world s; trace := trace s ++ [e] |}).

(** [new Notice(text)] *)
Definition notice (text : string) : M State unit := emit (Notice text).

(** [this.app.workspace.getLayout()] *)
Definition getLayout : M State Layout :=
  let* w := gets world in
  match getLayoutFault w with
  | Some e => throw e
  | None => ret (currentLayout w)
  end.

(** [await this.app.loadLocalStorage('file-explorer-unfold')]: the stored
    value, [null] when there is none. *)
Definition loadLocalStorage : M State FolderState :=
  let* w := gets world in
  match loadLocalStorageFault w with
  | Some e => throw e
  | None => ret (match folderCell w with FsUndefined => FsNull | v => v end)
  end.

(** [await this.app.saveLocalStorage('file-explorer-unfold', value)]: writing
    [null] clears the entry.  The continuation runs once the call is done. *)
Definition saveLocalStorage (value : FolderState) : M State unit :=
  emit (SaveLocalStorageCall value) ;;
  let* w := gets world in
  match saveLocalStorageFault w with
  | Some e => throw e
  | None =>
      modify (with_world (set_folderCell
                (match value with FsUndefined => FsNull | v => v end))) ;;
      emit SaveLocalStorageDone
  end.

(** [await this.app.workspace.changeLayout(layout)]; [None] is the call
    with [undefined], which the host answers as it does. *)
Definition changeLayout (l : option Layout) : M State unit :=
  match l with
  | Some l =>
      emit (ChangeLayoutCall l) ;;
      let* w := gets world in
      match changeLayoutFault w with
      | Some e => emit (ChangeLayoutRaised e) ;; throw e
      | None => modify (with_world (set_currentLayout l)) ;; emit ChangeLayoutDone
      end
  | None =>
      emit ChangeLayoutUndefined ;;
      let* w := gets world in
      match changeLayoutFault w with
      | Some e => emit (ChangeLayoutRaised e) ;; throw e
      | None =>
          modify (with_world (set_currentLayout (layoutAfterUndefined w))) ;;
          emit ChangeLayoutDone
      end
  end.

(** [this.app.workspace.trigger(event, ...args)] *)
Definition trigger (event : string) (args : list string) : M State unit :=
  emit (Trigger event args).

(** [this.logger.save()]: the log of the session, which is never empty once
    the logger is constructed, is written to its file through [app.vault]
    ([modify], or [create] the first time); what the vault raises is caught
    inside.  The call is made where the source makes it, awaited or not. *)
Definition loggerSave : M State unit := emit LogSave.

(** ** Reads *)

(** [getWorkspaceNames] *)
Definition getWorkspaceNames (st : WorkspacesStorage) : list string :=
  Js.sort Collation.localeCompare (Js.keys (workspaces st)).

(** [hasWorkspace]: [name in this.storage.workspaces], which holds of the own
    keys and of the names that come from the prototype chain. *)
Definition hasWorkspace (name : string) (st : WorkspacesStorage) : bool :=
  Js.has name (workspaces st) || inheritedName name st.

(** [getWorkspace]: [this.storage.workspaces[name] || null]; [None] is
    [null]. *)
Definition getWorkspace (name : string) (st : WorkspacesStorage) : option Value :=
  let v := read name st in
  if truthyValue v then Some v else None.

(** [getActiveWorkspace] *)
Definition getActiveWorkspace (st : WorkspacesStorage) : option string :=
  activeWorkspace st.

(** ** [saveWorkspace] *)

(** The folder state read from the explorer's tree when local storage has
    none: the expanded paths, if the plugin is enabled, has a tree with a root
    and at least one folder is expanded. *)
Definition folderStateFromTree (w : World Layout) : FolderState :=
  match fileExplorer w with
  | Some fe =>
      if enabled fe then
        match treeRoot fe with
        | Some root =>
            match checkNode root with
            | [] => FsNull
            | expanded => FsPaths expanded
            end
        | None => FsNull
        end
      else FsNull
  | None => FsNull
  end.

Definition captureFolderState : M State FolderState :=
  let* v := loadLocalStorage in
  match v with
  | FsNull => let* w := gets world in ret (folderStateFromTree w)
  | _ => ret v
  end.

Definition saveWorkspace (name : string) (saveFolderState : bool) : M State unit :=
  if Js.blank name then notice "Workspace name cannot be empty"
  else
    try_catch
      (let* l := getLayout in
       let* fes := (if saveFolderState then captureFolderState else ret FsUndefined) in
       let* t := gets (fun s => now (world s)) in
       modify (with_storage
         (assign name (Stored {| layout := l; lastSaved := t;
                                 folderExpandState := fes; metadata := None |}))) ;;
       modify (with_storage (set_activeWorkspace (Some name))) ;;
       loggerSave)
      (fun e =>
         loggerSave ;;
         emit (ConsoleError e) ;;
         notice ("Failed to save workspace: " ++ message e) ;;
         throw e).

(** ** [loadWorkspace] *)

(** "After layout change, force file explorer to refresh from localStorage". *)
Definition refreshFileExplorer (restoreFolderState : bool) (saved : FolderState) : M State unit :=
  let* w := gets world in
  match fileExplorer w with
  | Some fe =>
      if enabled fe && restoreFolderState then
        match treeRoot fe with
        | Some root =>
            let collapsed := collapseAll root in
            match saved with
            | FsPaths paths =>
                let '(root', err) := expandSaved paths collapsed in
                modify (with_world (set_fileExplorer
                  (Some {| enabled := enabled fe; treeRoot := Some root' |}))) ;;
                match err with
                | Some e => throw e
                | None => ret tt
                end
            | _ =>
                modify (with_world (set_fileExplorer
                  (Some {| enabled := enabled fe; treeRoot := Some collapsed |})))
            end
        | None => ret tt
        end
      else ret tt
  | None => ret tt
  end.

Definition loadWorkspace (name : string) (restoreFolderState : bool) : M State unit :=
  let* found := gets (fun s => getWorkspace name (storage s)) in
  match found with
  | None =>
      loggerSave ;;
      notice ("Workspace " ++ Js.quoted name ++ " not found")
  | Some workspace =>
      try_catch
        ((if restoreFolderState then
            if truthy (folderOf workspace)
            then saveLocalStorage (folderOf workspace)
            else saveLocalStorage FsNull
          else ret tt) ;;
         try_catch (changeLayout (layoutOf workspace))
                   (fun layoutError => emit (ConsoleWarn layoutError)) ;;
         refreshFileExplorer restoreFolderState (folderOf workspace) ;;
         modify (with_storage (set_activeWorkspace (Some name))) ;;
         trigger "workspace-open" [name] ;;
         loggerSave)
        (fun e =>
           loggerSave ;;
           emit (ConsoleError e) ;;
           notice ("Failed to load workspace: " ++ message e) ;;
           throw e)
  end.

(** ** [deleteWorkspace] *)

Definition deleteWorkspace (name : string) : M State unit :=
  let* present := gets (fun s => hasWorkspace name (storage s)) in
  if negb present then notice ("Workspace " ++ Js.quoted name ++ " not found")
  else
    modify (with_storage (remove name)) ;;
    modify (with_storage (fun st =>
      if bool_decide (activeWorkspace st = Some name)
      then set_activeWorkspace None st else st)) ;;
    trigger "workspace-delete" [name] ;;
    loggerSave.

(** ** [renameWorkspace] *)

Definition renameWorkspace (oldName newName : string) : M State unit :=
  let* st := gets storage in
  if negb (hasWorkspace oldName st)
  then notice ("Workspace " ++ Js.quoted oldName ++ " not found")
  else if hasWorkspace newName st
  then notice ("Workspace " ++ Js.quoted newName ++ " already exists")
  else if Js.blank newName
  then notice "Workspace name cannot be empty"
  else
    modify (with_storage (fun st => assign newName (read oldName st) st)) ;;
    modify (with_storage (remove oldName)) ;;
    modify (with_storage (fun st =>
      if bool_decide (activeWorkspace st = Some oldName)
      then set_activeWorkspace (Some newName) st else st)) ;;
    trigger "workspace-rename" [newName; oldName] ;;
    loggerSave.

(** ** [setActiveWorkspace] *)

Definition setActiveWorkspace (name : string) : M State unit :=
  let* present := gets (fun s => hasWorkspace name (storage s)) in
  if present then modify (with_storage (set_activeWorkspace (Some name)))
  else ret tt.

End Manager.
Arguments WorkspaceData : clear implicits.
Arguments Value : clear implicits.
Arguments WorkspacesStorage : clear implicits.
Arguments State : clear implicits.

End Manager.

(* ===================================================================== *)
(** * [WorkspaceManager], the earlier revision *)
(* ===================================================================== *)

(** The first revision of [src/workspace-manager.ts] has no logger; its
    [saveWorkspace] does not read the explorer's tree, and its
    [loadWorkspace] neither clears local storage nor catches the error of
    the layout call nor refreshes the file explorer. *)
Module ManagerV1.
Import Host Eff Manager.

Section ManagerV1.
Context {Layout : Type}.

Definition saveWorkspace (name : string) (saveFolderState : bool) : M (State Layout) unit :=
  if Js.blank name then notice "Workspace name cannot be empty"
  else
    try_catch
      (let* l := getLayout in
       let* fes := (if saveFolderState then loadLocalStorage else ret FsUndefined) in
       let* t := gets (fun s => now (world s)) in
       modify (with_storage
         (assign name (Stored {| layout := l; lastSaved := t;
                                 folderExpandState := fes; metadata := None |}))) ;;
       modify (with_storage (set_activeWorkspace (Some name))))
      (fun e =>
         emit (ConsoleError e) ;;
         notice ("Failed to save workspace: " ++ message e) ;;
         throw e).

Definition loadWorkspace (name : string) (restoreFolderState : bool) : M (State Layout) unit :=
  let* found := gets (fun s => getWorkspace name (storage s)) in
  match found with
  | None => notice ("Workspace " ++ Js.quoted name ++ " not found")
  | Some workspace =>
      try_catch
        (when (restoreFolderState && truthy (folderOf workspace))
              (saveLocalStorage (folderOf workspace)) ;;
         changeLayout (layoutOf workspace) ;;
         modify (with_storage (set_activeWorkspace (Some name))) ;;
         trigger "workspace-open" [name])
        (fun e =>
           emit (ConsoleError e) ;;
           notice ("Failed to load workspace: " ++ message e) ;;
           throw e)
  end.

(** [deleteWorkspace], [renameWorkspace] and [setActiveWorkspace] are those
    of the later revision without the calls to the logger. *)
Definition deleteWorkspace (name : string) : M (State Layout) unit :=
  let* present := gets (fun s => hasWorkspace name (storage s)) in
  if negb present then notice ("Workspace " ++ Js.quoted name ++ " not found")
  else
    modify (with_storage (remove name)) ;;
    modify (with_storage (fun st =>
      if bool_decide (activeWorkspace st = Some name)
      then set_activeWorkspace None st else st)) ;;
    trigger "workspace-delete" [name].

Definition renameWorkspace (oldName newName : string) : M (State Layout) unit :=
  let* st := gets storage in
  if negb (hasWorkspace oldName st)
  then notice ("Workspace " ++ Js.quoted oldName ++ " not found")
  else if hasWorkspace newName st
  then notice ("Workspace " ++ Js.quoted newName ++ " already exists")
  else if Js.blank newName
  then notice "Workspace name cannot be empty"
  else
    modify (with_storage (fun st => assign newName (read oldName st) st)) ;;
    modify (with_storage (remove oldName)) ;;
    modify (with_storage (fun st =>
      if bool_decide (activeWorkspace st = Some oldName)
      then set_activeWorkspace (Some newName) st else st)) ;;
    trigger "workspace-rename" [newName; oldName].

End ManagerV1.
End ManagerV1.

(* ===================================================================== *)
(** * The plugin: settings and navigation-layout memory *)
(* ===================================================================== *)

Module Plugin.
Import Host Eff.

(** [interface WorkspaceNavigatorSettings] *)
Record Settings := {
  rememberNavigationLayout : bool;
  maintainLayoutAcrossWorkspaces : bool;
  showStatusBar : bool;
  showInstructions : bool;
  showDeleteConfirmation : bool;
  autoSaveOnSwitch : bool;
  sortWorkspacesAlphabetically : bool;
  debugMode : bool
}.

Definition DEFAULT_SETTINGS : Settings :=
  {| rememberNavigationLayout := true;
     maintainLayoutAcrossWorkspaces := false;
     showStatusBar := true;
     showInstructions := true;
     showDeleteConfirmation := true;
     autoSaveOnSwitch := false;
     sortWorkspacesAlphabetically := true;
     debugMode := false |}.

(** [interface NavigationLayoutState] *)
Record NavigationLayoutState := {
  leftSidebarOpen : bool;
  rightSidebarOpen : bool;
  leftSidebarTab : option string;
  rightSidebarTab : option string;
  leftSidebarWidth : option Z;
  rightSidebarWidth : option Z
}.

(** [split && split.collapsed === false] *)
Definition isOpen (s : option Split) : bool :=
  match s with
  | Some x => match splitCollapsed x with Some false => true | _ => false end
  | None => false
  end.

(** One side dock of [restoreNavigationLayout], later revision: nothing is
    done to a missing dock or to one whose [collapsed] is undefined. *)
Definition restoreSplit (open : bool) (s : option Split) : option Split :=
  match s with
  | Some x =>
      match splitCollapsed x with
      | Some _ =>
          if open && isCollapsed x then Some (expand x)
          else if negb open && negb (isCollapsed x) then Some (collapse x)
          else Some x
      | None => Some x
      end
  | None => None
  end.

(** The dock is already as the snapshot wants it: expanded for an open
    sidebar, collapsed for a closed one. *)
Definition panelInState (open : bool) (s : option Split) : Prop :=
  match s with
  | Some x => splitCollapsed x = Some (negb open)
  | None => False
  end.

Section Plugin.
Context {Layout : Type}.

(** The fields of [WorkspaceNavigator] that the memory uses. *)
Record State := {
  settings : Settings;
  navigationLayouts : gmap string NavigationLayoutState;
  manager : Manager.State Layout
}.

Definition with_manager (m : Manager.State Layout) (s : State) : State :=
  {| settings := settings s; navigationLayouts := navigationLayouts s; manager := m |}.
Definition with_navigationLayouts (n : gmap string NavigationLayoutState) (s : State) : State :=
  {| settings := settings s; navigationLayouts := n; manager := manager s |}.

(** A manager method run on the plugin's manager. *)
Definition onManager {A} (m : M (Manager.State Layout) A) : M State A :=
  zoom manager with_manager m.

(** [...?.getViewState?.()?.type || null]: an empty view type is falsy. *)
Definition viewType (s : option Split) : option string :=
  x ← s; t ← activeTab x; if String.eqb t "" then None else Some t.

(** [getCurrentNavigationLayout] *)
Definition getCurrentNavigationLayout (w : World Layout) : NavigationLayoutState :=
  {| leftSidebarOpen := isOpen (leftSplit w);
     rightSidebarOpen := isOpen (rightSplit w);
     leftSidebarTab := viewType (leftSplit w);
     rightSidebarTab := viewType (rightSplit w);
     leftSidebarWidth := x ← leftSplit w; offsetWidth x;
     rightSidebarWidth := x ← rightSplit w; offsetWidth x |}.

(** [saveNavigationLayout] *)
Definition saveNavigationLayout (workspaceName : string) : M State unit :=
  let* cfg := gets settings in
  if negb (rememberNavigationLayout cfg) then ret tt
  else
    let* w := gets (fun s => Manager.world (manager s)) in
    modify (fun s => with_navigationLayouts
              (<[workspaceName := getCurrentNavigationLayout w]> (navigationLayouts s)) s) ;;
    onManager (Manager.emit SaveData).

(** [restoreNavigationLayout], on the host. *)
Definition restoreWorld (cfg : Settings) (layouts : gmap string NavigationLayoutState)
    (workspaceName : string) (w : World Layout) : World Layout :=
  if negb (rememberNavigationLayout cfg) || maintainLayoutAcrossWorkspaces cfg then w
  else
    match layouts !! workspaceName with
    | None => w
    | Some nav =>
        set_splits (restoreSplit (leftSidebarOpen nav) (leftSplit w))
                   (restoreSplit (rightSidebarOpen nav) (rightSplit w)) w
    end.

(** [restoreNavigationLayout] *)
Definition restoreNavigationLayout (workspaceName : string) : M State unit :=
  modify (fun s =>
    with_manager
      (Manager.with_world
         (restoreWorld (settings s) (navigationLayouts s) workspaceName)
         (manager s)) s).

(** The command ['save-current-workspace']. *)
Definition saveCurrentWorkspace : M State unit :=
  let* active := gets (fun s => Manager.getActiveWorkspace (Manager.storage (manager s))) in
  match active with
  | None => onManager (Manager.notice "No active workspace")
  | Some workspaceName =>
      if String.eqb workspaceName ""
      then onManager (Manager.notice "No active workspace")
      else
        saveNavigationLayout workspaceName ;;
        let* saveFolderState := gets (fun s => rememberNavigationLayout (settings s)) in
        onManager (Manager.saveWorkspace workspaceName saveFolderState) ;;
        onManager (Manager.notice ("Saved workspace: " ++ workspaceName))
  end.

End Plugin.
Arguments State : clear implicits.

End Plugin.

(** The earlier revision of the plugin class ([src/main.ts]). *)
Module PluginV1.
Import Host Eff.

(** One side dock of [restoreNavigationLayout], earlier revision: only a
    missing dock is skipped. *)
Definition restoreSplit (open : bool) (s : option Split) : option Split :=
  match s with
  | Some x =>
      if open && isCollapsed x then Some (expand x)
      else if negb open && negb (isCollapsed x) then Some (collapse x)
      else Some x
  | None => None
  end.

Section PluginV1.
Context {Layout : Type}.

Definition restoreWorld (cfg : Plugin.Settings)
    (layouts : gmap string Plugin.NavigationLayoutState)
    (workspaceName : string) (w : World Layout) : World Layout :=
  if negb (Plugin.rememberNavigationLayout cfg) || Plugin.maintainLayoutAcrossWorkspaces cfg
  then w
  else
    match layouts !! workspaceName with
    | None => w
    | Some nav =>
        set_splits (restoreSplit (Plugin.leftSidebarOpen nav) (leftSplit w))
                   (restoreSplit (Plugin.rightSidebarOpen nav) (rightSplit w)) w
    end.

End PluginV1.
End PluginV1.

(* ===================================================================== *)
(** * The switcher's list of items *)
(* ===================================================================== *)

Module Switcher.

Section Switcher.
Context {Layout : Type}.

(** [WorkspaceSwitcherModal.getItems] over the standalone manager:
    "Workspace manager already sorts alphabetically with natural sort". *)
Definition getItems (p : Plugin.State Layout) : list string :=
  Manager.getWorkspaceNames (Manager.storage (Plugin.manager p)).

End Switcher.

(** [WorkspaceSwitcherModal.getItems] of the revisions that list the
    workspaces of the host's own Workspaces plugin ([None] when that plugin
    is not enabled): the items and the notice shown. *)
Definition getItemsCore {V} (cfg : Plugin.Settings) (core : option (Js.Obj V))
  : list string * list string :=
  match core with
  | None => ([], ["Workspaces core plugin is not enabled"])
  | Some workspaces =>
      let names := Js.keys workspaces in
      if Plugin.sortWorkspacesAlphabetically cfg
      then (Js.sort Collation.localeCompare names, [])
      else (names, [])
  end.

End Switcher.

(* ===================================================================== *)
(** * The store's operations as requests, and its invariant *)
(* ===================================================================== *)

Module Store.
Import Host Eff Manager.

Section Store.
Context {Layout : Type}.

(** The active pointer is [null] or the key of a stored record. *)
Definition activeValid (st : WorkspacesStorage Layout) : Prop :=
  match activeWorkspace st with
  | None => True
  | Some name => Js.has name (workspaces st) = true
  end.

(** The events an operation added to the trace it started from. *)
Definition added (before after : State Layout) : list (Event Layout) :=
  drop (length (trace before)) (trace after).

(** The operation kept the earlier trace and added exactly [events]. *)
Definition emitted (before after : State Layout) (events : list (Event Layout)) : Prop :=
  trace after = trace before ++ events.

(** The error, if any, that the refresh of the file explorer at the end of
    [loadWorkspace] raises: the one of calling [setCollapsed] on an item of
    the tree that has a saved path and no such method. *)
Definition refreshError (restoreFolderState : bool) (saved : FolderState)
    (w : World Layout) : option Error :=
  match fileExplorer w with
  | Some fe =>
      if enabled fe && restoreFolderState then
        match treeRoot fe, saved with
        | Some root, FsPaths paths => snd (expandSaved paths (collapseAll root))
        | _, _ => None
        end
      else None
  | None => None
  end.

(** The folder state [saveWorkspace name true] records: the one in local
    storage, or else the one read from the explorer's tree. *)
Definition capturedFolderState (w : World Layout) : FolderState :=
  match folderCell w with
  | FsPaths paths => FsPaths paths
  | _ => folderStateFromTree w
  end.

(** The value [loadWorkspace] writes to local storage when asked to restore
    the folder state, and the events of that write when it succeeds. *)
Definition writtenValue (ws : WorkspaceData Layout) : FolderState :=
  if truthy (folderExpandState ws) then folderExpandState ws else FsNull.

Definition writeEvents (restoreFolderState : bool) (ws : WorkspaceData Layout)
  : list (Event Layout) :=
  if restoreFolderState
  then [SaveLocalStorageCall (writtenValue ws); SaveLocalStorageDone]
  else [].

(** The events of the layout call, raising or not. *)
Definition layoutEvents (s : State Layout) (ws : WorkspaceData Layout)
  : list (Event Layout) :=
  ChangeLayoutCall (layout ws) ::
  match changeLayoutFault (world s) with
  | Some e => [ChangeLayoutRaised e; ConsoleWarn e]
  | None => [ChangeLayoutDone]
  end.

(** What the handler of [loadWorkspace] does with an error it catches. *)
Definition failure (e : Error) : list (Event Layout) :=
  [LogSave; ConsoleError e; Notice ("Failed to load workspace: " ++ message e)].

End Store.
End Store.

(* ===================================================================== *)
(** * A vault to try the operations on *)
(* ===================================================================== *)

(** Layouts are named by strings here; the manager never looks into one. *)
Module Demo.
Import Host Manager.

Definition explorerTree : TreeNode :=
  Node (Some "/") true (Some false)
    [ Node (Some "Projects") true (Some true)
        [ Node (Some "Projects/plan.md") false None [] ];
      Node (Some "Inbox.md") false None [] ].

Definition world0 : World string :=
  {| currentLayout := "panes: editor | outline";
     folderCell := FsPaths ["Archive"];
     fileExplorer := Some {| enabled := true; treeRoot := Some explorerTree |};
     leftSplit := Some {| splitCollapsed := Some true;
                          activeTab := Some "file-explorer";
                          offsetWidth := Some 300%Z |};
     rightSplit := Some {| splitCollapsed := Some true;
                           activeTab := Some "outline";
                           offsetWidth := Some 0%Z |};
     now := 1700000000000%Z;
     layoutAfterUndefined := "panes: none";
     getLayoutFault := None;
     loadLocalStorageFault := None;
     saveLocalStorageFault := None;
     changeLayoutFault := None |}.

(** The same host with an extension that makes the layout call raise. *)
Definition templaterError : Error := MkError "Cannot read properties of null".

Definition worldFaulty : World string :=
  {| currentLayout := currentLayout world0;
     folderCell := folderCell world0;
     fileExplorer := fileExplorer world0;
     leftSplit := leftSplit world0;
     rightSplit := rightSplit world0;
     now := now world0;
     layoutAfterUndefined := layoutAfterUndefined world0;
     getLayoutFault := None;
     loadLocalStorageFault := None;
     saveLocalStorageFault := None;
     changeLayoutFault := Some templaterError |}.

(** A record saved with its folder state, and one saved without. *)
Definition research : WorkspaceData string :=
  {| layout := "panes: paper | notes";
     lastSaved := 1690000000000%Z;
     folderExpandState := FsPaths ["Projects"];
     metadata := None |}.

Definition writing : WorkspaceData string :=
  {| layout := "panes: draft";
     lastSaved := 1680000000000%Z;
     folderExpandState := FsUndefined;
     metadata := None |}.

Definition store0 : WorkspacesStorage string :=
  {| workspaces := [("Research", Stored research); ("Writing", Stored writing)];
     prototype := None;
     activeWorkspace := Some "Research";
     version := "2.0.0" |}.

Definition state0 : State string :=
  {| storage := store0; world := world0; trace := [] |}.

Definition stateFaulty : State string :=
  {| storage := store0; world := worldFaulty; trace := [] |}.

(** The plugin with navigation memory switched on or off, and with or
    without sorting of the list. *)
Definition settingsWith (memory sorting : bool) : Plugin.Settings :=
  {| Plugin.rememberNavigationLayout := memory;
     Plugin.maintainLayoutAcrossWorkspaces := false;
     Plugin.showStatusBar := true;
     Plugin.showInstructions := true;
     Plugin.showDeleteConfirmation := true;
     Plugin.autoSaveOnSwitch := false;
     Plugin.sortWorkspacesAlphabetically := sorting;
     Plugin.debugMode := false |}.

Definition researchNavigation : Plugin.NavigationLayoutState :=
  {| Plugin.leftSidebarOpen := true;
     Plugin.rightSidebarOpen := false;
     Plugin.leftSidebarTab := Some "file-explorer";
     Plugin.rightSidebarTab := None;
     Plugin.leftSidebarWidth := Some 300%Z;
     Plugin.rightSidebarWidth := None |}.

Definition plugin0 (memory sorting : bool) : Plugin.State string :=
  {| Plugin.settings := settingsWith memory sorting;
     Plugin.navigationLayouts := {[ "Research" := researchNavigation ]};
     Plugin.manager := state0 |}.

(** A store into which ["Zettel"] was saved before ["Archive"]. *)
Definition twoSaves : State string :=
  snd (saveWorkspace "Archive" false
         (snd (saveWorkspace "Zettel" false
                 {| storage := emptyStorage; world := world0; trace := [] |}))).

Definition pluginTwoSaves (sorting : bool) : Plugin.State string :=
  {| Plugin.settings := settingsWith true sorting;
     Plugin.navigationLayouts := ∅;
     Plugin.manager := twoSaves |}.

End Demo.

(* ===================================================================== *)
(** * Names made of white space *)
(* ===================================================================== *)

Module Text.

(** Every character of the name is white space (the empty name included). *)
Fixpoint allWhitespace (s : string) : bool :=
  match s with
  | EmptyString => true
  | String c r => Js.is_whitespace c && allWhitespace r
  end.




End Text.

(* ===================================================================== *)
(** * The front end: switcher and editor gestures *)
(* ===================================================================== *)

(** The gestures of [WorkspaceSwitcherModal] (over the standalone manager) and
    of [WorkspaceEditorModal] that write the store, and the naming of a
    duplicate.  What they do to the page (input fields, CSS classes, the list
    of suggestions) is left out; the value of the input field and the answer
    to a confirmation dialog are arguments. *)
Module FrontEnd.
Import Host Eff.

(** The template literal [`${counter}`] for a counter: its decimal digits. *)
Definition numberToString (n : nat) : string :=
  NilEmpty.string_of_uint (Nat.to_uint n).

(** [`${sourceName} (copy)`] and [`${sourceName} (copy ${counter})`] *)
Definition copyName (sourceName : string) : string := sourceName ++ " (copy)".
Definition copyNameNumbered (sourceName : string) (counter : nat) : string :=
  sourceName ++ " (copy " ++ numberToString counter ++ ")".

Section FrontEnd.
Context {Layout : Type}.

(** [this.plugin.saveSettings()]: the plugin's data is written once. *)
Definition saveSettings : M (Plugin.State Layout) unit :=
  Plugin.onManager (Manager.emit SaveData).

Definition notice (text : string) : M (Plugin.State Layout) unit :=
  Plugin.onManager (Manager.notice text).

(** "Rename navigation layout data": the snapshot of [oldName], if there is
    one, is moved under [newName]. *)
Definition moveNavigationLayout (oldName newName : string)
    (layouts : gmap string Plugin.NavigationLayoutState)
  : gmap string Plugin.NavigationLayoutState :=
  match layouts !! oldName with
  | Some nav => <[newName := nav]> (delete oldName layouts)
  | None => layouts
  end.

(** [WorkspaceSwitcherModal.handleRename]: [oldName] is the name the item was
    listed under, [inputValue] what the user typed. *)
Definition handleRename (oldName inputValue : string) : M (Plugin.State Layout) unit :=
  let newName := Js.trim inputValue in
  if String.eqb oldName "" || String.eqb newName "" || String.eqb oldName newName
  then ret tt
  else
    let* taken := gets (fun p => Manager.hasWorkspace newName
                                   (Manager.storage (Plugin.manager p))) in
    if taken then notice ("Workspace " ++ Js.quoted newName ++ " already exists")
    else
      Plugin.onManager (Manager.renameWorkspace oldName newName) ;;
      modify (fun p => Plugin.with_navigationLayouts
                (moveNavigationLayout oldName newName (Plugin.navigationLayouts p)) p) ;;
      saveSettings ;;
      notice ("Renamed workspace to " ++ Js.quoted newName).

(** The "Rename" button of [WorkspaceEditorModal.showRenameDialog]. *)
Definition renameFromDialog (oldName inputValue : string) : M (Plugin.State Layout) unit :=
  let newName := Js.trim inputValue in
  if String.eqb newName "" then notice "Please enter a name"
  else if String.eqb newName oldName then ret tt
  else
    let* taken := gets (fun p => Manager.hasWorkspace newName
                                   (Manager.storage (Plugin.manager p))) in
    if taken then notice ("Workspace " ++ Js.quoted newName ++ " already exists")
    else
      Plugin.onManager (Manager.renameWorkspace oldName newName) ;;
      modify (fun p => Plugin.with_navigationLayouts
                (moveNavigationLayout oldName newName (Plugin.navigationLayouts p)) p) ;;
      saveSettings ;;
      notice ("Renamed to: " ++ newName).

(** [doDelete] of [WorkspaceSwitcherModal.deleteWorkspace].  The call of
    [saveSettings] is not awaited: its write waits in the save queue until
    the code of the gesture has run, so that it comes after the notice. *)
Definition doDelete (workspaceName : string) : M (Plugin.State Layout) unit :=
  Plugin.onManager (Manager.deleteWorkspace workspaceName) ;;
  modify (fun p => Plugin.with_navigationLayouts
            (delete workspaceName (Plugin.navigationLayouts p)) p) ;;
  notice ("Deleted workspace: " ++ workspaceName) ;;
  saveSettings.

(** [if (!workspaceName)]: [undefined] and the empty string are falsy. *)
Definition truthyName (name : option string) : option string :=
  match name with
  | Some n => if String.eqb n "" then None else Some n
  | None => None
  end.

(** The name [WorkspaceSwitcherModal.deleteWorkspace] works on:
    [workspaceName] is the optional argument, [selected] the item the chooser
    has selected ([None] when its index is out of range), which is taken when
    the argument is falsy; a falsy outcome makes the gesture return. *)
Definition chosenName (workspaceName selected : option string) : option string :=
  truthyName (match truthyName workspaceName with
              | Some n => Some n
              | None => selected
              end).

(** [WorkspaceSwitcherModal.deleteWorkspace]; [accepted] is the user's answer
    when the confirmation dialog is shown. *)
Definition deleteWorkspace (workspaceName selected : option string) (accepted : bool)
  : M (Plugin.State Layout) unit :=
  match chosenName workspaceName selected with
  | None => ret tt
  | Some name =>
      let* confirm := gets (fun p => Plugin.showDeleteConfirmation (Plugin.settings p)) in
      if confirm then (if accepted then doDelete name else ret tt)
      else doDelete name
  end.

(** [WorkspaceSwitcherModal.createNewWorkspace]; the "Save" button of
    [WorkspaceEditorModal.renderNewWorkspaceSection] does the same. *)
Definition createNewWorkspace (inputValue : string) : M (Plugin.State Layout) unit :=
  let workspaceName := Js.trim inputValue in
  if String.eqb workspaceName "" then notice "Please enter a workspace name"
  else
    let* taken := gets (fun p => Manager.hasWorkspace workspaceName
                                   (Manager.storage (Plugin.manager p))) in
    if taken then notice ("Workspace " ++ Js.quoted workspaceName ++ " already exists")
    else
      let* saveFolderState := gets (fun p => Plugin.rememberNavigationLayout (Plugin.settings p)) in
      Plugin.onManager (Manager.saveWorkspace workspaceName saveFolderState) ;;
      saveSettings ;;
      notice ("Created workspace: " ++ workspaceName).

(** The loop that names a duplicate, in [WorkspaceEditorModal.cloneWorkspace]
    and in the command ['duplicate-current-workspace']:
    [while (hasWorkspace(newName)) { newName = ...(copy ${counter}); counter++ }].
    [fuel] bounds the number of turns; [None] is "out of fuel". *)
Fixpoint uniqueNameFrom (fuel : nat) (st : Manager.WorkspacesStorage Layout)
    (sourceName newName : string) (counter : nat) : option string :=
  if Manager.hasWorkspace newName st then
    match fuel with
    | O => None
    | S fuel' =>
        uniqueNameFrom fuel' st sourceName
          (copyNameNumbered sourceName counter) (S counter)
    end
  else Some newName.

Definition uniqueCopyName (fuel : nat) (st : Manager.WorkspacesStorage Layout)
    (sourceName : string) : option string :=
  uniqueNameFrom fuel st sourceName (copyName sourceName) 2.

End FrontEnd.
End FrontEnd.

(* ===================================================================== *)
(** * Switching workspaces *)
(* ===================================================================== *)

(** [WorkspaceNavigator.loadWorkspace] and the choice of an item in
    [WorkspaceSwitcherModal] (over the standalone manager).  The listeners of
    ['workspace-open'] run in the host's event dispatch; here the event is
    an entry of the trace, as in the manager. *)
Module Session.
Import Host Eff.

Section Session.
Context {Layout : Type}.

(** The plugin with its flag [isLoadingWorkspace]. *)
Record State := {
  plugin : Plugin.State Layout;
  isLoadingWorkspace : bool
}.

Definition with_plugin (p : Plugin.State Layout) (s : State) : State :=
  {| plugin := p; isLoadingWorkspace := isLoadingWorkspace s |}.

Definition onPlugin {A} (m : M (Plugin.State Layout) A) : M State A :=
  zoom plugin with_plugin m.

(** [beforeWorkspaceLoad] *)
Definition beforeWorkspaceLoad (name : string) : M State unit :=
  modify (fun s => {| plugin := plugin s; isLoadingWorkspace := true |}).

(** [WorkspaceNavigator.loadWorkspace] *)
Definition loadWorkspace (name : string) : M State unit :=
  let* cfg := gets (fun s => Plugin.settings (plugin s)) in
  let restoreFolderState :=
    Plugin.rememberNavigationLayout cfg && negb (Plugin.maintainLayoutAcrossWorkspaces cfg) in
  beforeWorkspaceLoad name ;;
  onPlugin (Plugin.onManager (Manager.loadWorkspace name restoreFolderState)) ;;
  onPlugin FrontEnd.saveSettings.

(** The block the three branches of [onChooseItem] share: the active
    workspace, if there is one, is saved with its sidebar snapshot; the
    branches for Shift and Alt show a notice after it. *)
Definition saveCurrent (announce : bool) : M State unit :=
  let* current := gets (fun s =>
    Manager.getActiveWorkspace (Manager.storage (Plugin.manager (plugin s)))) in
  match current with
  | None => ret tt
  | Some currentWorkspace =>
      if String.eqb currentWorkspace "" then ret tt
      else
        onPlugin (Plugin.saveNavigationLayout currentWorkspace) ;;
        let* saveFolderState :=
          gets (fun s => Plugin.rememberNavigationLayout (Plugin.settings (plugin s))) in
        onPlugin (Plugin.onManager (Manager.saveWorkspace currentWorkspace saveFolderState)) ;;
        when announce
          (onPlugin (FrontEnd.notice ("Saved workspace: " ++ currentWorkspace)))
  end.

Definition switchTo (workspace : string) : M State unit :=
  loadWorkspace workspace ;;
  onPlugin (FrontEnd.notice ("Switched to workspace: " ++ workspace)).

(** [WorkspaceSwitcherModal.onChooseItem]; [shiftKey] and [altKey] are the
    modifier keys of the event. *)
Definition onChooseItem (workspace : string) (shiftKey altKey : bool) : M State unit :=
  if shiftKey && negb altKey then saveCurrent true ;; switchTo workspace
  else if altKey && negb shiftKey then saveCurrent true ;; switchTo workspace
  else
    let* auto := gets (fun s => Plugin.autoSaveOnSwitch (Plugin.settings (plugin s))) in
    (if auto then saveCurrent false else ret tt) ;;
    switchTo workspace.

(** The choice saves the current workspace before it switches. *)
Definition saves (cfg : Plugin.Settings) (shiftKey altKey : bool) : bool :=
  (shiftKey && negb altKey) || (altKey && negb shiftKey) || Plugin.autoSaveOnSwitch cfg.

End Session.
Arguments State : clear implicits.

End Session.

(* ===================================================================== *)
(** * Outcomes of the gestures *)
(* ===================================================================== *)

Module Outcome.

Section Outcome.
Context {Layout : Type}.

(** The store after [renameWorkspace oldName newName] with a free, non-blank
    [newName].  When [in] holds of [oldName], what [workspaces[oldName]] read
    is an own property under the new name, there is no own property
    [oldName] any more, the other own properties and the prototype stayed,
    and the active pointer follows the name; when [in] does not hold, the
    store is unchanged. *)
Definition renamedStore (oldName newName : string)
    (st st' : Manager.WorkspacesStorage Layout) : Prop :=
  if Manager.hasWorkspace oldName st then
    Js.get newName (Manager.workspaces st') = Some (Manager.read oldName st) /\
    Js.has oldName (Manager.workspaces st') = false /\
    (forall k, k <> oldName -> k <> newName ->
       Js.get k (Manager.workspaces st') = Js.get k (Manager.workspaces st)) /\
    Manager.prototype st' = Manager.prototype st /\
    Manager.activeWorkspace st' =
      (if bool_decide (Manager.activeWorkspace st = Some oldName)
       then Some newName else Manager.activeWorkspace st)
  else st' = st.

(** What the manager does to the host in that rename. *)
Definition renameEvents (oldName newName : string)
    (st : Manager.WorkspacesStorage Layout) : list (Host.Event Layout) :=
  if Manager.hasWorkspace oldName st
  then [Host.Trigger "workspace-rename" [newName; oldName]; Host.LogSave]
  else [Host.Notice ("Workspace " ++ Js.quoted oldName ++ " not found")].

(** What the manager does to the host in [deleteWorkspace name]. *)
Definition deleteEvents (name : string)
    (st : Manager.WorkspacesStorage Layout) : list (Host.Event Layout) :=
  if Manager.hasWorkspace name st
  then [Host.Trigger "workspace-delete" [name]; Host.LogSave]
  else [Host.Notice ("Workspace " ++ Js.quoted name ++ " not found")].

(** The names the loop of [uniqueCopyName] tries in [turns] turns, in order. *)
Definition candidates (sourceName newName : string) (counter turns : nat) : list string :=
  newName :: map (FrontEnd.copyNameNumbered sourceName) (seq counter turns).

End Outcome.
End Outcome.

(* ===================================================================== *)
(** * The items of the file explorer's tree, in order *)
(* ===================================================================== *)

Module Explorer.
Import Host.

(** What [checkNode], [collapseAll] and [expandSaved] read of an item. *)
Record Item := {
  itemPath : option string;
  itemCanCollapse : bool;
  itemCollapsed : option bool
}.

(** The items of a tree, each before its children. *)
Fixpoint items (n : TreeNode) : list Item :=
  match n with
  | Node p can c ch =>
      {| itemPath := p; itemCanCollapse := can; itemCollapsed := c |}
      :: flat_map items ch
  end.

(** The tree without its flags. *)
Fixpoint shape (n : TreeNode) : TreeNode :=
  match n with
  | Node p can _ ch => Node p can None (map shape ch)
  end.

(** An item as the refresh of [loadWorkspace] leaves it: one that has a path
    and [setCollapsed] is expanded if its path is saved and collapsed if not;
    any other keeps its flag. *)
Definition refreshed (saved : list string) (i : Item) : Item :=
  {| itemPath := itemPath i;
     itemCanCollapse := itemCanCollapse i;
     itemCollapsed :=
       match itemPath i with
       | Some p =>
           if hasPath (itemPath i) && itemCanCollapse i
           then Some (negb (Js.includes p saved))
           else itemCollapsed i
       | None => itemCollapsed i
       end |}.

(** The paths a stored folder state names; none when it is [undefined] or
    [null]. *)
Definition savedPaths (saved : FolderState) : list string :=
  match saved with
  | FsPaths l => l
  | _ => []
  end.

(** An item whose path is saved although it has no [setCollapsed]. *)
Definition unexpandable (saved : list string) (i : Item) : Prop :=
  exists p, itemPath i = Some p /\ hasPath (itemPath i) = true /\
            Js.includes p saved = true /\ itemCanCollapse i = false.

(** An item after [collapseAll]. *)
Definition collapsedItem (i : Item) : Item :=
  {| itemPath := itemPath i;
     itemCanCollapse := itemCanCollapse i;
     itemCollapsed := if hasPath (itemPath i) && itemCanCollapse i
                      then Some true else itemCollapsed i |}.

(** The test of [expandSaved]: the item has a path and the path is saved. *)
Definition hit (saved : list string) (i : Item) : bool :=
  match itemPath i with
  | Some p => hasPath (itemPath i) && Js.includes p saved
  | None => false
  end.

(** An item after [expandSaved], when that does not raise. *)
Definition expandedItem (saved : list string) (i : Item) : Item :=
  {| itemPath := itemPath i;
     itemCanCollapse := itemCanCollapse i;
     itemCollapsed := if hit saved i then Some false else itemCollapsed i |}.

(** The path of an item that [checkNode] reports as expanded. *)
Definition expandedPath (i : Item) : list string :=
  match itemPath i, itemCollapsed i with
  | Some p, Some false => if hasPath (itemPath i) then [p] else []
  | _, _ => []
  end.

(** The path of an item, if it has one. *)
Definition pathOf (i : Item) : list string :=
  match itemPath i with
  | Some p => if hasPath (itemPath i) then [p] else []
  | None => []
  end.

(** Every item that [checkNode] reports as expanded has [setCollapsed]. *)
Definition expandedCollapsible (n : TreeNode) : Prop :=
  Forall (fun i => expandedPath i <> [] -> itemCanCollapse i = true) (items n).

(** The paths of the items that have one. *)
Definition paths (n : TreeNode) : list string := flat_map pathOf (items n).

End Explorer.

(* ===================================================================== *)
(** * More of the demonstration vault *)
(* ===================================================================== *)

Module Fixture.
Import Host Manager.

(** The host of [Demo.world0] when reading the layout raises. *)
Definition worldNoLayout : World string :=
  {| currentLayout := currentLayout Demo.world0;
     folderCell := folderCell Demo.world0;
     fileExplorer := fileExplorer Demo.world0;
     leftSplit := leftSplit Demo.world0;
     rightSplit := rightSplit Demo.world0;
     now := now Demo.world0;
     layoutAfterUndefined := layoutAfterUndefined Demo.world0;
     getLayoutFault := Some Demo.templaterError;
     loadLocalStorageFault := None;
     saveLocalStorageFault := None;
     changeLayoutFault := None |}.

Definition stateNoLayout : State string :=
  {| storage := Demo.store0; world := worldNoLayout; trace := [] |}.

(** The host some time later: another layout, no folder state in local
    storage, both side docks open. *)
Definition worldLater : World string :=
  {| currentLayout := "panes: graph";
     folderCell := FsNull;
     fileExplorer := fileExplorer Demo.world0;
     leftSplit := Some {| splitCollapsed := Some false;
                          activeTab := Some "search";
                          offsetWidth := Some 280%Z |};
     rightSplit := Some {| splitCollapsed := Some false;
                           activeTab := Some "backlink";
                           offsetWidth := Some 320%Z |};
     now := 1700000600000%Z;
     layoutAfterUndefined := "panes: none";
     getLayoutFault := None;
     loadLocalStorageFault := None;
     saveLocalStorageFault := None;
     changeLayoutFault := None |}.


(** The sidebars of ["Research"] were recorded (both closed); the docks
    were opened afterwards. *)
Definition pluginLater : Plugin.State string :=
  {| Plugin.settings := Demo.settingsWith true true;
     Plugin.navigationLayouts :=
       Plugin.navigationLayouts
         (snd (Plugin.saveNavigationLayout "Research" (Demo.plugin0 true true)));
     Plugin.manager := {| storage := Demo.store0; world := worldLater; trace := [] |} |}.

(** A store in which ["Research"] was duplicated once. *)
Definition storeWithCopy : WorkspacesStorage string :=
  {| workspaces := [("Research", Stored Demo.research);
                    ("Research (copy)", Stored Demo.research)];
     prototype := None;
     activeWorkspace := Some "Research";
     version := "2.0.0" |}.

(** ["Journal"] was saved while the folder ["Daily"] was expanded.  The
    folder has since been replaced by a file of the same path, an item of
    the explorer without [setCollapsed], and an extension makes the layout
    call raise. *)
Definition journal : WorkspaceData string :=
  {| layout := "panes: journal";
     lastSaved := 1695000000000%Z;
     folderExpandState := FsPaths ["Daily"];
     metadata := None |}.

Definition treeWithFile : TreeNode :=
  Node (Some "/") true (Some false)
    [ Node (Some "Daily") false None [];
      Node (Some "Projects") true (Some true) [] ].

Definition worldStaleFolder : World string :=
  {| currentLayout := currentLayout Demo.world0;
     folderCell := folderCell Demo.world0;
     fileExplorer := Some {| enabled := true; treeRoot := Some treeWithFile |};
     leftSplit := leftSplit Demo.world0;
     rightSplit := rightSplit Demo.world0;
     now := now Demo.world0;
     layoutAfterUndefined := layoutAfterUndefined Demo.world0;
     getLayoutFault := None;
     loadLocalStorageFault := None;
     saveLocalStorageFault := None;
     changeLayoutFault := Some Demo.templaterError |}.

Definition stateStaleFolder : State string :=
  {| storage :=
       {| workspaces := [("Research", Stored Demo.research); ("Journal", Stored journal)];
          prototype := None;
          activeWorkspace := Some "Research";
          version := "2.0.0" |};
     world := worldStaleFolder;
     trace := [] |}.

(** The plugin of the demonstration vault, no load under way. *)
Definition session0 : Session.State string :=
  {| Session.plugin := Demo.plugin0 true true; Session.isLoadingWorkspace := false |}.

End Fixture.

(* ===================================================================== *)
(** * Facts about the JavaScript model *)
(* ===================================================================== *)

Module JsFacts.

Section Obj.
Context {V : Type}.
Implicit Types (o : Js.Obj V) (k : string) (v : V).

Lemma has_get k o : Js.has k o = true <-> exists v, Js.get k o = Some v.
Proof.
  unfold Js.has. destruct (Js.get k o) as [v|]; split; eauto.
  - discriminate.
  - intros [v Hv]; discriminate.
Qed.

Lemma has_false_get k o : Js.has k o = false <-> Js.get k o = None.
Proof.
  unfold Js.has. destruct (Js.get k o); split; congruence.
Qed.

Lemma get_replace k k' v o :
  Js.get k' (Js.replace k v o) =
  if String.eqb k' k then (if Js.has k o then Some v else None) else Js.get k' o.
Proof.
  induction o as [|[k0 v0] o IH]; simpl.
  - unfold Js.has; simpl. now destruct (String.eqb k' k).
  - unfold Js.has in *; simpl.
    destruct (String.eqb_spec k k0) as [->|Hk]; simpl.
    + destruct (String.eqb_spec k' k0) as [->|Hk']; [reflexivity|].
      rewrite IH. destruct (String.eqb_spec k' k0); [contradiction|reflexivity].
    + destruct (String.eqb_spec k' k0) as [->|Hk'].
      * destruct (String.eqb_spec k0 k); [subst; contradiction|reflexivity].
      * exact IH.
Qed.

Lemma get_app k o1 o2 :
  Js.get k (o1 ++ o2) = match Js.get k o1 with Some v => Some v | None => Js.get k o2 end.
Proof.
  induction o1 as [|[k0 v0] o1 IH]; simpl; [reflexivity|].
  now destruct (String.eqb k k0).
Qed.

(** Reading after [o[k] = v]. *)
Lemma get_set k k' v o :
  Js.get k' (Js.set k v o) = if String.eqb k' k then Some v else Js.get k' o.
Proof.
  unfold Js.set. destruct (Js.has k o) eqn:Hh.
  - rewrite get_replace, Hh. reflexivity.
  - rewrite get_app. simpl. apply has_false_get in Hh.
    destruct (String.eqb_spec k' k) as [->|Hne].
    + now rewrite Hh.
    + now destruct (Js.get k' o).
Qed.

(** Reading after [delete o[k]]. *)
Lemma get_delete k k' o :
  Js.get k' (Js.delete k o) = if String.eqb k' k then None else Js.get k' o.
Proof.
  induction o as [|[k0 v0] o IH]; simpl.
  - now destruct (String.eqb k' k).
  - destruct (String.eqb_spec k k0) as [->|Hk].
    + rewrite IH. destruct (String.eqb_spec k' k0); reflexivity.
    + simpl. destruct (String.eqb_spec k' k0) as [->|Hk'].
      * destruct (String.eqb_spec k0 k); [subst; contradiction|reflexivity].
      * exact IH.
Qed.

Lemma has_set k k' v o :
  Js.has k' (Js.set k v o) = String.eqb k' k || Js.has k' o.
Proof.
  unfold Js.has at 1. rewrite get_set. unfold Js.has.
  now destruct (String.eqb k' k).
Qed.

Lemma has_delete k k' o :
  Js.has k' (Js.delete k o) = negb (String.eqb k' k) && Js.has k' o.
Proof.
  unfold Js.has at 1. rewrite get_delete. unfold Js.has.
  now destruct (String.eqb k' k).
Qed.

Lemma delete_absent k o : Js.has k o = false -> Js.delete k o = o.
Proof.
  unfold Js.has. induction o as [|[k0 v0] o IH]; simpl; [reflexivity|].
  destruct (String.eqb k k0); [discriminate|]. intros H. now rewrite IH.
Qed.

End Obj.

End JsFacts.

(* ===================================================================== *)
(** * The store: rename, delete, the active pointer *)
(* ===================================================================== *)

Module StoreFacts.
Import Host Eff Manager Store.

(** Unfold one operation down to the state it returns. *)
Ltac run :=
  cbv [renameWorkspace deleteWorkspace setActiveWorkspace saveWorkspace
       loadWorkspace notice trigger emit loggerSave getLayout loadLocalStorage
       saveLocalStorage changeLayout captureFolderState refreshFileExplorer
       Eff.bind Eff.ret Eff.gets Eff.modify Eff.throw Eff.try_catch Eff.when
       with_storage with_world] in *;
  simpl in *.

Lemma includes_cons (x y : string) (l : list string) :
  Js.includes x (y :: l) = String.eqb x y || Js.includes x l.
Proof. reflexivity. Qed.

Section StoreFacts.
Context {Layout : Type}.
Implicit Types (s : State Layout) (st : WorkspacesStorage Layout).

Lemma bool_decide_eq_name (a : option string) (k : string) :
  bool_decide (a = Some k) = true -> a = Some k.
Proof. intros H. now apply bool_decide_eq_true in H. Qed.

(** ** The object [workspaces] and its prototype chain *)

Lemma hasWorkspace_own (name : string) st :
  Js.has name (workspaces st) = true -> hasWorkspace name st = true.
Proof. unfold hasWorkspace. now intros ->. Qed.

Lemma read_own (name : string) st (v : Value Layout) :
  Js.get name (workspaces st) = Some v -> read name st = v.
Proof. unfold read. now intros ->. Qed.

Lemma getWorkspace_own (name : string) st (data : WorkspaceData Layout) :
  Js.get name (workspaces st) = Some (Stored data) ->
  getWorkspace name st = Some (Stored data).
Proof. unfold getWorkspace. intros H. now rewrite (read_own name st _ H). Qed.

(** A name of which [in] is false is neither an own key nor a name of the
    prototype chain; reading it gives [undefined]. *)
Lemma absent_name (name : string) st :
  hasWorkspace name st = false ->
  Js.has name (workspaces st) = false /\
  inheritedName name st = false /\
  Js.inherited name = false /\
  String.eqb name "__proto__" = false /\
  read name st = Foreign false /\
  getWorkspace name st = None.
Proof.
  unfold hasWorkspace. intros H. apply orb_false_elim in H as [Hown Hinh].
  assert (Hobj : Js.inherited name = false).
  { unfold inheritedName in Hinh. destruct (prototype st); [|exact Hinh].
    now apply orb_false_elim in Hinh. }
  assert (Hproto : String.eqb name "__proto__" = false).
  { destruct (String.eqb_spec name "__proto__") as [->|]; [discriminate Hobj|reflexivity]. }
  assert (Hread : read name st = Foreign false).
  { unfold read. apply JsFacts.has_false_get in Hown. rewrite Hown.
    unfold inheritedName in Hinh. destruct (prototype st) as [data|]; [|now rewrite Hobj].
    apply orb_false_elim in Hinh as [Hkeys _]. unfold recordKeys in Hkeys.
    rewrite !includes_cons in Hkeys.
    apply orb_false_elim in Hkeys as [H1 Hkeys].
    apply orb_false_elim in Hkeys as [H2 Hkeys].
    apply orb_false_elim in Hkeys as [H3 _].
    now rewrite Hproto, H1, H2, H3, Hobj. }
  repeat split; try assumption. unfold getWorkspace. now rewrite Hread.
Qed.

(** Assigning to a name of which [in] is false appends an own property. *)
Lemma assign_fresh (name : string) (v : Value Layout) st :
  hasWorkspace name st = false ->
  assign name v st = set_workspaces (workspaces st ++ [(name, v)]) st.
Proof.
  intros H. destruct (absent_name name st H) as (Hown & _ & _ & Hproto & _).
  unfold assign, Js.set. now rewrite Hown, Hproto.
Qed.

(** Assigning to an own key overwrites it in place. *)
Lemma assign_own (name : string) (v : Value Layout) st :
  Js.has name (workspaces st) = true ->
  assign name v st = set_workspaces (Js.replace name v (workspaces st)) st.
Proof. intros H. unfold assign, Js.set. now rewrite H. Qed.

(** Any name but ['__proto__'] is assigned as an own property. *)
Lemma assign_plain (name : string) (v : Value Layout) st :
  String.eqb name "__proto__" = false ->
  assign name v st = set_workspaces (Js.set name v (workspaces st)) st.
Proof. intros H. unfold assign. now rewrite H, andb_false_r. Qed.

(** After [workspaces[name] = record], reading [name] gives the record,
    also when the name is ['__proto__']. *)
Lemma read_assign (name : string) (data : WorkspaceData Layout) st :
  read name (assign name (Stored data) st) = Stored data.
Proof.
  unfold assign.
  destruct (Js.has name (workspaces st)) eqn:Hown; simpl.
  - unfold read. simpl. now rewrite JsFacts.get_set, String.eqb_refl.
  - destruct (String.eqb_spec name "__proto__") as [->|Hne]; simpl.
    + unfold read. simpl. apply JsFacts.has_false_get in Hown. now rewrite Hown.
    + unfold read. simpl. now rewrite JsFacts.get_set, String.eqb_refl.
Qed.

(** [getWorkspace] of the name just saved gives the record saved. *)
Lemma getWorkspace_saved (name : string) (data : WorkspaceData Layout)
    (a : option string) st :
  getWorkspace name (set_activeWorkspace a (assign name (Stored data) st)) =
  Some (Stored data).
Proof.
  unfold getWorkspace.
  change (read name (set_activeWorkspace a (assign name (Stored data) st)))
    with (read name (assign name (Stored data) st)).
  now rewrite read_assign.
Qed.

Lemma emitted_added s s' events : emitted s s' events -> added s s' = events.
Proof.
  unfold emitted, added. intros ->. now rewrite drop_app_length.
Qed.

(** ** [renameWorkspace] and [deleteWorkspace] as states *)

(** A [renameWorkspace] that goes through: [in] holds of [oldName] and not of
    [newName], which is not blank. *)
Lemma rename_ok s (oldName newName : string) :
  hasWorkspace oldName (storage s) = true ->
  hasWorkspace newName (storage s) = false ->
  Js.blank newName = false ->
  renameWorkspace oldName newName s =
    (Ok tt,
     {| storage :=
          {| workspaces :=
               Js.delete oldName
                 (workspaces (storage s) ++ [(newName, read oldName (storage s))]);
             prototype := prototype (storage s);
             activeWorkspace :=
               if bool_decide (activeWorkspace (storage s) = Some oldName)
               then Some newName else activeWorkspace (storage s);
             version := version (storage s) |};
        world := world s;
        trace := trace s ++ [Trigger "workspace-rename" [newName; oldName]; LogSave] |}).
Proof.
  destruct s as [[ws proto act ver] w t]. simpl. intros Hold Hnew Hb. run.
  rewrite Hold. simpl. rewrite Hnew. simpl. rewrite Hb. simpl.
  rewrite (assign_fresh newName _ _ Hnew). unfold remove. simpl.
  rewrite <- app_assoc. simpl.
  destruct (bool_decide (act = Some oldName)); reflexivity.
Qed.

(** A [renameWorkspace] that is refused changes nothing and shows one
    notice. *)
Lemma rename_refused s (oldName newName : string) :
  hasWorkspace oldName (storage s) = false \/
  hasWorkspace newName (storage s) = true \/
  Js.blank newName = true ->
  exists text,
    renameWorkspace oldName newName s =
      (Ok tt, {| storage := storage s; world := world s;
                 trace := trace s ++ [Notice text] |}).
Proof.
  destruct s as [st w t]. simpl. intros Hcase. run.
  destruct (hasWorkspace oldName st); simpl; [|eauto].
  destruct (hasWorkspace newName st); simpl; [eauto|].
  destruct (Js.blank newName); simpl; [eauto|].
  destruct Hcase as [H|[H|H]]; discriminate.
Qed.

(** [deleteWorkspace] when [in] holds of the name. *)
Lemma delete_ok s (name : string) :
  hasWorkspace name (storage s) = true ->
  deleteWorkspace name s =
    (Ok tt,
     {| storage :=
          {| workspaces := Js.delete name (workspaces (storage s));
             prototype := prototype (storage s);
             activeWorkspace :=
               if bool_decide (activeWorkspace (storage s) = Some name)
               then None else activeWorkspace (storage s);
             version := version (storage s) |};
        world := world s;
        trace := trace s ++ [Trigger "workspace-delete" [name]; LogSave] |}).
Proof.
  destruct s as [[ws proto act ver] w t]. simpl. intros Hin. run.
  rewrite Hin. simpl. unfold remove. simpl. rewrite <- app_assoc. simpl.
  destruct (bool_decide (act = Some name)); reflexivity.
Qed.

(** [deleteWorkspace] when [in] does not hold of the name. *)
Lemma delete_refused s (name : string) :
  hasWorkspace name (storage s) = false ->
  deleteWorkspace name s =
    (Ok tt, {| storage := storage s; world := world s;
               trace := trace s ++
                 [Notice ("Workspace " ++ Js.quoted name ++ " not found")] |}).
Proof.
  destruct s as [st w t]. simpl. intros Hin. run. now rewrite Hin.
Qed.

End StoreFacts.
End StoreFacts.

(* ===================================================================== *)
(** * [loadWorkspace]: what it does to the host, and in which order *)
(* ===================================================================== *)

Module LoadFacts.
Import Host Eff Manager Store.
Import StoreFacts.

Section LoadFacts.
Context {Layout : Type}.
Implicit Types (s : State Layout) (ws : WorkspaceData Layout).

Ltac flatten_trace :=
  unfold emitted; simpl; repeat rewrite <- app_assoc; simpl.

(** Bring the hypotheses about the refresh together, and close a case in
    which they disagree. *)
Ltac refresh_conflict :=
  try match goal with
      | H : expandSaved ?a ?b = _, H' : context [expandSaved ?a ?b] |- _ =>
          rewrite H in H'; simpl in H'
      end;
  simplify_eq/=;
  try (exfalso; rewrite ?andb_false_r in *; congruence).

(** [loadWorkspace] unfolded, the refresh of the file explorer kept whole. *)
Ltac run_load :=
  cbv [loadWorkspace notice trigger emit loggerSave saveLocalStorage changeLayout
       Eff.bind Eff.ret Eff.gets Eff.modify Eff.throw Eff.try_catch
       with_storage with_world] in *;
  simpl in *.

(** The refresh raises what [refreshError] says, and touches the explorer's
    tree only. *)
Lemma refresh_run (restoreFolderState : bool) (saved : FolderState) s :
  exists w',
    refreshFileExplorer restoreFolderState saved s =
      (match refreshError restoreFolderState saved (world s) with
       | Some e => Raised e
       | None => Ok tt
       end,
       {| storage := storage s; world := w'; trace := trace s |}) /\
    folderCell w' = folderCell (world s).
Proof.
  destruct s as [st w t]. unfold refreshError. run. simpl.
  destruct (fileExplorer w) as [fe|]; simpl; [|eauto].
  destruct (enabled fe && restoreFolderState); simpl; [|eauto].
  destruct (treeRoot fe) as [root|]; simpl; [|eauto].
  destruct saved as [| |paths]; simpl; eauto.
  destruct (expandSaved paths (collapseAll root)) as [root' [e|]]; simpl; eauto.
Qed.

(** The write to local storage raises: nothing else is called. *)
Lemma load_write_fails s name ws e :
  getWorkspace name (storage s) = Some (Stored ws) ->
  saveLocalStorageFault (world s) = Some e ->
  let s' := snd (loadWorkspace name true s) in
  fst (loadWorkspace name true s) = Raised e /\
  storage s' = storage s /\
  emitted s s' (SaveLocalStorageCall (writtenValue ws) :: failure e).
Proof.
  destruct s as [st w t]. unfold writtenValue, failure. simpl.
  intros Hget Hfault. run_load. rewrite Hget. simpl.
  destruct (truthy (folderExpandState ws)); simpl; rewrite Hfault; simpl;
    repeat split; flatten_trace; reflexivity.
Qed.

(** [loadWorkspace] once the write to local storage, if any, is done. *)
Lemma load_after_write s name (restoreFolderState : bool) ws :
  getWorkspace name (storage s) = Some (Stored ws) ->
  (restoreFolderState = true -> saveLocalStorageFault (world s) = None) ->
  let s' := snd (loadWorkspace name restoreFolderState s) in
  match refreshError restoreFolderState (folderExpandState ws) (world s) with
  | None =>
      fst (loadWorkspace name restoreFolderState s) = Ok tt /\
      storage s' = set_activeWorkspace (Some name) (storage s) /\
      (restoreFolderState = true -> folderCell (world s') = writtenValue ws) /\
      emitted s s' (writeEvents restoreFolderState ws ++ layoutEvents s ws
                      ++ [Trigger "workspace-open" [name]; LogSave])
  | Some e =>
      fst (loadWorkspace name restoreFolderState s) = Raised e /\
      storage s' = storage s /\
      emitted s s' (writeEvents restoreFolderState ws ++ layoutEvents s ws
                      ++ failure e)
  end.
Proof.
  destruct s as [st w t].
  unfold writeEvents, writtenValue, layoutEvents, failure. simpl.
  intros Hget Hwrite. run_load. rewrite Hget. simpl.
  assert (Hstep : forall (w0 : World Layout) t0,
    fileExplorer w0 = fileExplorer w ->
    exists w',
      refreshFileExplorer restoreFolderState (folderExpandState ws)
        {| storage := st; world := w0; trace := t0 |} =
      (match refreshError restoreFolderState (folderExpandState ws) w with
       | Some e => Raised e
       | None => Ok tt
       end, {| storage := st; world := w'; trace := t0 |}) /\
      folderCell w' = folderCell w0).
  { intros w0 t0 Hfe.
    destruct (refresh_run restoreFolderState (folderExpandState ws)
                {| storage := st; world := w0; trace := t0 |}) as (w' & Hr & Hc).
    exists w'. split; [|exact Hc]. rewrite Hr. simpl.
    unfold refreshError. rewrite Hfe. reflexivity. }
  destruct restoreFolderState; simpl in *.
  - specialize (Hwrite eq_refl).
    destruct (truthy (folderExpandState ws)) eqn:Htr; simpl; rewrite Hwrite; simpl;
      destruct (changeLayoutFault w) as [le|]; simpl;
      match goal with
      | |- context [refreshFileExplorer _ _ {| storage := _; world := ?w0; trace := ?t0 |}] =>
          destruct (Hstep w0 t0 eq_refl) as (w' & -> & Hc)
      end;
      destruct (refreshError true (folderExpandState ws) w); simpl;
      repeat split; try (intros _); flatten_trace; try reflexivity;
      simpl in Hc; rewrite Hc; destruct (folderExpandState ws); try discriminate; reflexivity.
  - destruct (changeLayoutFault w) as [le|]; simpl;
      match goal with
      | |- context [refreshFileExplorer _ _ {| storage := _; world := ?w0; trace := ?t0 |}] =>
          destruct (Hstep w0 t0 eq_refl) as (w' & -> & Hc)
      end;
      destruct (refreshError false (folderExpandState ws) w); simpl;
      repeat split; try discriminate; flatten_trace; reflexivity.
Qed.

Lemma emitted_inj s s' (a b : list (Event Layout)) :
  emitted s s' a -> emitted s s' b -> a = b.
Proof.
  unfold emitted. intros Ha Hb. rewrite Ha in Hb. now apply app_inv_head in Hb.
Qed.

(** Find where an event sits in an explicit list of events. *)
Ltac cut_trace :=
  repeat match goal with
         | H : _ :: _ = ?pre ++ _ :: _ |- _ => destruct pre; simpl in H; simplify_eq
         | H : [] = ?pre ++ _ :: _ |- _ => destruct pre; simpl in H; discriminate H
         end.

Lemma refreshError_no_snapshot (restoreFolderState : bool) (saved : FolderState)
    (w : World Layout) :
  truthy saved = false -> refreshError restoreFolderState saved w = None.
Proof.
  unfold refreshError. intros Hs.
  destruct (fileExplorer w) as [fe|]; [|reflexivity].
  destruct (enabled fe && restoreFolderState); [|reflexivity].
  destruct (treeRoot fe); [|reflexivity].
  destruct saved; try reflexivity. discriminate.
Qed.

(** C1. In [loadWorkspace name true] on a record that holds a folder
    snapshot, whatever is done to the host before the layout call is the
    write of that snapshot to local storage followed by its completion: the
    layout call begins after the write is done, never while it is pending.
    When the write does not raise, the layout call does follow it, with the
    record's layout; when it raises, no layout call is made. *)
Theorem folder_write_precedes_layout s (name : string) ws :
  let s' := snd (loadWorkspace name true s) in
  let snapshot := folderExpandState ws in
  getWorkspace name (storage s) = Some (Stored ws) ->
  truthy snapshot = true ->
  (forall pre l post,
     emitted s s' (pre ++ ChangeLayoutCall l :: post) ->
     pre = [SaveLocalStorageCall snapshot; SaveLocalStorageDone] /\ l = layout ws) /\
  (saveLocalStorageFault (world s) = None ->
     exists post,
       emitted s s' ([SaveLocalStorageCall snapshot; SaveLocalStorageDone;
                      ChangeLayoutCall (layout ws)] ++ post)) /\
  (forall e, saveLocalStorageFault (world s) = Some e ->
     forall l, ~ In (ChangeLayoutCall l) (added s s')).
Proof.
  intros s' snapshot Hget Htruthy. subst s' snapshot.
  assert (Hval : writtenValue ws = folderExpandState ws).
  { unfold writtenValue. now rewrite Htruthy. }
  destruct (saveLocalStorageFault (world s)) as [e|] eqn:Hfault.
  - destruct (load_write_fails s name ws e Hget Hfault) as (_ & _ & Hev).
    rewrite Hval in Hev. unfold failure in Hev.
    split; [|split; [discriminate|]].
    + intros pre l post H. pose proof (emitted_inj _ _ _ _ Hev H) as Heq.
      cut_trace.
    + intros e' _ l Hin. rewrite (emitted_added _ _ _ Hev) in Hin.
      simpl in Hin. intuition discriminate.
  - pose proof (load_after_write s name true ws Hget (fun _ => Hfault)) as Hload.
    simpl in Hload. unfold writeEvents, layoutEvents, failure in Hload.
    rewrite Hval in Hload.
    split; [|split; [|discriminate]].
    + intros pre l post H.
      destruct (refreshError true (folderExpandState ws) (world s));
        [destruct Hload as (_ & _ & Hev)|destruct Hload as (_ & _ & _ & Hev)];
        pose proof (emitted_inj _ _ _ _ Hev H) as Heq; simpl in Heq;
        destruct (changeLayoutFault (world s)); simpl in Heq;
        cut_trace; split; reflexivity.
    + intros _.
      destruct (refreshError true (folderExpandState ws) (world s));
        [destruct Hload as (_ & _ & Hev)|destruct Hload as (_ & _ & _ & Hev)];
        simpl in Hev; eexists; exact Hev.
Qed.

(** When the layout call of [loadWorkspace] raises, the error is logged and
    the load goes on: provided the refresh of the file explorer that follows
    does not raise in its turn, the call returns normally, [name] is the
    active workspace, the records are untouched, the event
    ['workspace-open'] is triggered right after the warning, and no notice
    of failure is shown. *)
Lemma layout_error_swallowed s (name : string) ws (restoreFolderState : bool) (e : Error) :
  let s' := snd (loadWorkspace name restoreFolderState s) in
  getWorkspace name (storage s) = Some (Stored ws) ->
  In (ChangeLayoutRaised e) (added s s') ->
  refreshError restoreFolderState (folderExpandState ws) (world s) = None ->
  fst (loadWorkspace name restoreFolderState s) = Ok tt /\
  activeWorkspace (storage s') = Some name /\
  workspaces (storage s') = workspaces (storage s) /\
  (exists pre,
     emitted s s' (pre ++ [ChangeLayoutCall (layout ws); ChangeLayoutRaised e;
                           ConsoleWarn e; Trigger "workspace-open" [name];
                           LogSave])) /\
  (forall text, ~ In (Notice text) (added s s')).
Proof.
  intros s' Hget Hraised Hsafe. subst s'.
  assert (Hwrite : restoreFolderState = true -> saveLocalStorageFault (world s) = None).
  { intros ->. destruct (saveLocalStorageFault (world s)) as [e'|] eqn:Hfault; [|reflexivity].
    destruct (load_write_fails s name ws e' Hget Hfault) as (_ & _ & Hev).
    rewrite (emitted_added _ _ _ Hev) in Hraised. simpl in Hraised.
    exfalso. intuition discriminate. }
  pose proof (load_after_write s name restoreFolderState ws Hget Hwrite) as Hload.
  simpl in Hload. rewrite Hsafe in Hload.
  destruct Hload as (Hok & Hst & _ & Hev).
  rewrite (emitted_added _ _ _ Hev) in *. rewrite Hst. simpl.
  assert (Hfault : changeLayoutFault (world s) = Some e).
  { unfold writeEvents, layoutEvents in Hraised.
    destruct restoreFolderState, (changeLayoutFault (world s)); simpl in Hraised;
      intuition (try discriminate); congruence. }
  unfold layoutEvents in *. rewrite Hfault in *.
  repeat split; try assumption.
  - exists (writeEvents restoreFolderState ws). exact Hev.
  - intros text Hin. unfold writeEvents in Hin.
    destruct restoreFolderState; simpl in Hin; intuition discriminate.
Qed.

(** C3. In [loadWorkspace name true] on a record without a folder snapshot,
    the first thing done to the host is the write of [null] to the folder
    state in local storage.  When that write does not raise, it is done
    before the layout call, the folder state in local storage is [null] when
    the load ends (whatever an earlier load left there), the call returns
    normally with [name] active, and no notice is shown. *)
Theorem missing_snapshot_clears_folder_state s (name : string) ws :
  let s' := snd (loadWorkspace name true s) in
  getWorkspace name (storage s) = Some (Stored ws) ->
  truthy (folderExpandState ws) = false ->
  (exists rest, emitted s s' (SaveLocalStorageCall FsNull :: rest)) /\
  (saveLocalStorageFault (world s) = None ->
     fst (loadWorkspace name true s) = Ok tt /\
     folderCell (world s') = FsNull /\
     activeWorkspace (storage s') = Some name /\
     (exists rest,
        emitted s s' ([SaveLocalStorageCall FsNull; SaveLocalStorageDone;
                       ChangeLayoutCall (layout ws)] ++ rest)) /\
     (forall text, ~ In (Notice text) (added s s'))).
Proof.
  intros s' Hget Hnone. subst s'.
  assert (Hval : writtenValue ws = FsNull).
  { unfold writtenValue. now rewrite Hnone. }
  assert (Hload : saveLocalStorageFault (world s) = None ->
    let s' := snd (loadWorkspace name true s) in
    fst (loadWorkspace name true s) = Ok tt /\
    storage s' = set_activeWorkspace (Some name) (storage s) /\
    folderCell (world s') = FsNull /\
    emitted s s' ([SaveLocalStorageCall FsNull; SaveLocalStorageDone]
                    ++ layoutEvents s ws ++ [Trigger "workspace-open" [name]; LogSave])).
  { intros Hfault.
    pose proof (load_after_write s name true ws Hget (fun _ => Hfault)) as H.
    simpl in H. rewrite (refreshError_no_snapshot true _ _ Hnone) in H.
    unfold writeEvents in H. rewrite Hval in H.
    destruct H as (H1 & H2 & H3 & H4). auto. }
  split.
  - destruct (saveLocalStorageFault (world s)) as [e|] eqn:Hfault.
    + destruct (load_write_fails s name ws e Hget Hfault) as (_ & _ & Hev).
      rewrite Hval in Hev. eexists; exact Hev.
    + destruct (Hload eq_refl) as (_ & _ & _ & Hev). eexists; exact Hev.
  - intros Hfault. destruct (Hload Hfault) as (Hok & Hst & Hcell & Hev).
    repeat split; try assumption.
    + rewrite Hst. reflexivity.
    + unfold layoutEvents in Hev. eexists. exact Hev.
    + intros text Hin. rewrite (emitted_added _ _ _ Hev) in Hin.
      unfold layoutEvents in Hin.
      destruct (changeLayoutFault (world s)); simpl in Hin; intuition discriminate.
Qed.

End LoadFacts.
End LoadFacts.

(* ===================================================================== *)
(** * Sorting and the natural order of names *)
(* ===================================================================== *)

Module SortFacts.

Section Sort.
Context {A : Type} (leb : A -> A -> bool).
Hypothesis leb_total : forall a b, leb a b = true \/ leb b a = true.

Let le (a b : A) : Prop := leb a b = true.

Lemma insert_by_perm x l : Permutation (Js.insert_by leb x l) (x :: l).
Proof.
  induction l as [|y l IH]; simpl; [reflexivity|].
  destruct (leb x y); [reflexivity|].
  rewrite IH. apply perm_swap.
Qed.

Lemma sort_by_perm l : Permutation (Js.sort_by leb l) l.
Proof.
  induction l as [|x l IH]; simpl; [reflexivity|].
  rewrite insert_by_perm. now constructor.
Qed.

Lemma insert_by_hd x y l :
  le y x -> HdRel le y l -> HdRel le y (Js.insert_by leb x l).
Proof.
  intros Hyx Hhd. destruct l as [|z l]; simpl.
  - now constructor.
  - destruct (leb x z); constructor; [assumption|].
    now inversion Hhd.
Qed.

Lemma insert_by_sorted x l : Sorted le l -> Sorted le (Js.insert_by leb x l).
Proof.
  induction 1 as [|y l Hs IH Hhd]; simpl.
  - repeat constructor.
  - destruct (leb x y) eqn:Hxy.
    + constructor; [now constructor|]. now constructor.
    + constructor; [exact IH|].
      apply insert_by_hd; [|exact Hhd].
      destruct (leb_total x y) as [H|H]; [congruence|exact H].
Qed.

Lemma sort_by_sorted l : Sorted le (Js.sort_by leb l).
Proof.
  induction l as [|x l IH]; simpl; [constructor|].
  now apply insert_by_sorted.
Qed.

End Sort.

Lemma Sorted_weaken {A} (R1 R2 : A -> A -> Prop) (l : list A) :
  (forall a b, R1 a b -> R2 a b) -> Sorted R1 l -> Sorted R2 l.
Proof.
  intros Himp. induction 1 as [|x l Hs IH Hhd]; constructor; [exact IH|].
  destruct Hhd; constructor. now apply Himp.
Qed.

End SortFacts.

Module CollationFacts.
Import Collation.

Lemma key_compare_refl k : key_compare k k = Eq.
Proof. unfold key_compare. now rewrite !N.compare_refl. Qed.

Lemma key_compare_antisym a b : key_compare b a = CompOpp (key_compare a b).
Proof.
  unfold key_compare.
  rewrite (N.compare_antisym (fst a) (fst b)), (N.compare_antisym (snd a) (snd b)).
  destruct (fst a ?= fst b)%N; simpl; reflexivity.
Qed.




Lemma token_compare_refl t : token_compare t t = Eq.
Proof. apply key_compare_refl. Qed.

Lemma token_compare_antisym a b : token_compare b a = CompOpp (token_compare a b).
Proof. apply key_compare_antisym. Qed.




Lemma lex_compare_antisym a : forall b, lex_compare b a = CompOpp (lex_compare a b).
Proof.
  induction a as [|x a IH]; intros [|y b]; simpl; try reflexivity.
  rewrite (token_compare_antisym x y).
  destruct (token_compare x y); simpl; [apply IH|reflexivity|reflexivity].
Qed.


Lemma lex_compare_app p : forall a b,
  lex_compare (p ++ a) (p ++ b) = lex_compare a b.
Proof.
  induction p as [|x p IH]; intros a b; simpl; [reflexivity|].
  now rewrite token_compare_refl.
Qed.


Lemma localeCompare_antisym a b : localeCompare b a = CompOpp (localeCompare a b).
Proof. apply lex_compare_antisym. Qed.



Lemma natural_le_total a b : natural_le a b \/ natural_le b a.
Proof.
  unfold natural_le. rewrite (localeCompare_antisym a b).
  destruct (localeCompare a b); simpl; [left|left|right]; discriminate.
Qed.


Lemma natural_leb_le a b : natural_leb a b = true <-> natural_le a b.
Proof.
  unfold natural_leb, natural_le. destruct (localeCompare a b); split; congruence.
Qed.

(** The sorted list is a rearrangement of the given one, in natural order. *)
Lemma sort_natural (l : list string) :
  Permutation (Js.sort localeCompare l) l /\
  Sorted natural_le (Js.sort localeCompare l).
Proof.
  unfold Js.sort. split; [apply SortFacts.sort_by_perm|].
  eapply SortFacts.Sorted_weaken; [|apply (SortFacts.sort_by_sorted natural_leb)].
  - intros a b H. now apply natural_leb_le.
  - intros a b. destruct (natural_le_total a b) as [H|H];
      [left|right]; now apply natural_leb_le.
Qed.

(** ** Digit runs and letter case *)

Lemma tokens_from_digits d : forall acc,
  Js.all_digits d = true -> tokens_from (Some acc) d = [TNum (Js.decimal acc d)].
Proof.
  induction d as [|c d IH]; intros acc Hd; simpl in *; [reflexivity|].
  apply andb_prop in Hd as [Hc Hd]. rewrite Hc. now apply IH.
Qed.

Lemma tokens_digits d :
  d <> EmptyString -> Js.all_digits d = true ->
  tokens d = [TNum (Js.decimal 0 d)].
Proof.
  destruct d as [|c d]; [congruence|]. intros _ Hd. unfold tokens. simpl in *.
  apply andb_prop in Hd as [Hc Hd]. rewrite Hc. now apply tokens_from_digits.
Qed.

(** The tokens of a name that ends in a digit run after a character that is
    not a digit: those of what is before, then the number. *)
Lemma tokens_from_number_last q (c : ascii) : forall run,
  Js.is_digit c = false ->
  exists pre, forall d,
    d <> EmptyString -> Js.all_digits d = true ->
    tokens_from run (q ++ String c d) = pre ++ [TNum (Js.decimal 0 d)].
Proof.
  induction q as [|c0 q IH]; intros run Hc; simpl.
  - rewrite Hc. exists (flush run ++ [TChr (to_lower c)]). intros d Hne Hd.
    rewrite <- app_assoc. simpl. f_equal. f_equal. now apply tokens_digits.
  - destruct (Js.is_digit c0).
    + apply IH, Hc.
    + destruct (IH None Hc) as [pre Hpre].
      exists (flush run ++ TChr (to_lower c0) :: pre). intros d Hne Hd.
      rewrite (Hpre d Hne Hd). now rewrite <- app_assoc.
Qed.

(** Two names that differ in their last digit run only are ordered by the
    numbers the runs denote. *)
Lemma localeCompare_numeric q (c : ascii) d1 d2 :
  Js.is_digit c = false ->
  d1 <> EmptyString -> Js.all_digits d1 = true ->
  d2 <> EmptyString -> Js.all_digits d2 = true ->
  localeCompare (q ++ String c d1) (q ++ String c d2) =
  N.compare (Js.decimal 0 d1) (Js.decimal 0 d2).
Proof.
  intros Hc Hn1 Hd1 Hn2 Hd2. unfold localeCompare, tokens.
  destruct (tokens_from_number_last q c None Hc) as [pre Hpre].
  rewrite (Hpre d1 Hn1 Hd1), (Hpre d2 Hn2 Hd2), lex_compare_app. simpl.
  unfold token_compare, key_compare. simpl.
  now destruct (Js.decimal 0 d1 ?= Js.decimal 0 d2)%N.
Qed.











End CollationFacts.

(* ===================================================================== *)
(** * Saving with and without navigation memory *)
(* ===================================================================== *)

Module SaveFacts.
Import Host Eff Manager Store.
Import StoreFacts.

Ltac run_plugin :=
  cbv [Plugin.saveCurrentWorkspace Plugin.saveNavigationLayout
       Plugin.restoreNavigationLayout Plugin.onManager Plugin.with_manager
       Plugin.with_navigationLayouts Eff.zoom getActiveWorkspace] in *;
  run.

Ltac run_v1 :=
  cbv [ManagerV1.saveWorkspace ManagerV1.loadWorkspace ManagerV1.deleteWorkspace
       ManagerV1.renameWorkspace notice trigger emit getLayout loadLocalStorage
       saveLocalStorage changeLayout
       Eff.bind Eff.ret Eff.gets Eff.modify Eff.throw Eff.try_catch Eff.when
       with_storage with_world] in *;
  simpl in *.

Section SaveFacts.
Context {Layout : Type}.
Implicit Types (s : State Layout) (p : Plugin.State Layout).

(** [saveWorkspace name false] assigns a fresh record that holds no folder
    state, makes [name] active and saves the log. *)
Lemma saveWorkspace_plain s (name : string) :
  Js.blank name = false ->
  getLayoutFault (world s) = None ->
  saveWorkspace name false s =
    (Ok tt,
     {| storage :=
          set_activeWorkspace (Some name)
            (assign name (Stored {| layout := currentLayout (world s);
                                    lastSaved := now (world s);
                                    folderExpandState := FsUndefined;
                                    metadata := None |}) (storage s));
        world := world s;
        trace := trace s ++ [LogSave] |}).
Proof.
  destruct s as [st w t]. simpl. intros Hb Hf. run.
  rewrite Hb. simpl. rewrite Hf. reflexivity.
Qed.

(** The same of the earlier revision, which has no log. *)
Lemma saveWorkspaceV1_plain s (name : string) :
  Js.blank name = false ->
  getLayoutFault (world s) = None ->
  ManagerV1.saveWorkspace name false s =
    (Ok tt,
     {| storage :=
          set_activeWorkspace (Some name)
            (assign name (Stored {| layout := currentLayout (world s);
                                    lastSaved := now (world s);
                                    folderExpandState := FsUndefined;
                                    metadata := None |}) (storage s));
        world := world s;
        trace := trace s |}).
Proof.
  destruct s as [st w t]. simpl. intros Hb Hf. run_v1.
  rewrite Hb. simpl. rewrite Hf. reflexivity.
Qed.

(** C7, as the code has it.  With navigation memory disabled, a save of a
    name that has a record ([saveNavigationLayout], which then returns at
    once, followed by [saveWorkspace] with the flag every caller passes,
    [false]) replaces the record as a whole: its layout is the current
    layout, [lastSaved] the current time, and it holds no folder state (the
    one recorded before is dropped); the earlier revision of [saveWorkspace]
    stores the same.  The other records and the sidebar layout remembered
    for the name are left as they were: that one is overwritten only by
    [saveNavigationLayout] with navigation memory enabled. *)
Theorem save_replaces_record p (name : string) (old : WorkspaceData Layout) :
  let w := world (Plugin.manager p) in
  let afterSnapshot := snd (Plugin.saveNavigationLayout name p) in
  let p' := snd (Plugin.onManager (saveWorkspace name false) afterSnapshot) in
  let pV1 := snd (Plugin.onManager (ManagerV1.saveWorkspace name false) afterSnapshot) in
  let fresh := {| layout := currentLayout w; lastSaved := now w;
                  folderExpandState := FsUndefined; metadata := None |} in
  Plugin.rememberNavigationLayout (Plugin.settings p) = false ->
  Js.get name (workspaces (storage (Plugin.manager p))) = Some (Stored old) ->
  Js.blank name = false ->
  getLayoutFault w = None ->
  afterSnapshot = p /\
  (Js.get name (workspaces (storage (Plugin.manager p'))) = Some (Stored fresh) /\
   getWorkspace name (storage (Plugin.manager p')) = Some (Stored fresh) /\
   Js.names (workspaces (storage (Plugin.manager p'))) =
     Js.names (workspaces (storage (Plugin.manager p))) /\
   (forall k, k <> name ->
      Js.get k (workspaces (storage (Plugin.manager p'))) =
      Js.get k (workspaces (storage (Plugin.manager p))))) /\
  Plugin.navigationLayouts p' = Plugin.navigationLayouts p /\
  (storage (Plugin.manager pV1) = storage (Plugin.manager p') /\
   Plugin.navigationLayouts pV1 = Plugin.navigationLayouts p) /\
  (forall q : Plugin.State Layout,
     Plugin.rememberNavigationLayout (Plugin.settings q) = true ->
     Plugin.navigationLayouts (snd (Plugin.saveNavigationLayout name q)) !! name =
       Some (Plugin.getCurrentNavigationLayout (world (Plugin.manager q)))).
Proof.
  destruct p as [cfg navs m]. simpl. intros Hmem Hget Hblank Hlay.
  assert (Hown : Js.has name (workspaces (storage m)) = true).
  { apply JsFacts.has_get. eauto. }
  assert (Hsnap : Plugin.saveNavigationLayout name
                    {| Plugin.settings := cfg; Plugin.navigationLayouts := navs;
                       Plugin.manager := m |} =
                  (Ok tt, {| Plugin.settings := cfg; Plugin.navigationLayouts := navs;
                             Plugin.manager := m |})).
  { cbv [Plugin.saveNavigationLayout Eff.bind Eff.gets Eff.ret]. simpl. now rewrite Hmem. }
  rewrite Hsnap. simpl.
  cbv [Plugin.onManager Eff.zoom Plugin.with_manager]. simpl.
  rewrite (saveWorkspace_plain m name Hblank Hlay).
  rewrite (saveWorkspaceV1_plain m name Hblank Hlay). simpl.
  rewrite (assign_own name _ _ Hown). simpl.
  split; [reflexivity|]. split; [|split; [reflexivity|split; [split; reflexivity|]]].
  - assert (Hnew : Js.get name (Js.replace name
                     (Stored {| layout := currentLayout (world m);
                                lastSaved := now (world m);
                                folderExpandState := FsUndefined;
                                metadata := None |}) (workspaces (storage m))) =
                   Some (Stored {| layout := currentLayout (world m);
                                   lastSaved := now (world m);
                                   folderExpandState := FsUndefined;
                                   metadata := None |})).
    { rewrite JsFacts.get_replace, String.eqb_refl. now rewrite Hown. }
    split; [exact Hnew|]. split; [apply getWorkspace_own; exact Hnew|].
    split.
    + unfold Js.names. generalize (workspaces (storage m)). clear.
      intros o. induction o as [|[k0 v0] o IH]; simpl; [reflexivity|].
      destruct (String.eqb name k0); simpl; now rewrite IH.
    + intros k Hk. rewrite JsFacts.get_replace.
      destruct (String.eqb_spec k name); [contradiction|reflexivity].
  - intros q Hq. destruct q as [cfgq navsq [stq wq tq]]. simpl in *.
    cbv [Plugin.saveNavigationLayout Plugin.onManager Manager.emit
         Eff.zoom Eff.bind Eff.ret Eff.gets Eff.modify
         Plugin.with_manager Plugin.with_navigationLayouts]. simpl.
    rewrite Hq. simpl. apply lookup_insert_eq.
Qed.

End SaveFacts.
End SaveFacts.

(* ===================================================================== *)
(** * Listing the names *)
(* ===================================================================== *)

Module ListingFacts.
Import Host Eff Manager Store Collation.
Import StoreFacts.

Lemma filter_split_perm {A} (f : A -> bool) (l : list A) :
  Permutation (List.filter f l ++ List.filter (fun x => negb (f x)) l) l.
Proof.
  induction l as [|x l IH]; simpl; [reflexivity|].
  destruct (f x); simpl.
  - now constructor.
  - rewrite <- Permutation_middle. now constructor.
Qed.

(** [Object.keys] lists every own key once. *)
Lemma keys_perm {V} (o : Js.Obj V) : Permutation (Js.keys o) (Js.names o).
Proof.
  unfold Js.keys. rewrite SortFacts.sort_by_perm. apply filter_split_perm.
Qed.

Section ListingFacts.
Context {Layout : Type}.
Implicit Types (s : State Layout) (st : WorkspacesStorage Layout).

(** [getWorkspaceNames] returns the stored names, each once, in natural
    order. *)
Lemma getWorkspaceNames_sorted st :
  Permutation (getWorkspaceNames st) (Js.names (workspaces st)) /\
  Sorted natural_le (getWorkspaceNames st).
Proof.
  unfold getWorkspaceNames.
  destruct (CollationFacts.sort_natural (Js.keys (workspaces st))) as [Hp Hs].
  split; [|exact Hs]. rewrite Hp. apply keys_perm.
Qed.

(** The switcher over the standalone manager lists the names in natural
    order whatever the settings are. *)
Lemma getItems_any_settings (p : Plugin.State Layout) (cfg : Plugin.Settings) :
  Switcher.getItems
    {| Plugin.settings := cfg;
       Plugin.navigationLayouts := Plugin.navigationLayouts p;
       Plugin.manager := Plugin.manager p |} = Switcher.getItems p /\
  Sorted natural_le (Switcher.getItems p).
Proof.
  split; [reflexivity|]. unfold Switcher.getItems. apply getWorkspaceNames_sorted.
Qed.

(** The switcher over the host's own workspaces follows the setting: natural
    order when sorting is on, the order of [Object.keys] when it is off. *)
Lemma getItemsCore_follows_setting {V} (cfg : Plugin.Settings) (o : Js.Obj V) :
  fst (Switcher.getItemsCore cfg (Some o)) =
  if Plugin.sortWorkspacesAlphabetically cfg
  then Js.sort localeCompare (Js.keys o) else Js.keys o.
Proof.
  unfold Switcher.getItemsCore.
  now destruct (Plugin.sortWorkspacesAlphabetically cfg).
Qed.


End ListingFacts.
End ListingFacts.

(* ===================================================================== *)
(** * Restoring the navigation layout *)
(* ===================================================================== *)

Module RestoreFacts.
Import Host Eff.

Lemma restoreSplit_idem (open : bool) (x : option Split) :
  Plugin.restoreSplit open (Plugin.restoreSplit open x) = Plugin.restoreSplit open x.
Proof.
  destruct x as [[[[]|] tab width]|], open; reflexivity.
Qed.

Lemma restoreSplit_in_state (open : bool) (x : option Split) :
  Plugin.panelInState open x -> Plugin.restoreSplit open x = x.
Proof.
  destruct x as [[c tab width]|]; simpl; [|contradiction].
  intros ->. now destruct open.
Qed.

Lemma restoreSplitV1_idem (open : bool) (x : option Split) :
  PluginV1.restoreSplit open (PluginV1.restoreSplit open x) = PluginV1.restoreSplit open x.
Proof.
  destruct x as [[[[]|] tab width]|], open; reflexivity.
Qed.

Lemma restoreSplitV1_in_state (open : bool) (x : option Split) :
  Plugin.panelInState open x -> PluginV1.restoreSplit open x = x.
Proof.
  destruct x as [[c tab width]|]; simpl; [|contradiction].
  intros ->. now destruct open.
Qed.

Section RestoreFacts.
Context {Layout : Type}.
Implicit Types (w : World Layout) (p : Plugin.State Layout).

Lemma restoreWorld_idem cfg layouts (name : string) w :
  Plugin.restoreWorld cfg layouts name (Plugin.restoreWorld cfg layouts name w) =
  Plugin.restoreWorld cfg layouts name w.
Proof.
  unfold Plugin.restoreWorld.
  destruct (negb (Plugin.rememberNavigationLayout cfg)
            || Plugin.maintainLayoutAcrossWorkspaces cfg); [reflexivity|].
  destruct (layouts !! name) as [nav|]; [|reflexivity].
  destruct w; unfold set_splits; simpl. now rewrite !restoreSplit_idem.
Qed.

Lemma restoreWorldV1_idem cfg layouts (name : string) w :
  PluginV1.restoreWorld cfg layouts name (PluginV1.restoreWorld cfg layouts name w) =
  PluginV1.restoreWorld cfg layouts name w.
Proof.
  unfold PluginV1.restoreWorld.
  destruct (negb (Plugin.rememberNavigationLayout cfg)
            || Plugin.maintainLayoutAcrossWorkspaces cfg); [reflexivity|].
  destruct (layouts !! name) as [nav|]; [|reflexivity].
  destruct w; unfold set_splits; simpl. now rewrite !restoreSplitV1_idem.
Qed.

(** C9. [restoreNavigationLayout] is idempotent: run twice for the same
    workspace it leaves the plugin and the host as one run does, whatever
    the settings, the stored snapshot and the state of the side docks; and
    a dock that is already as the snapshot wants it is left as it is.  The
    same holds for the earlier revision of the method. *)
Theorem restore_idempotent p (name : string) :
  let once := snd (Plugin.restoreNavigationLayout name p) in
  let w := Manager.world (Plugin.manager p) in
  let cfg := Plugin.settings p in
  let layouts := Plugin.navigationLayouts p in
  snd (Plugin.restoreNavigationLayout name once) = once /\
  fst (Plugin.restoreNavigationLayout name p) = Ok tt /\
  (forall nav, layouts !! name = Some nav ->
     (Plugin.panelInState (Plugin.leftSidebarOpen nav) (leftSplit w) ->
        leftSplit (Manager.world (Plugin.manager once)) = leftSplit w) /\
     (Plugin.panelInState (Plugin.rightSidebarOpen nav) (rightSplit w) ->
        rightSplit (Manager.world (Plugin.manager once)) = rightSplit w)) /\
  PluginV1.restoreWorld cfg layouts name (PluginV1.restoreWorld cfg layouts name w) =
    PluginV1.restoreWorld cfg layouts name w /\
  (forall nav, layouts !! name = Some nav ->
     (Plugin.panelInState (Plugin.leftSidebarOpen nav) (leftSplit w) ->
        leftSplit (PluginV1.restoreWorld cfg layouts name w) = leftSplit w) /\
     (Plugin.panelInState (Plugin.rightSidebarOpen nav) (rightSplit w) ->
        rightSplit (PluginV1.restoreWorld cfg layouts name w) = rightSplit w)).
Proof.
  destruct p as [cfg navs [st w t]]. simpl.
  unfold Plugin.restoreNavigationLayout, Eff.modify, Plugin.with_manager,
    Manager.with_world. simpl.
  split; [now rewrite restoreWorld_idem|].
  split; [reflexivity|].
  split; [|split; [apply restoreWorldV1_idem|]].
  - intros nav Hnav. unfold Plugin.restoreWorld. rewrite Hnav.
    destruct (negb (Plugin.rememberNavigationLayout cfg)
              || Plugin.maintainLayoutAcrossWorkspaces cfg);
      [split; reflexivity|].
    destruct w; simpl. split; apply restoreSplit_in_state.
  - intros nav Hnav. unfold PluginV1.restoreWorld. rewrite Hnav.
    destruct (negb (Plugin.rememberNavigationLayout cfg)
              || Plugin.maintainLayoutAcrossWorkspaces cfg);
      [split; reflexivity|].
    destruct w; simpl. split; apply restoreSplitV1_in_state.
Qed.

End RestoreFacts.
End RestoreFacts.

(* ===================================================================== *)
(** * The earlier revision of the manager *)
(* ===================================================================== *)

Module EarlierRevisionFacts.
Import Host Eff Manager Store.

Ltac run_v1 :=
  cbv [ManagerV1.loadWorkspace notice trigger emit saveLocalStorage changeLayout
       Eff.bind Eff.ret Eff.gets Eff.modify Eff.throw Eff.try_catch Eff.when
       with_storage with_world] in *;
  simpl in *.

Section EarlierRevisionFacts.
Context {Layout : Type}.
Implicit Types (s : State Layout) (ws : WorkspaceData Layout).

(** In the earlier revision an error of the layout call reaches the handler
    of [loadWorkspace]: a notice of failure is shown, the error is raised
    again and the active pointer is not moved. *)
Lemma v1_layout_error_propagates s (name : string) ws (e : Error) :
  let s' := snd (ManagerV1.loadWorkspace name false s) in
  getWorkspace name (storage s) = Some (Stored ws) ->
  changeLayoutFault (world s) = Some e ->
  fst (ManagerV1.loadWorkspace name false s) = Raised e /\
  storage s' = storage s /\
  emitted s s' [ChangeLayoutCall (layout ws); ChangeLayoutRaised e; ConsoleError e;
                Notice ("Failed to load workspace: " ++ message e)].
Proof.
  destruct s as [st w t]. unfold emitted. simpl. intros Hget Hfault.
  run_v1. rewrite Hget. simpl. rewrite Hfault. simpl.
  repeat split. repeat rewrite <- app_assoc. reflexivity.
Qed.

(** In the earlier revision a record without a folder snapshot leaves the
    folder state in local storage as the previous load left it. *)
Lemma v1_keeps_stale_folder_state s (name : string) ws :
  let s' := snd (ManagerV1.loadWorkspace name true s) in
  getWorkspace name (storage s) = Some (Stored ws) ->
  truthy (folderExpandState ws) = false ->
  changeLayoutFault (world s) = None ->
  folderCell (world s') = folderCell (world s) /\
  emitted s s' [ChangeLayoutCall (layout ws); ChangeLayoutDone;
                Trigger "workspace-open" [name]].
Proof.
  destruct s as [st w t]. unfold emitted. simpl. intros Hget Hnone Hfault.
  run_v1. rewrite Hget. simpl. rewrite Hnone. simpl.
  rewrite Hfault. simpl. split; [reflexivity|].
  repeat rewrite <- app_assoc. reflexivity.
Qed.

(** The earlier revision of [saveWorkspace] replaces the record in the same
    way; without [saveFolderState] the new record holds no folder state. *)
Lemma v1_save_plain s (name : string) :
  Js.blank name = false ->
  getLayoutFault (world s) = None ->
  getWorkspace name (storage (snd (ManagerV1.saveWorkspace name false s))) =
    Some (Stored {| layout := currentLayout (world s);
                    lastSaved := now (world s);
                    folderExpandState := FsUndefined;
                    metadata := None |}).
Proof.
  intros Hb Hf. rewrite (SaveFacts.saveWorkspaceV1_plain s name Hb Hf).
  cbn [snd storage]. apply StoreFacts.getWorkspace_saved.
Qed.

End EarlierRevisionFacts.
End EarlierRevisionFacts.

(* ===================================================================== *)
(** * The theorems at work on the demonstration vault *)
(* ===================================================================== *)

Module Examples.
Import Host Eff Manager Store.

(** C1 on ["Research"], whose record holds the snapshot [["Projects"]]. *)
Lemma folder_write_precedes_layout_witness :
  let s' := snd (loadWorkspace "Research" true Demo.state0) in
  getWorkspace "Research" (storage Demo.state0) = Some (Stored Demo.research) /\
  truthy (folderExpandState Demo.research) = true /\
  (forall pre l post,
     emitted Demo.state0 s' (pre ++ ChangeLayoutCall l :: post) ->
     pre = [SaveLocalStorageCall (FsPaths ["Projects"]); SaveLocalStorageDone] /\
     l = "panes: paper | notes") /\
  (exists post,
     emitted Demo.state0 s'
       ([SaveLocalStorageCall (FsPaths ["Projects"]); SaveLocalStorageDone;
         ChangeLayoutCall "panes: paper | notes"] ++ post)).
Proof.
  split; [reflexivity|]. split; [reflexivity|].
  pose proof (LoadFacts.folder_write_precedes_layout
                Demo.state0 "Research" Demo.research eq_refl eq_refl) as H.
  split; [exact (proj1 H)|exact (proj1 (proj2 H) eq_refl)].
Defined.

(** C2 at the failing input.  The layout call of [loadWorkspace "Journal"
    true] raises and the error is caught and logged; the refresh of the file
    explorer that follows then calls [setCollapsed] on the item of the saved
    path ["Daily"], which has none: the load fails with a [TypeError], the
    notice of failure is shown, ["Journal"] does not become the active
    workspace and ['workspace-open'] is not triggered. *)
Lemma layout_error_then_refresh_raises :
  let s := Fixture.stateStaleFolder in
  let s' := snd (loadWorkspace "Journal" true s) in
  getWorkspace "Journal" (storage s) = Some (Stored Fixture.journal) /\
  changeLayoutFault (world s) = Some Demo.templaterError /\
  fst (loadWorkspace "Journal" true s) = Raised notAFunction /\
  activeWorkspace (storage s') = Some "Research" /\
  added s s' =
    [SaveLocalStorageCall (FsPaths ["Daily"]); SaveLocalStorageDone;
     ChangeLayoutCall "panes: journal"; ChangeLayoutRaised Demo.templaterError;
     ConsoleWarn Demo.templaterError;
     LogSave; ConsoleError notAFunction;
     Notice "Failed to load workspace: node.setCollapsed is not a function"].
Proof.
  repeat split; reflexivity.
Qed.

(** The same load on the tree of the demonstration vault, where every saved
    path belongs to a folder: the error of the layout call is swallowed. *)
Lemma layout_error_swallowed_example :
  let s' := snd (loadWorkspace "Research" true Demo.stateFaulty) in
  getWorkspace "Research" (storage Demo.stateFaulty) = Some (Stored Demo.research) /\
  In (ChangeLayoutRaised Demo.templaterError) (added Demo.stateFaulty s') /\
  refreshError true (folderExpandState Demo.research) (world Demo.stateFaulty) = None /\
  fst (loadWorkspace "Research" true Demo.stateFaulty) = Ok tt /\
  activeWorkspace (storage s') = Some "Research" /\
  (forall text, ~ In (Notice text) (added Demo.stateFaulty s')).
Proof.
  assert (Hin : In (ChangeLayoutRaised Demo.templaterError)
                  (added Demo.stateFaulty
                     (snd (loadWorkspace "Research" true Demo.stateFaulty)))).
  { vm_compute. auto. }
  split; [reflexivity|]. split; [exact Hin|]. split; [reflexivity|].
  pose proof (LoadFacts.layout_error_swallowed
                Demo.stateFaulty "Research" Demo.research true Demo.templaterError
                eq_refl Hin eq_refl) as H.
  split; [exact (proj1 H)|]. split; [exact (proj1 (proj2 H))|].
  exact (proj2 (proj2 (proj2 (proj2 H)))).
Defined.

(** C3 on ["Writing"], saved without folder state, while local storage still
    holds [["Archive"]]. *)
Lemma missing_snapshot_clears_folder_state_witness :
  let s' := snd (loadWorkspace "Writing" true Demo.state0) in
  getWorkspace "Writing" (storage Demo.state0) = Some (Stored Demo.writing) /\
  truthy (folderExpandState Demo.writing) = false /\
  folderCell (world Demo.state0) = FsPaths ["Archive"] /\
  fst (loadWorkspace "Writing" true Demo.state0) = Ok tt /\
  folderCell (world s') = FsNull /\
  activeWorkspace (storage s') = Some "Writing".
Proof.
  split; [reflexivity|]. split; [reflexivity|]. split; [reflexivity|].
  pose proof (proj2 (LoadFacts.missing_snapshot_clears_folder_state
                       Demo.state0 "Writing" Demo.writing eq_refl eq_refl) eq_refl) as H.
  split; [exact (proj1 H)|]. split; [exact (proj1 (proj2 H))|].
  exact (proj1 (proj2 (proj2 H))).
Defined.

(** C4 at the failing input.  No workspace is named ["toString"]: the name
    is not listed and has no record, and it is not blank.  Yet
    [renameWorkspace "Research" "toString"] is refused with 'Workspace
    "toString" already exists', in both revisions, because [hasWorkspace]
    tests [name in workspaces], which holds of the names inherited from
    [Object.prototype].  The other way round, no workspace is named
    ["valueOf"], yet [renameWorkspace "valueOf" "Reading"] reports no error:
    it stores the inherited function under ["Reading"] and triggers
    ['workspace-rename']. *)
Lemma rename_to_inherited_name_refused :
  let s := Demo.state0 in
  let s' := snd (renameWorkspace "Research" "toString" s) in
  let s2 := snd (renameWorkspace "valueOf" "Reading" s) in
  getWorkspaceNames (storage s) = ["Research"; "Writing"] /\
  Js.get "toString" (workspaces (storage s)) = None /\
  Js.blank "toString" = false /\
  hasWorkspace "toString" (storage s) = true /\
  storage s' = storage s /\
  added s s' = [Notice ("Workspace " ++ Js.quoted "toString" ++ " already exists")] /\
  snd (ManagerV1.renameWorkspace "Research" "toString" s) = s' /\
  (Js.get "valueOf" (workspaces (storage s)) = None /\
   getWorkspaceNames (storage s2) = ["Reading"; "Research"; "Writing"] /\
   Js.get "Reading" (workspaces (storage s2)) = Some (Foreign true) /\
   added s s2 = [Trigger "workspace-rename" ["Reading"; "valueOf"]; LogSave]).
Proof.
  repeat split; reflexivity.
Qed.

(** C8 at the failing input.  No workspace is named ["constructor"], yet
    [deleteWorkspace "constructor"] does not report 'not found': it goes on
    as if a record had been removed and triggers ['workspace-delete'], in
    both revisions; [hasWorkspace "constructor"] holds before and after. *)
Lemma delete_of_inherited_name_not_reported :
  let s := Demo.state0 in
  let s' := snd (deleteWorkspace "constructor" s) in
  getWorkspaceNames (storage s) = ["Research"; "Writing"] /\
  Js.get "constructor" (workspaces (storage s)) = None /\
  added s s' = [Trigger "workspace-delete" ["constructor"]; LogSave] /\
  added s (snd (ManagerV1.deleteWorkspace "constructor" s)) =
    [Trigger "workspace-delete" ["constructor"]] /\
  hasWorkspace "constructor" (storage s) = true /\
  hasWorkspace "constructor" (storage s') = true.
Proof.
  repeat split; reflexivity.
Qed.

(** C10 at the failing input.  The active pointer of the demonstration store
    is valid.  [setActiveWorkspace "constructor"] moves it to a name that has
    no record, and so does [saveWorkspace "__proto__"] (in both revisions),
    whose assignment replaces the prototype of [workspaces] and creates no
    key. *)
Lemma setActive_inherited_name_dangles :
  let s := Demo.state0 in
  let s1 := snd (setActiveWorkspace "constructor" s) in
  let s2 := snd (saveWorkspace "__proto__" false s) in
  activeWorkspace (storage s) = Some "Research" /\
  Js.has "Research" (workspaces (storage s)) = true /\
  (activeWorkspace (storage s1) = Some "constructor" /\
   Js.has "constructor" (workspaces (storage s1)) = false /\
   getWorkspaceNames (storage s1) = ["Research"; "Writing"]) /\
  (activeWorkspace (storage s2) = Some "__proto__" /\
   Js.has "__proto__" (workspaces (storage s2)) = false /\
   getWorkspaceNames (storage s2) = ["Research"; "Writing"] /\
   storage (snd (ManagerV1.saveWorkspace "__proto__" false s)) = storage s2).
Proof.
  repeat split; reflexivity.
Qed.

(** C7 with navigation memory disabled: the record of ["Research"] is
    replaced and the remembered sidebar layout is kept. *)
Lemma save_replaces_record_witness :
  let p := Demo.plugin0 false true in
  let p' := snd (Plugin.onManager (saveWorkspace "Research" false)
                   (snd (Plugin.saveNavigationLayout "Research" p))) in
  getWorkspace "Research" (storage (Plugin.manager p')) =
    Some (Stored {| layout := "panes: editor | outline";
                    lastSaved := 1700000000000%Z;
                    folderExpandState := FsUndefined;
                    metadata := None |}) /\
  Plugin.navigationLayouts p' = Plugin.navigationLayouts p.
Proof.
  pose proof (SaveFacts.save_replaces_record (Demo.plugin0 false true)
                "Research" Demo.research eq_refl eq_refl eq_refl eq_refl)
    as (_ & (_ & Hrec & _) & Hnav & _).
  split; [exact Hrec|exact Hnav].
Defined.

(** C7, counterexample: saving ["Research"] with navigation memory disabled
    does not leave the folder state of its record unchanged; the record held
    [["Projects"]] and holds [undefined] afterwards. *)
Lemma save_drops_folder_state :
  let p := Demo.plugin0 false true in
  let p' := snd (Plugin.saveCurrentWorkspace p) in
  Plugin.rememberNavigationLayout (Plugin.settings p) = false /\
  folderOf <$> getWorkspace "Research" (storage (Plugin.manager p))
    = Some (FsPaths ["Projects"]) /\
  folderOf <$> getWorkspace "Research" (storage (Plugin.manager p'))
    = Some FsUndefined /\
  folderOf <$> getWorkspace "Research" (storage (Plugin.manager p'))
    <> folderOf <$> getWorkspace "Research" (storage (Plugin.manager p)).
Proof.
  repeat split; try reflexivity. discriminate.
Qed.

(** C6 at the failing input: with sorting of the list disabled, the switcher
    over the standalone manager still lists ["Archive"] before ["Zettel"],
    although ["Zettel"] was created first. *)
Lemma getItems_sorted_with_sorting_disabled :
  let p := Demo.pluginTwoSaves false in
  Plugin.sortWorkspacesAlphabetically (Plugin.settings p) = false /\
  Js.keys (workspaces (storage (Plugin.manager p))) = ["Zettel"; "Archive"] /\
  Switcher.getItems p = ["Archive"; "Zettel"] /\
  fst (Switcher.getItemsCore (Plugin.settings p)
         (Some (workspaces (storage (Plugin.manager p))))) = ["Zettel"; "Archive"].
Proof.
  repeat split; reflexivity.
Qed.

(** C9 on the scenario of a sidebar collapsed by hand: ["Research"] was
    remembered with the left dock open and the right one closed; both docks
    are collapsed now.  Restoring expands the left dock, leaves the right one
    collapsed, and a second restore changes nothing. *)
Lemma restore_idempotent_witness :
  let p := Demo.plugin0 true true in
  let once := snd (Plugin.restoreNavigationLayout "Research" p) in
  (splitCollapsed <$> leftSplit (world (Plugin.manager p))) = Some (Some true) /\
  (splitCollapsed <$> leftSplit (world (Plugin.manager once))) = Some (Some false) /\
  (splitCollapsed <$> rightSplit (world (Plugin.manager once))) = Some (Some true) /\
  snd (Plugin.restoreNavigationLayout "Research" once) = once.
Proof.
  split; [reflexivity|]. split; [vm_compute; reflexivity|].
  split; [vm_compute; reflexivity|].
  exact (proj1 (RestoreFacts.restore_idempotent (Demo.plugin0 true true) "Research")).
Defined.

(** The JavaScript model on a few inputs. *)
Example trim_example : Js.trim "  Daily notes  " = "Daily notes" /\ Js.blank "   " = true.
Proof. split; reflexivity. Qed.

Example keys_example :
  Js.keys [("b", 1); ("10", 2); ("a", 3); ("2", 4); ("01", 5)]
  = ["2"; "10"; "b"; "a"; "01"].
Proof. reflexivity. Qed.

Example sort_example :
  Js.sort Collation.localeCompare
    ["Notes 2"; "notes 1"; "Notes 10"; "Notes 1"; "x_1"; "x 1"; "x1"; "B"; "a"]
  = ["a"; "B"; "notes 1"; "Notes 1"; "Notes 2"; "Notes 10"; "x 1"; "x1"; "x_1"].
Proof. reflexivity. Qed.

End Examples.

(* ===================================================================== *)
(** * More on saving and loading *)
(* ===================================================================== *)

Module SaveLoadFacts.
Import Host Eff Manager Store.
Import StoreFacts.

Lemma trimStart_empty s : Js.trimStart s = EmptyString <-> Text.allWhitespace s = true.
Proof.
  induction s as [|c s IH]; simpl; [tauto|].
  destruct (Js.is_whitespace c); simpl; [exact IH|].
  split; discriminate.
Qed.

Lemma trimStart_head s :
  match Js.trimStart s with
  | EmptyString => True
  | String c _ => Js.is_whitespace c = false
  end.
Proof.
  induction s as [|c s IH]; simpl; [exact I|].
  destruct (Js.is_whitespace c) eqn:E; [exact IH|exact E].
Qed.

Lemma trimEnd_head (c : ascii) s :
  Js.is_whitespace c = false -> Js.trimEnd (String c s) <> EmptyString.
Proof.
  intros Hc. simpl. rewrite Hc. destruct (Js.trimEnd s); discriminate.
Qed.

Lemma trim_empty s : Js.trim s = EmptyString <-> Text.allWhitespace s = true.
Proof.
  unfold Js.trim. rewrite <- trimStart_empty.
  pose proof (trimStart_head s) as Hh.
  destruct (Js.trimStart s) as [|c r] eqn:E; [simpl; tauto|].
  split; [|discriminate]. intros H. now apply trimEnd_head in H.
Qed.

(** The guard of [saveWorkspace] and [renameWorkspace] holds exactly of the
    names made of white space. *)
Lemma blank_allWhitespace s : Js.blank s = Text.allWhitespace s.
Proof.
  unfold Js.blank. destruct (Text.allWhitespace s) eqn:E.
  - apply trim_empty in E. rewrite E. simpl. apply orb_true_r.
  - apply orb_false_intro.
    + destruct s; [discriminate|reflexivity].
    + destruct (String.eqb_spec (Js.trim s) "") as [H|]; [|reflexivity].
      apply trim_empty in H. congruence.
Qed.

Lemma names_replace {V} (k : string) (v : V) o : Js.names (Js.replace k v o) = Js.names o.
Proof.
  unfold Js.names. induction o as [|[k0 v0] o IH]; simpl; [reflexivity|].
  destruct (String.eqb k k0); simpl; now rewrite IH.
Qed.

(** The keys after [o[k] = v]. *)
Lemma names_set {V} (k : string) (v : V) o :
  Js.names (Js.set k v o) = if Js.has k o then Js.names o else Js.names o ++ [k].
Proof.
  unfold Js.set. destruct (Js.has k o); [apply names_replace|].
  unfold Js.names. now rewrite map_app.
Qed.

Lemma has_In {V} (k : string) (o : Js.Obj V) : Js.has k o = true <-> In k (Js.names o).
Proof.
  unfold Js.has, Js.names. induction o as [|[k0 v0] o IH]; simpl.
  - split; [discriminate|tauto].
  - destruct (String.eqb_spec k k0) as [->|Hne].
    + split; auto.
    + rewrite IH. split; [auto|]. intros [H|H]; [congruence|exact H].
Qed.

Lemma delete_app_new {V} (k : string) (v : V) o :
  Js.has k o = false -> Js.delete k (o ++ [(k, v)]) = o.
Proof.
  unfold Js.has. induction o as [|[k0 v0] o IH]; simpl.
  - intros _. now rewrite String.eqb_refl.
  - destruct (String.eqb k k0); [discriminate|]. intros H. now rewrite IH.
Qed.

(** [Object.keys] after an own property was overwritten, and after a new
    one was added. *)
Lemma keys_replace {V} (k : string) (v : V) o : Js.keys (Js.replace k v o) = Js.keys o.
Proof. unfold Js.keys. now rewrite names_replace. Qed.

Lemma keys_app {V} (k : string) (v : V) o :
  Js.keys (o ++ [(k, v)]) =
  if Js.is_index k
  then Js.sort_by Js.index_leb (List.filter Js.is_index (Js.names o) ++ [k])
         ++ List.filter (fun x => negb (Js.is_index x)) (Js.names o)
  else Js.keys o ++ [k].
Proof.
  unfold Js.keys, Js.names. rewrite map_app, !List.filter_app. simpl.
  destruct (Js.is_index k); simpl.
  - now rewrite app_nil_r.
  - now rewrite app_nil_r, app_assoc.
Qed.

Section SaveLoadFacts.
Context {Layout : Type}.
Implicit Types (s : State Layout) (st : WorkspacesStorage Layout).

(** A successful [saveWorkspace], as a state. *)
Lemma save_ok s (name : string) (saveFolderState : bool) :
  Js.blank name = false ->
  getLayoutFault (world s) = None ->
  loadLocalStorageFault (world s) = None ->
  saveWorkspace name saveFolderState s =
    (Ok tt,
     {| storage :=
          set_activeWorkspace (Some name)
            (assign name
               (Stored {| layout := currentLayout (world s);
                          lastSaved := now (world s);
                          folderExpandState :=
                            if saveFolderState then capturedFolderState (world s)
                            else FsUndefined;
                          metadata := None |}) (storage s));
        world := world s;
        trace := trace s ++ [LogSave] |}).
Proof.
  destruct s as [st w t]. unfold capturedFolderState. simpl. intros Hb Hlay Hload.
  run. rewrite Hb. simpl. rewrite Hlay. simpl.
  destruct saveFolderState; simpl; [|reflexivity].
  rewrite Hload. simpl. destruct (folderCell w); reflexivity.
Qed.

(** X1. [saveWorkspace] refuses exactly the names made of white space only
    (the empty name included): for such a name it shows
    'Workspace name cannot be empty', calls nothing of the host and leaves the
    store as it is; for any other name it goes on to read the layout, and when
    the host does not raise the name is stored afterwards, no notice is shown
    and the log is saved. *)
Theorem save_rejects_blank_names s (name : string) (saveFolderState : bool) :
  let s' := snd (saveWorkspace name saveFolderState s) in
  (Text.allWhitespace name = true ->
     fst (saveWorkspace name saveFolderState s) = Ok tt /\
     storage s' = storage s /\ world s' = world s /\
     emitted s s' [Notice "Workspace name cannot be empty"]) /\
  (Text.allWhitespace name = false ->
     getLayoutFault (world s) = None ->
     loadLocalStorageFault (world s) = None ->
     fst (saveWorkspace name saveFolderState s) = Ok tt /\
     hasWorkspace name (storage s') = true /\
     emitted s s' [LogSave]).
Proof.
  split; intros Hws.
  - destruct s as [st w t]. unfold emitted. simpl.
    run. rewrite blank_allWhitespace, Hws. simpl. auto.
  - intros Hlay Hload.
    assert (Hb : Js.blank name = false) by (now rewrite blank_allWhitespace).
    rewrite (save_ok s name saveFolderState Hb Hlay Hload). unfold emitted. simpl.
    split; [reflexivity|]. split; [|reflexivity].
    unfold hasWorkspace, assign, inheritedName. simpl.
    destruct (Js.has name (workspaces (storage s))) eqn:Hown; simpl.
    + now rewrite JsFacts.has_set, String.eqb_refl.
    + destruct (String.eqb_spec name "__proto__") as [->|Hne]; simpl.
      * rewrite Hown. reflexivity.
      * now rewrite JsFacts.has_set, String.eqb_refl.
Qed.

(** X2. When the host raises while [saveWorkspace] reads the layout, or while
    it reads the folder state from local storage, nothing is stored: the
    store and the active pointer are as before, the log is saved, the error
    is written to the console, the notice 'Failed to save workspace: ...'
    carries its message, and the same error is raised to the caller. *)
Theorem save_failure_keeps_store s (name : string) (saveFolderState : bool) (e : Error) :
  let s' := snd (saveWorkspace name saveFolderState s) in
  Js.blank name = false ->
  getLayoutFault (world s) = Some e \/
  (getLayoutFault (world s) = None /\ saveFolderState = true /\
   loadLocalStorageFault (world s) = Some e) ->
  fst (saveWorkspace name saveFolderState s) = Raised e /\
  storage s' = storage s /\
  emitted s s' [LogSave; ConsoleError e;
                Notice ("Failed to save workspace: " ++ message e)].
Proof.
  destruct s as [st w t]. unfold emitted. simpl. intros Hb Hfault. run.
  rewrite Hb. simpl.
  destruct Hfault as [Hl|(Hl & -> & Hs)]; rewrite Hl; simpl.
  - repeat rewrite <- app_assoc. auto.
  - rewrite Hs. simpl. repeat rewrite <- app_assoc. auto.
Qed.

(** X3. A successful [saveWorkspace] and the order of [Object.keys].  A name
    that is an own key keeps its place.  A new name that is not index-like
    becomes the last key; an index-like one (['5']) takes its place among
    the index-like keys, before every other key; ['__proto__'] creates no
    key at all, the record becomes the prototype of [workspaces].  In each
    case [getWorkspace name] gives the new record, every other own property
    is unchanged, the saved name is the active one, and the only event is
    the save of the log. *)
Theorem save_keeps_key_order s (name : string) (saveFolderState : bool) :
  let s' := snd (saveWorkspace name saveFolderState s) in
  let own := workspaces (storage s) in
  let own' := workspaces (storage s') in
  let saved := {| layout := currentLayout (world s);
                  lastSaved := now (world s);
                  folderExpandState :=
                    if saveFolderState then capturedFolderState (world s) else FsUndefined;
                  metadata := None |} in
  Js.blank name = false ->
  getLayoutFault (world s) = None ->
  loadLocalStorageFault (world s) = None ->
  Js.keys own' =
    (if Js.has name own then Js.keys own
     else if String.eqb name "__proto__" then Js.keys own
     else if Js.is_index name
     then Js.sort_by Js.index_leb (List.filter Js.is_index (Js.names own) ++ [name])
            ++ List.filter (fun k => negb (Js.is_index k)) (Js.names own)
     else Js.keys own ++ [name]) /\
  prototype (storage s') =
    (if negb (Js.has name own) && String.eqb name "__proto__"
     then Some saved else prototype (storage s)) /\
  getWorkspace name (storage s') = Some (Stored saved) /\
  (forall k, k <> name -> Js.get k own' = Js.get k own) /\
  activeWorkspace (storage s') = Some name /\
  emitted s s' [LogSave].
Proof.
  intros s' own own' saved Hb Hlay Hload. subst s' own own' saved.
  rewrite (save_ok s name saveFolderState Hb Hlay Hload). unfold emitted.
  cbn [snd storage trace].
  split; [|split; [|split; [apply getWorkspace_saved|split; [|split; reflexivity]]]].
  - unfold assign. simpl.
    destruct (Js.has name (workspaces (storage s))) eqn:Hown; simpl.
    + unfold Js.set. rewrite Hown. apply keys_replace.
    + destruct (String.eqb name "__proto__"); simpl; [reflexivity|].
      unfold Js.set. rewrite Hown. apply keys_app.
  - unfold assign. simpl.
    destruct (negb (Js.has name (workspaces (storage s))) && (name =? "__proto__")%string);
      reflexivity.
  - intros k Hk. unfold assign. simpl.
    destruct (negb (Js.has name (workspaces (storage s))) && (name =? "__proto__")%string);
      simpl; [reflexivity|].
    rewrite JsFacts.get_set. now rewrite (proj2 (String.eqb_neq k name) Hk).
Qed.

(** X4. [loadWorkspace] of a name for which [getWorkspace] gives [null] (a
    name that is neither stored nor inherited, or whose property is falsy)
    saves the log, shows 'Workspace "name" not found' and does nothing else:
    the layout is not applied, local storage is not written and the store,
    the active pointer included, is as before. *)
Theorem load_missing_name s (name : string) (restoreFolderState : bool) :
  let s' := snd (loadWorkspace name restoreFolderState s) in
  getWorkspace name (storage s) = None ->
  fst (loadWorkspace name restoreFolderState s) = Ok tt /\
  storage s' = storage s /\
  emitted s s' [LogSave; Notice ("Workspace " ++ Js.quoted name ++ " not found")].
Proof.
  destruct s as [st w t]. unfold emitted. simpl. intros Hno.
  run. rewrite Hno. simpl. repeat rewrite <- app_assoc. auto.
Qed.


(** X5. [loadWorkspace name false] of a stored record applies the record's
    layout and makes [name] active without writing the folder state: the
    calls it issues are the layout call (with a warning on the console when
    that one raises), the event ['workspace-open'] and the save of the log,
    in this order, and no write to local storage. *)
Theorem load_without_restore s (name : string) (ws : WorkspaceData Layout) :
  let s' := snd (loadWorkspace name false s) in
  getWorkspace name (storage s) = Some (Stored ws) ->
  fst (loadWorkspace name false s) = Ok tt /\
  storage s' = set_activeWorkspace (Some name) (storage s) /\
  (changeLayoutFault (world s) = None -> currentLayout (world s') = layout ws) /\
  emitted s s' (layoutEvents s ws ++ [Trigger "workspace-open" [name]; LogSave]).
Proof.
  destruct s as [st w t]. unfold emitted, layoutEvents. simpl.
  intros Hget. run. rewrite Hget. simpl.
  destruct (changeLayoutFault w) as [e|]; simpl;
    destruct (fileExplorer w) as [fe|] eqn:Hfe; simpl;
    rewrite ?andb_false_r; simpl;
    repeat rewrite <- app_assoc; simpl;
    repeat split; auto; try discriminate.
Qed.



(** X7. Renaming there and back.  In a store whose active pointer is valid,
    renaming an own property [oldName] to a free, non-blank [newName] and
    then [newName] back to [oldName] gives back every own property under its
    name, the prototype and the active pointer.  [oldName] must be neither
    blank nor a name of the prototype chain, or the way back is refused.
    What is done to the host is, twice, the event ['workspace-rename'] and
    the save of the log. *)
Theorem rename_there_and_back s (oldName newName : string) (v : Value Layout) :
  let s1 := snd (renameWorkspace oldName newName s) in
  let s2 := snd (renameWorkspace newName oldName s1) in
  Js.get oldName (workspaces (storage s)) = Some v ->
  inheritedName oldName (storage s) = false ->
  hasWorkspace newName (storage s) = false ->
  Js.blank newName = false ->
  Js.blank oldName = false ->
  activeValid (storage s) ->
  (forall k, Js.get k (workspaces (storage s2)) = Js.get k (workspaces (storage s))) /\
  prototype (storage s2) = prototype (storage s) /\
  activeWorkspace (storage s2) = activeWorkspace (storage s) /\
  emitted s s2 [Trigger "workspace-rename" [newName; oldName]; LogSave;
                Trigger "workspace-rename" [oldName; newName]; LogSave].
Proof.
  intros s1 s2 Hget Hinh Hnew Hbn Hbo Hvalid. subst s1 s2.
  destruct (absent_name newName (storage s) Hnew) as (Hnown & Hninh & _).
  assert (Hown : Js.has oldName (workspaces (storage s)) = true).
  { apply JsFacts.has_get. eauto. }
  assert (Hne : oldName <> newName).
  { intros ->. congruence. }
  pose proof (proj1 (JsFacts.has_false_get _ _) Hnown) as Hgn.
  rewrite (rename_ok s oldName newName (hasWorkspace_own _ _ Hown) Hnew Hbn). cbn [snd].
  rewrite (read_own oldName (storage s) v Hget).
  set (s1 := {| storage := _; world := world s; trace := _ |}).
  assert (Hget1 : Js.get newName (workspaces (storage s1)) = Some v).
  { simpl. rewrite JsFacts.get_delete, JsFacts.get_app.
    rewrite (proj2 (String.eqb_neq newName oldName)) by congruence.
    rewrite Hgn. simpl. now rewrite String.eqb_refl. }
  assert (Hin1 : hasWorkspace newName (storage s1) = true).
  { apply hasWorkspace_own, JsFacts.has_get. eauto. }
  assert (Hold1 : hasWorkspace oldName (storage s1) = false).
  { unfold hasWorkspace. simpl. rewrite JsFacts.has_delete, String.eqb_refl. simpl.
    exact Hinh. }
  rewrite (rename_ok s1 newName oldName Hin1 Hold1 Hbo).
  rewrite (read_own newName (storage s1) v Hget1). unfold emitted. simpl.
  split; [|split; [reflexivity|split]].
  - intros k.
    rewrite JsFacts.get_delete, JsFacts.get_app, JsFacts.get_delete, JsFacts.get_app.
    simpl.
    destruct (String.eqb_spec k newName) as [->|Hkn].
    + now rewrite Hgn.
    + destruct (String.eqb_spec k oldName) as [->|Hko].
      * now rewrite Hget.
      * destruct (Js.get k (workspaces (storage s))); reflexivity.
  - unfold activeValid in Hvalid.
    destruct (activeWorkspace (storage s)) as [a|] eqn:Ha; simpl; [|reflexivity].
    destruct (bool_decide (Some a = Some oldName)) eqn:Hd; simpl.
    + rewrite bool_decide_eq_true_2 by reflexivity.
      apply bool_decide_eq_true in Hd. congruence.
    + destruct (bool_decide (Some a = Some newName)) eqn:Hd2; [|reflexivity].
      apply bool_decide_eq_true in Hd2. injection Hd2 as ->. congruence.
  - repeat rewrite <- app_assoc. reflexivity.
Qed.

(** X8. Creating and deleting.  Saving a name of which [in] is false and
    then deleting it gives back the own properties exactly as they were, in
    their order, and the prototype; the active pointer, however, is [null]
    afterwards, whatever it was before the save.  What is done to the host
    is the save of the log, the event ['workspace-delete'] and the save of
    the log again. *)
Theorem save_then_delete s (name : string) (saveFolderState : bool) :
  let s1 := snd (saveWorkspace name saveFolderState s) in
  let s2 := snd (deleteWorkspace name s1) in
  hasWorkspace name (storage s) = false ->
  Js.blank name = false ->
  getLayoutFault (world s) = None ->
  loadLocalStorageFault (world s) = None ->
  workspaces (storage s2) = workspaces (storage s) /\
  prototype (storage s2) = prototype (storage s) /\
  activeWorkspace (storage s2) = None /\
  emitted s s2 [LogSave; Trigger "workspace-delete" [name]; LogSave].
Proof.
  intros s1 s2 Hnew Hb Hlay Hload. subst s1 s2.
  destruct (absent_name name (storage s) Hnew) as (Hown & _).
  rewrite (save_ok s name saveFolderState Hb Hlay Hload). cbn [snd].
  rewrite (assign_fresh name _ _ Hnew).
  set (s1 := {| storage := _; world := world s; trace := _ |}).
  assert (Hin : hasWorkspace name (storage s1) = true).
  { apply hasWorkspace_own. simpl. unfold Js.has.
    rewrite JsFacts.get_app. apply JsFacts.has_false_get in Hown. rewrite Hown.
    simpl. now rewrite String.eqb_refl. }
  rewrite (delete_ok s1 name Hin). unfold emitted. simpl.
  rewrite bool_decide_eq_true_2 by reflexivity.
  rewrite delete_app_new by exact Hown.
  repeat split. repeat rewrite <- app_assoc. reflexivity.
Qed.

(** X9. [getWorkspaceNames] against [hasWorkspace].  The list holds the own
    keys of [workspaces], one entry for each.  [hasWorkspace] holds of every
    listed name, but not only of these: it also holds of the names that come
    from the prototype chain (['constructor'], ['toString'], ...), which are
    not listed unless they are own keys as well. *)
Theorem names_agree_with_has st :
  (forall name, In name (getWorkspaceNames st) <-> Js.has name (workspaces st) = true) /\
  (forall name, In name (getWorkspaceNames st) -> hasWorkspace name st = true) /\
  (forall name, hasWorkspace name st = true ->
     In name (getWorkspaceNames st) \/ inheritedName name st = true) /\
  (forall name, Js.inherited name = true -> hasWorkspace name st = true) /\
  length (getWorkspaceNames st) = length (workspaces st).
Proof.
  assert (Hperm : Permutation (getWorkspaceNames st) (Js.names (workspaces st))).
  { unfold getWorkspaceNames, Js.sort. rewrite SortFacts.sort_by_perm.
    apply ListingFacts.keys_perm. }
  assert (Hlisted : forall name,
            In name (getWorkspaceNames st) <-> Js.has name (workspaces st) = true).
  { intros name. rewrite has_In. split; intros H.
    - eapply Permutation_in; [exact Hperm|exact H].
    - eapply Permutation_in; [symmetry; exact Hperm|exact H]. }
  split; [exact Hlisted|]. split; [|split; [|split]].
  - intros name H. apply hasWorkspace_own. now apply Hlisted.
  - intros name H. unfold hasWorkspace in H. apply orb_prop in H as [H|H].
    + left. now apply Hlisted.
    + now right.
  - intros name H. unfold hasWorkspace, inheritedName. rewrite H.
    destruct (prototype st); now rewrite !orb_true_r.
  - rewrite (Permutation_length Hperm). unfold Js.names. apply length_map.
Qed.

End SaveLoadFacts.
End SaveLoadFacts.

(* ===================================================================== *)
(** * The file explorer's tree *)
(* ===================================================================== *)

Module TreeFacts.
Import Host Explorer.

(** Induction on a tree, the children taken as a list. *)
Lemma TreeNode_induction (P : TreeNode -> Prop) :
  (forall p can c ch, Forall P ch -> P (Node p can c ch)) ->
  forall n, P n.
Proof.
  intros H.
  refine (fix IH (n : TreeNode) : P n :=
    match n with
    | Node p can c ch =>
        H p can c ch
          ((fix all (l : list TreeNode) : Forall P l :=
              match l with
              | [] => @List.Forall_nil _ P
              | x :: r => @List.Forall_cons _ P x r (IH x) (all r)
              end) ch)
    end).
Qed.

Lemma collapseAll_items n :
  items (collapseAll n) = map collapsedItem (items n) /\
  shape (collapseAll n) = shape n.
Proof.
  induction n as [p can c ch IH] using TreeNode_induction. simpl.
  assert (Hch : flat_map items (map collapseAll ch) = map collapsedItem (flat_map items ch)
                /\ map shape (map collapseAll ch) = map shape ch).
  { induction IH as [|x r [Hx1 Hx2] _ [IH1 IH2]]; simpl; [auto|].
    rewrite Hx1, Hx2, IH1, IH2, map_app. auto. }
  destruct Hch as [H1 H2]. rewrite H1, H2. auto.
Qed.

(** What [expandSaved] returns: the same tree with the saved items
    expanded, or the error of the first saved item without [setCollapsed]. *)
Lemma expandSaved_items saved n :
  shape (fst (expandSaved saved n)) = shape n /\
  match snd (expandSaved saved n) with
  | None =>
      items (fst (expandSaved saved n)) = map (expandedItem saved) (items n) /\
      Forall (fun i => hit saved i = true -> itemCanCollapse i = true) (items n)
  | Some e =>
      e = notAFunction /\
      Exists (fun i => hit saved i = true /\ itemCanCollapse i = false) (items n)
  end.
Proof.
  induction n as [p can c ch IH] using TreeNode_induction.
  cbn [expandSaved].
  set (here := {| itemPath := p; itemCanCollapse := can; itemCollapsed := c |}).
  set (isHit := match p with
                | Some s => hasPath p && Js.includes s saved
                | None => false
                end).
  assert (HisHit : isHit = hit saved here) by reflexivity.
  destruct (isHit && negb can) eqn:Hbad.
  - apply andb_prop in Hbad as [Hh Hc]. apply negb_true_iff in Hc.
    cbn [fst snd]. split; [reflexivity|]. split; [reflexivity|].
    cbn [items]. apply Exists_cons_hd. fold here. rewrite <- HisHit. auto.
  - set (each := fix each (l : list TreeNode) : list TreeNode * option Error :=
                   match l with
                   | [] => ([], None)
                   | x :: r =>
                       match expandSaved saved x with
                       | (x', Some e) => (x' :: r, Some e)
                       | (x', None) => let '(r', e) := each r in (x' :: r', e)
                       end
                   end).
    assert (Hch :
      map shape (fst (each ch)) = map shape ch /\
      match snd (each ch) with
      | None =>
          flat_map items (fst (each ch)) = map (expandedItem saved) (flat_map items ch) /\
          Forall (fun i => hit saved i = true -> itemCanCollapse i = true)
                 (flat_map items ch)
      | Some e =>
          e = notAFunction /\
          Exists (fun i => hit saved i = true /\ itemCanCollapse i = false)
                 (flat_map items ch)
      end).
    { clear Hbad HisHit here isHit. induction IH as [|x r Hx _ IHr]; cbn [each].
      - simpl. auto.
      - destruct Hx as [Hs Hx]. destruct IHr as [Hrs Hr].
        destruct (expandSaved saved x) as [x' [e|]]; cbn [fst snd] in *.
        + cbn [map flat_map]. rewrite Hs. split; [reflexivity|].
          destruct Hx as [-> Hex]. split; [reflexivity|].
          apply Exists_app. now left.
        + destruct (each r) as [r' [e|]]; cbn [fst snd map flat_map] in *.
          * rewrite Hs, Hrs. split; [reflexivity|].
            destruct Hr as [-> Hex]. split; [reflexivity|].
            apply Exists_app. now right.
          * rewrite Hs, Hrs. split; [reflexivity|].
            destruct Hx as [Hx1 Hx2], Hr as [Hr1 Hr2].
            rewrite Hx1, Hr1, map_app. split; [reflexivity|].
            apply Forall_app. auto. }
    destruct Hch as [Hshape Hch].
    destruct (each ch) as [ch' [e|]]; cbn [fst snd shape items] in *.
    + rewrite Hshape. split; [reflexivity|].
      destruct Hch as [-> Hex]. split; [reflexivity|]. now apply Exists_cons_tl.
    + rewrite Hshape. split; [reflexivity|].
      destruct Hch as [Hit Hall]. cbn [map]. rewrite Hit. split.
      * reflexivity.
      * constructor; [|exact Hall]. fold here. rewrite <- HisHit.
        intros Hh. rewrite Hh in Hbad. simpl in Hbad. now apply negb_false_iff in Hbad.
Qed.

Lemma refreshed_two_steps saved (i : Item) :
  (hit saved i = true -> itemCanCollapse i = true) ->
  expandedItem saved (collapsedItem i) = refreshed saved i.
Proof.
  destruct i as [[p|] can c]; unfold expandedItem, collapsedItem, refreshed, hit;
    cbn [itemPath itemCanCollapse itemCollapsed]; [|reflexivity].
  intros Hok. destruct (hasPath (Some p)) eqn:Hp; cbn [andb]; [|reflexivity].
  destruct can; cbn [andb].
  - now destruct (Js.includes p saved).
  - destruct (Js.includes p saved); [|reflexivity]. specialize (Hok eq_refl). discriminate.
Qed.

Lemma hit_collapsed saved (i : Item) : hit saved (collapsedItem i) = hit saved i.
Proof. reflexivity. Qed.

(** The two passes of the refresh together. *)
Lemma refresh_items saved root :
  shape (fst (expandSaved saved (collapseAll root))) = shape root /\
  match snd (expandSaved saved (collapseAll root)) with
  | None =>
      items (fst (expandSaved saved (collapseAll root))) =
        map (refreshed saved) (items root)
  | Some e => e = notAFunction /\ Exists (unexpandable saved) (items root)
  end.
Proof.
  destruct (collapseAll_items root) as [Hci Hcs].
  destruct (expandSaved_items saved (collapseAll root)) as [Hs Hr].
  split; [now rewrite Hs|].
  destruct (snd (expandSaved saved (collapseAll root))) as [e|].
  - destruct Hr as [-> Hex]. split; [reflexivity|].
    rewrite Hci in Hex. apply List.Exists_exists in Hex as (j & Hj & Hh & Hc).
    apply in_map_iff in Hj as (i & <- & Hi).
    apply List.Exists_exists. exists i. split; [exact Hi|].
    rewrite hit_collapsed in Hh. cbn in Hc.
    unfold hit in Hh. unfold unexpandable.
    destruct (itemPath i) as [p|] eqn:Hp; [|discriminate].
    apply andb_prop in Hh as [H1 H2]. exists p. auto.
  - destruct Hr as [Hit Hall]. rewrite Hit, Hci, map_map.
    rewrite Hci in Hall. rewrite List.Forall_map in Hall.
    apply map_ext_in. intros i Hi. apply refreshed_two_steps.
    rewrite List.Forall_forall in Hall. apply (Hall i Hi).
Qed.

Lemma collapsed_is_refreshed (i : Item) : collapsedItem i = refreshed [] i.
Proof.
  destruct i as [[p|] can c]; unfold collapsedItem, refreshed;
    cbn [itemPath itemCanCollapse itemCollapsed]; [|reflexivity].
  now destruct (hasPath (Some p) && can).
Qed.

Lemma checkNode_items n : checkNode n = flat_map expandedPath (items n).
Proof.
  induction n as [p can c ch IH] using TreeNode_induction. cbn [checkNode items flat_map].
  f_equal. induction IH as [|x r Hx _ IHr]; simpl; [reflexivity|].
  rewrite flat_map_app, Hx, IHr. reflexivity.
Qed.

Lemma includes_In (x : string) (l : list string) : Js.includes x l = true <-> In x l.
Proof.
  unfold Js.includes. rewrite existsb_exists. split.
  - intros (y & Hy & He). apply String.eqb_eq in He. now subst.
  - intros H. exists x. split; [exact H|apply String.eqb_refl].
Qed.

(** With no path twice, two items of the list that carry the same path are
    one item. *)
Lemma same_path_same_item (l : list Item) (i j : Item) (p : string) :
  List.NoDup (flat_map pathOf l) -> In i l -> In j l ->
  pathOf i = [p] -> pathOf j = [p] -> i = j.
Proof.
  induction l as [|x l IH]; simpl; [tauto|].
  intros Hnd [Hi|Hi] [Hj|Hj] Hpi Hpj; subst.
  - reflexivity.
  - exfalso. rewrite Hpi in Hnd. simpl in Hnd. inversion Hnd as [|? ? Hnot _]; subst.
    apply Hnot. apply in_flat_map. exists j. rewrite Hpj. simpl. auto.
  - exfalso. rewrite Hpj in Hnd. simpl in Hnd. inversion Hnd as [|? ? Hnot _]; subst.
    apply Hnot. apply in_flat_map. exists i. rewrite Hpi. simpl. auto.
  - apply IH; auto. now apply List.NoDup_app_remove_l in Hnd.
Qed.

Lemma expandedPath_pathOf (i : Item) (p : string) :
  In p (expandedPath i) -> pathOf i = [p] /\ itemCollapsed i = Some false.
Proof.
  unfold expandedPath, pathOf. destruct (itemPath i) as [q|]; [|simpl; tauto].
  destruct (itemCollapsed i) as [[]|]; try (simpl; tauto).
  destruct (hasPath (Some q)); simpl; [|tauto]. intros [->|[]]. auto.
Qed.

(** Refreshing with the paths the tree reports as expanded changes no
    report, when no path occurs twice. *)
Lemma refreshed_reports (l : list Item) :
  List.NoDup (flat_map pathOf l) ->
  flat_map expandedPath (map (refreshed (flat_map expandedPath l)) l)
  = flat_map expandedPath l.
Proof.
  intros Hnd.
  assert (Hitem : forall i, In i l ->
            expandedPath (refreshed (flat_map expandedPath l) i) = expandedPath i).
  { intros i Hi.
    destruct i as [[p|] can c]; unfold refreshed, expandedPath in *;
      cbn [itemPath itemCanCollapse itemCollapsed] in *; [|reflexivity].
    destruct (hasPath (Some p)) eqn:Hp; cbn [andb].
    2:{ now destruct c as [[]|]. }
    destruct can; cbn [andb]; [|reflexivity].
    set (saved := flat_map _ l).
    destruct (Js.includes p saved) eqn:Hinc; cbn [negb].
    - apply includes_In in Hinc. apply in_flat_map in Hinc as (j & Hj & Hpj).
      apply expandedPath_pathOf in Hpj as [Hpj Hcj].
      assert (Heq : {| itemPath := Some p; itemCanCollapse := true; itemCollapsed := c |} = j).
      { apply (same_path_same_item l _ j p Hnd Hi Hj); [|exact Hpj].
        unfold pathOf. cbn [itemPath]. now rewrite Hp. }
      subst j. cbn in Hcj. now rewrite Hcj.
    - destruct c as [[]|]; try reflexivity. exfalso.
      assert (Hin : In p saved).
      { apply in_flat_map. eexists. split; [exact Hi|].
        unfold expandedPath. cbn [itemPath itemCollapsed]. rewrite Hp. simpl. auto. }
      apply includes_In in Hin. congruence. }
  clear Hnd. revert Hitem. generalize (refreshed (flat_map expandedPath l)).
  intros f Hitem. induction l as [|x l IH]; simpl; [reflexivity|].
  rewrite Hitem by (simpl; auto). f_equal. apply IH. intros i Hi. apply Hitem. simpl. auto.
Qed.

Section TreeFacts.
Context {Layout : Type}.
Implicit Types (s : Manager.State Layout).

(** The explorer after the refresh depends on the explorer before it only. *)
Lemma refresh_explorer (restoreFolderState : bool) (saved : FolderState) s :
  fileExplorer (Manager.world
    (snd (Manager.refreshFileExplorer restoreFolderState saved s))) =
  match fileExplorer (Manager.world s) with
  | Some fe =>
      if enabled fe && restoreFolderState then
        match treeRoot fe with
        | Some root =>
            Some {| enabled := enabled fe;
                    treeRoot := Some (fst (expandSaved (savedPaths saved) (collapseAll root))) |}
        | None => Some fe
        end
      else Some fe
  | None => None
  end.
Proof.
  destruct s as [st w t].
  cbv [Manager.refreshFileExplorer Eff.bind Eff.ret Eff.gets Eff.modify Eff.throw
       Manager.with_world]. simpl.
  destruct (fileExplorer w) as [fe|] eqn:Hfe; simpl; [|exact Hfe].
  destruct (enabled fe && restoreFolderState); simpl; [|exact Hfe].
  destruct (treeRoot fe) as [root|]; simpl; [|exact Hfe].
  assert (Hnone : forall r, fst (expandSaved [] r) = r).
  { intros r. pose proof (expandSaved_items [] r) as [_ H].
    induction r as [p can c ch IH] using TreeNode_induction.
    cbn [expandSaved].
    replace (match p with Some s => hasPath p && Js.includes s [] | None => false end)
      with false by (destruct p; [now rewrite andb_false_r|reflexivity]).
    cbn [andb].
    assert (Hch : (fix each (l : list TreeNode) : list TreeNode * option Error :=
                     match l with
                     | [] => ([], None)
                     | x :: r =>
                         match expandSaved [] x with
                         | (x', Some e) => (x' :: r, Some e)
                         | (x', None) => let '(r', e) := each r in (x' :: r', e)
                         end
                     end) ch = (ch, None)).
    { clear H. induction IH as [|x r Hx _ IHr]; [reflexivity|].
      pose proof (expandSaved_items [] x) as [_ Hsx].
      specialize (Hx (proj2 (expandSaved_items [] x))).
      destruct (expandSaved [] x) as [x' [e|]]; cbn [fst snd] in *.
      - exfalso. destruct Hsx as [_ Hex]. apply List.Exists_exists in Hex as (i & _ & Hh & _).
        unfold hit in Hh. destruct (itemPath i); [|discriminate].
        now rewrite andb_false_r in Hh.
      - rewrite IHr. now subst. }
    rewrite Hch. reflexivity. }
  destruct saved as [| |paths]; simpl; rewrite ?Hnone; try reflexivity.
  destruct (expandSaved paths (collapseAll root)) as [root' [e|]]; reflexivity.
Qed.

(** The explorer at the end of [loadWorkspace name true] is the one the
    refresh leaves. *)
Lemma load_explorer s (name : string) (ws : Manager.WorkspaceData Layout) :
  Manager.getWorkspace name (Manager.storage s) = Some (Manager.Stored ws) ->
  saveLocalStorageFault (Manager.world s) = None ->
  fileExplorer (Manager.world (snd (Manager.loadWorkspace name true s))) =
  fileExplorer (Manager.world
    (snd (Manager.refreshFileExplorer true (Manager.folderExpandState ws) s))).
Proof.
  intros Hget Hwrite.
  rewrite (refresh_explorer true (Manager.folderExpandState ws) s).
  destruct s as [st w t]. simpl in *.
  cbv [Manager.loadWorkspace Manager.notice Manager.trigger Manager.emit
       Manager.loggerSave Manager.saveLocalStorage Manager.changeLayout
       Eff.bind Eff.ret Eff.gets Eff.modify Eff.throw Eff.try_catch
       Manager.with_storage Manager.with_world]. simpl.
  rewrite Hget. simpl.
  assert (Hstep : forall (s0 : Manager.State Layout),
    fileExplorer (Manager.world s0) = fileExplorer w ->
    forall r s1,
      Manager.refreshFileExplorer true (Manager.folderExpandState ws) s0 = (r, s1) ->
      fileExplorer (Manager.world s1) =
      match fileExplorer w with
      | Some fe =>
          if enabled fe && true then
            match treeRoot fe with
            | Some root =>
                Some {| enabled := enabled fe;
                        treeRoot := Some (fst (expandSaved
                          (savedPaths (Manager.folderExpandState ws)) (collapseAll root))) |}
            | None => Some fe
            end
          else Some fe
      | None => None
      end).
  { intros s0 H0 r s1 Hrun.
    pose proof (refresh_explorer true (Manager.folderExpandState ws) s0) as H.
    rewrite Hrun in H. simpl in H. now rewrite H0 in H. }
  destruct (truthy (Manager.folderExpandState ws)); simpl; rewrite Hwrite; simpl;
    destruct (changeLayoutFault w); simpl;
    match goal with
    | |- context [Manager.refreshFileExplorer ?b ?f ?s0] =>
        pose proof (Hstep s0 eq_refl) as Hs;
        destruct (Manager.refreshFileExplorer b f s0) as [[[]|err] s1];
        simpl in *; exact (Hs _ _ eq_refl)
    end.
Qed.

(** X10. The refresh of the file explorer at the end of
    [loadWorkspace name true].  With the explorer enabled and its tree
    present, either the load succeeds and the tree is as before but for the
    flags: each item that has a path and [setCollapsed] is expanded if the
    record's folder state names its path and collapsed if not (all collapsed
    when the record has no folder state), every other item is untouched; or
    some item whose path is saved has no [setCollapsed], and then the load
    fails with 'node.setCollapsed is not a function' and the store is not
    written.  The write to local storage is assumed not to raise. *)
Theorem load_refreshes_explorer s (name : string) (ws : Manager.WorkspaceData Layout)
    (fe : FileExplorer) (root : TreeNode) :
  let s' := snd (Manager.loadWorkspace name true s) in
  let saved := savedPaths (Manager.folderExpandState ws) in
  Manager.getWorkspace name (Manager.storage s) = Some (Manager.Stored ws) ->
  saveLocalStorageFault (Manager.world s) = None ->
  fileExplorer (Manager.world s) = Some fe ->
  enabled fe = true ->
  treeRoot fe = Some root ->
  (fst (Manager.loadWorkspace name true s) = Eff.Ok tt /\
   Manager.activeWorkspace (Manager.storage s') = Some name /\
   exists root',
     fileExplorer (Manager.world s') = Some {| enabled := true; treeRoot := Some root' |} /\
     items root' = map (refreshed saved) (items root) /\
     shape root' = shape root) \/
  (fst (Manager.loadWorkspace name true s) = Eff.Raised notAFunction /\
   Manager.storage s' = Manager.storage s /\
   Exists (unexpandable saved) (items root)).
Proof.
  intros s' saved Hget Hwrite Hfe Hen Hroot. subst s' saved.
  pose proof (LoadFacts.load_after_write s name true ws Hget (fun _ => Hwrite)) as Hload.
  simpl in Hload.
  pose proof (load_explorer s name ws Hget Hwrite) as Hexp.
  rewrite refresh_explorer, Hfe, Hen, Hroot in Hexp. simpl in Hexp.
  pose proof (refresh_items (savedPaths (Manager.folderExpandState ws)) root) as [Hshape Hitems].
  assert (Herr : Store.refreshError true (Manager.folderExpandState ws) (Manager.world s) =
                 match Manager.folderExpandState ws with
                 | FsPaths paths => snd (expandSaved paths (collapseAll root))
                 | _ => None
                 end).
  { unfold Store.refreshError. rewrite Hfe, Hen, Hroot. simpl.
    now destruct (Manager.folderExpandState ws). }
  rewrite Herr in Hload.
  destruct (Manager.folderExpandState ws) as [| |paths] eqn:Hfes; simpl in *.
  - left. destruct Hload as (Hok & Hst & _). split; [exact Hok|].
    split; [now rewrite Hst|]. eexists. split; [exact Hexp|].
    destruct (snd (expandSaved [] (collapseAll root))) as [e|] eqn:Hsnd.
    + exfalso. destruct Hitems as [_ Hex].
      apply List.Exists_exists in Hex as (i & _ & (p & _ & _ & Hinc & _)). discriminate.
    + auto.
  - left. destruct Hload as (Hok & Hst & _). split; [exact Hok|].
    split; [now rewrite Hst|]. eexists. split; [exact Hexp|].
    destruct (snd (expandSaved [] (collapseAll root))) as [e|] eqn:Hsnd.
    + exfalso. destruct Hitems as [_ Hex].
      apply List.Exists_exists in Hex as (i & _ & (p & _ & _ & Hinc & _)). discriminate.
    + auto.
  - destruct (snd (expandSaved paths (collapseAll root))) as [e|] eqn:Hsnd.
    + right. destruct Hitems as [-> Hex]. destruct Hload as (Hr & Hst & _). auto.
    + left. destruct Hload as (Hok & Hst & _). split; [exact Hok|].
      split; [now rewrite Hst|]. eexists. split; [exact Hexp|]. auto.
Qed.

End TreeFacts.

(** X11. Folder state read from the tree and given back to it.  When no
    path occurs twice in the tree and every item that [checkNode] reports as
    expanded has [setCollapsed], refreshing the tree with the reported paths
    does not raise and leaves a tree that reports the same paths: what
    [saveWorkspace] captures from the tree is what the refresh of
    [loadWorkspace] shows again. *)
Theorem folder_tree_round_trip (root : TreeNode) :
  let refreshedTree := expandSaved (checkNode root) (collapseAll root) in
  expandedCollapsible root ->
  List.NoDup (paths root) ->
  snd refreshedTree = None /\
  checkNode (fst refreshedTree) = checkNode root /\
  shape (fst refreshedTree) = shape root.
Proof.
  intros r Hall Hnd. subst r.
  pose proof (refresh_items (checkNode root) root) as [Hshape Hitems].
  destruct (snd (expandSaved (checkNode root) (collapseAll root))) as [e|].
  - exfalso. destruct Hitems as [_ Hex].
    apply List.Exists_exists in Hex as (i & Hi & (p & Hp & Hhas & Hinc & Hcan)).
    unfold expandedCollapsible in Hall. rewrite List.Forall_forall in Hall.
    apply includes_In in Hinc. rewrite checkNode_items in Hinc.
    apply in_flat_map in Hinc as (j & Hj & Hpj).
    apply expandedPath_pathOf in Hpj as [Hpj Hcj].
    assert (Heq : i = j).
    { apply (same_path_same_item (items root) i j p Hnd Hi Hj); [|exact Hpj].
      unfold pathOf. now rewrite Hp, <- Hp, Hhas. }
    subst j. specialize (Hall i Hi).
    assert (Hrep : expandedPath i <> []).
    { unfold expandedPath. rewrite Hp, Hcj, <- Hp, Hhas. discriminate. }
    specialize (Hall Hrep). congruence.
  - split; [reflexivity|]. split; [|exact Hshape].
    rewrite (checkNode_items (fst _)), Hitems, (checkNode_items root).
    apply refreshed_reports. exact Hnd.
Qed.

End TreeFacts.

(* ===================================================================== *)
(** * The sidebar snapshot: what is recorded and what is put back *)
(* ===================================================================== *)

Module NavigationFacts.
Import Host Eff.

(** A dock whose [collapsed] flag is defined ends up as the snapshot says. *)
Lemma restoreSplit_open (open : bool) (x : Split) (c : bool) :
  splitCollapsed x = Some c ->
  Plugin.isOpen (Plugin.restoreSplit open (Some x)) = open.
Proof.
  destruct x as [col tab width]. simpl. intros ->. now destruct open, c.
Qed.

Lemma restoreSplit_tab (open : bool) (s : option Split) :
  (x ← Plugin.restoreSplit open s; activeTab x) = (x ← s; activeTab x).
Proof.
  destruct s as [[[[]|] tab width]|], open; reflexivity.
Qed.

Lemma restoreSplit_width (open : bool) (s : option Split) :
  (x ← Plugin.restoreSplit open s; offsetWidth x) = (x ← s; offsetWidth x).
Proof.
  destruct s as [[[[]|] tab width]|], open; reflexivity.
Qed.

Section NavigationFacts.
Context {Layout : Type}.
Implicit Types (p : Plugin.State Layout).

(** X12. The sidebar snapshot round trip.  After [saveNavigationLayout name]
    with the memory enabled, a later [restoreNavigationLayout name] (memory
    still enabled, layout not maintained across workspaces, the snapshot of
    [name] not replaced in between) puts each side dock that exists and has a
    defined [collapsed] flag back to open or closed as it was at the time of
    the save, whatever the docks have become in between. *)
Theorem navigation_round_trip p p2 (name : string) :
  let p1 := snd (Plugin.saveNavigationLayout name p) in
  let p3 := snd (Plugin.restoreNavigationLayout name p2) in
  let w := Manager.world (Plugin.manager p) in
  let w2 := Manager.world (Plugin.manager p2) in
  let w3 := Manager.world (Plugin.manager p3) in
  Plugin.rememberNavigationLayout (Plugin.settings p) = true ->
  Plugin.rememberNavigationLayout (Plugin.settings p2) = true ->
  Plugin.maintainLayoutAcrossWorkspaces (Plugin.settings p2) = false ->
  Plugin.navigationLayouts p2 !! name = Plugin.navigationLayouts p1 !! name ->
  Plugin.navigationLayouts p1 !! name = Some (Plugin.getCurrentNavigationLayout w) /\
  (forall x c, leftSplit w2 = Some x -> splitCollapsed x = Some c ->
     Plugin.isOpen (leftSplit w3) = Plugin.isOpen (leftSplit w)) /\
  (forall x c, rightSplit w2 = Some x -> splitCollapsed x = Some c ->
     Plugin.isOpen (rightSplit w3) = Plugin.isOpen (rightSplit w)).
Proof.
  destruct p as [cfg navs [st w t]], p2 as [cfg2 navs2 [st2 w2 t2]]. simpl.
  intros Hmem Hmem2 Hkeep.
  cbv [Plugin.saveNavigationLayout Plugin.restoreNavigationLayout Plugin.onManager
       Manager.emit Eff.zoom Eff.bind Eff.ret Eff.gets Eff.modify
       Plugin.with_manager Plugin.with_navigationLayouts Manager.with_world].
  simpl. rewrite Hmem. simpl. rewrite lookup_insert_eq. intros Hnav.
  unfold Plugin.restoreWorld. rewrite Hmem2, Hkeep, Hnav. simpl.
  split; [reflexivity|].
  split; intros x c Hx Hc; rewrite Hx; exact (restoreSplit_open _ x c Hc).
Qed.

(** X13. [restoreNavigationLayout] changes nothing but the [collapsed] flags
    of the two side docks: the active tab and the width of each dock, which
    the snapshot records, are never put back; the settings, the snapshots,
    the store and the rest of the host are untouched and nothing is written.
    With the memory disabled, with the layout maintained across workspaces,
    or without a snapshot for the name, the docks are left as they are
    too. *)
Theorem restore_touches_flags_only p (name : string) :
  let p' := snd (Plugin.restoreNavigationLayout name p) in
  let w := Manager.world (Plugin.manager p) in
  let w' := Manager.world (Plugin.manager p') in
  Plugin.settings p' = Plugin.settings p /\
  Plugin.navigationLayouts p' = Plugin.navigationLayouts p /\
  Manager.storage (Plugin.manager p') = Manager.storage (Plugin.manager p) /\
  Manager.trace (Plugin.manager p') = Manager.trace (Plugin.manager p) /\
  (currentLayout w' = currentLayout w /\ folderCell w' = folderCell w /\
   fileExplorer w' = fileExplorer w) /\
  ((x ← leftSplit w'; activeTab x) = (x ← leftSplit w; activeTab x) /\
   (x ← rightSplit w'; activeTab x) = (x ← rightSplit w; activeTab x) /\
   (x ← leftSplit w'; offsetWidth x) = (x ← leftSplit w; offsetWidth x) /\
   (x ← rightSplit w'; offsetWidth x) = (x ← rightSplit w; offsetWidth x)) /\
  (Plugin.rememberNavigationLayout (Plugin.settings p) = false \/
   Plugin.maintainLayoutAcrossWorkspaces (Plugin.settings p) = true \/
   Plugin.navigationLayouts p !! name = None -> w' = w).
Proof.
  destruct p as [cfg navs [st w t]]. simpl.
  unfold Plugin.restoreWorld.
  destruct (Plugin.rememberNavigationLayout cfg) eqn:Hmem,
           (Plugin.maintainLayoutAcrossWorkspaces cfg) eqn:Hkeep; simpl;
    try (repeat split; reflexivity).
  destruct (navs !! name) as [nav|] eqn:Hnav; [|repeat split; reflexivity].
  simpl. rewrite !restoreSplit_tab, !restoreSplit_width.
  repeat split. intros [H|[H|H]]; discriminate.
Qed.

End NavigationFacts.
End NavigationFacts.

(* ===================================================================== *)
(** * The gestures of the switcher and of the editor *)
(* ===================================================================== *)

Module FrontEndFacts.
Import Host Eff.
Import SaveLoadFacts.

Ltac gesture :=
  cbv [FrontEnd.handleRename FrontEnd.renameFromDialog FrontEnd.doDelete
       FrontEnd.deleteWorkspace FrontEnd.createNewWorkspace FrontEnd.saveSettings
       FrontEnd.notice Plugin.onManager Manager.emit Manager.notice
       Eff.zoom Eff.bind Eff.ret Eff.gets Eff.modify
       Plugin.with_manager Plugin.with_navigationLayouts];
  simpl.

(** What [trim] returns is empty or is not a blank name. *)
Lemma trim_not_blank (s : string) : Js.trim s <> EmptyString -> Js.blank (Js.trim s) = false.
Proof.
  intros Hne. rewrite blank_allWhitespace.
  unfold Js.trim in *. pose proof (trimStart_head s) as Hh.
  destruct (Js.trimStart s) as [|c r]; [now elim Hne|].
  simpl. rewrite Hh. simpl. destruct (Js.trimEnd r); simpl; now rewrite Hh.
Qed.

Lemma eqb_false (a b : string) : a <> b -> String.eqb a b = false.
Proof. intros H. now apply String.eqb_neq. Qed.

Section FrontEndFacts.
Context {Layout : Type}.
Implicit Types (p : Plugin.State Layout) (s : Manager.State Layout).

(** [renameWorkspace] towards a free name that is not blank, as a run. *)
Lemma rename_run s (oldName newName : string) :
  Manager.hasWorkspace newName (Manager.storage s) = false ->
  Js.blank newName = false ->
  exists s',
    Manager.renameWorkspace oldName newName s = (Ok tt, s') /\
    Outcome.renamedStore oldName newName (Manager.storage s) (Manager.storage s') /\
    Manager.world s' = Manager.world s /\
    Manager.trace s' =
      Manager.trace s ++ Outcome.renameEvents oldName newName (Manager.storage s).
Proof.
  intros Hfree Hb. unfold Outcome.renamedStore, Outcome.renameEvents.
  destruct (StoreFacts.absent_name newName (Manager.storage s) Hfree) as (Hnown & _).
  apply JsFacts.has_false_get in Hnown.
  destruct (Manager.hasWorkspace oldName (Manager.storage s)) eqn:Hold.
  - assert (Hne : oldName <> newName) by (intros ->; congruence).
    rewrite (StoreFacts.rename_ok s oldName newName Hold Hfree Hb).
    eexists. split; [reflexivity|]. simpl.
    split; [|split; reflexivity].
    split; [|split; [|split; [|split; reflexivity]]].
    + rewrite JsFacts.get_delete, JsFacts.get_app, Hnown.
      rewrite (eqb_false newName oldName) by congruence.
      simpl. now rewrite String.eqb_refl.
    + now rewrite JsFacts.has_delete, String.eqb_refl.
    + intros k Hko Hkn. rewrite JsFacts.get_delete, JsFacts.get_app.
      rewrite (eqb_false k oldName Hko). simpl. rewrite (eqb_false k newName Hkn).
      now destruct (Js.get k (Manager.workspaces (Manager.storage s))).
  - destruct s as [st w t]. simpl in *. StoreFacts.run. rewrite Hold. simpl.
    eexists. split; [reflexivity|]. auto.
Qed.

Lemma move_lookup (oldName newName : string)
    (layouts : gmap string Plugin.NavigationLayoutState) :
  oldName <> newName ->
  FrontEnd.moveNavigationLayout oldName newName layouts !! oldName = None /\
  FrontEnd.moveNavigationLayout oldName newName layouts !! newName =
    match layouts !! oldName with
    | Some nav => Some nav
    | None => layouts !! newName
    end /\
  (forall k, k <> oldName -> k <> newName ->
     FrontEnd.moveNavigationLayout oldName newName layouts !! k = layouts !! k).
Proof.
  intros Hne. unfold FrontEnd.moveNavigationLayout.
  destruct (layouts !! oldName) as [nav|] eqn:Hold.
  - split; [|split].
    + rewrite lookup_insert_ne by congruence. apply lookup_delete_eq.
    + apply lookup_insert_eq.
    + intros k Hko Hkn. rewrite lookup_insert_ne by congruence.
      now rewrite lookup_delete_ne by congruence.
  - auto.
Qed.

(** X14. The two rename gestures ([handleRename] of the switcher and the
    'Rename' button of the editor).  For an input whose trimmed value is not
    empty, differs from the old name and is a name of which [in] is false
    (neither stored nor inherited from the prototype chain), the manager
    never refuses the new name: what is stored under the old name moves to
    the trimmed name, the other own properties stay and the active pointer
    follows; the sidebar snapshot of the old name, if there is one, moves
    with it and the other snapshots stay.  The gesture does not look at what
    the manager did: when [in] is false of the old name the store is
    unchanged and the manager shows 'not found', and the snapshot is moved
    all the same.  What is done to the host is the manager's part (the event
    ['workspace-rename'] and the save of the log, or its notice), the write
    of the plugin's data and the notice of the gesture, in this order. *)
Theorem rename_gesture_moves_record_and_snapshot p (oldName inputValue : string) :
  let newName := Js.trim inputValue in
  let viaSwitcher := snd (FrontEnd.handleRename oldName inputValue p) in
  let viaEditor := snd (FrontEnd.renameFromDialog oldName inputValue p) in
  let st := Manager.storage (Plugin.manager p) in
  oldName <> EmptyString ->
  newName <> EmptyString ->
  newName <> oldName ->
  Manager.hasWorkspace newName st = false ->
  (fst (FrontEnd.handleRename oldName inputValue p) = Ok tt /\
   fst (FrontEnd.renameFromDialog oldName inputValue p) = Ok tt) /\
  (Outcome.renamedStore oldName newName st (Manager.storage (Plugin.manager viaSwitcher)) /\
   Manager.storage (Plugin.manager viaEditor) = Manager.storage (Plugin.manager viaSwitcher)) /\
  (Plugin.navigationLayouts viaSwitcher !! newName =
     match Plugin.navigationLayouts p !! oldName with
     | Some nav => Some nav
     | None => Plugin.navigationLayouts p !! newName
     end /\
   Plugin.navigationLayouts viaSwitcher !! oldName = None /\
   (forall k, k <> oldName -> k <> newName ->
      Plugin.navigationLayouts viaSwitcher !! k = Plugin.navigationLayouts p !! k) /\
   Plugin.navigationLayouts viaEditor = Plugin.navigationLayouts viaSwitcher) /\
  (Store.emitted (Plugin.manager p) (Plugin.manager viaSwitcher)
     (Outcome.renameEvents oldName newName st ++
      [SaveData; Notice ("Renamed workspace to " ++ Js.quoted newName)]) /\
   Store.emitted (Plugin.manager p) (Plugin.manager viaEditor)
     (Outcome.renameEvents oldName newName st ++
      [SaveData; Notice ("Renamed to: " ++ newName)])).
Proof.
  intros newName viaSwitcher viaEditor st Hold Hnew Hne Hfree.
  subst viaSwitcher viaEditor st.
  pose proof (trim_not_blank inputValue Hnew) as Hb. fold newName in Hb.
  destruct p as [cfg navs m]. simpl in *.
  destruct (rename_run m oldName newName Hfree Hb) as (m' & Hrun & Hstore & _ & Htrace).
  pose proof (move_lookup oldName newName navs (not_eq_sym Hne)) as (Hmo & Hmn & Hmk).
  unfold Store.emitted. gesture. fold newName.
  rewrite (eqb_false oldName "" Hold), (eqb_false newName "" Hnew),
    (eqb_false oldName newName (not_eq_sym Hne)), (eqb_false newName oldName Hne).
  simpl. rewrite Hfree. simpl. rewrite Hrun. simpl. rewrite Htrace.
  repeat rewrite <- app_assoc. simpl.
  repeat split; auto.
Qed.

(** X15. A rename gesture whose input is rejected changes nothing.  When
    the trimmed input is empty, is the old name, or is the name of a stored
    workspace (any name of which [hasWorkspace] holds, the inherited ones
    included), both gestures return without touching the store, the sidebar
    snapshots, the settings or the host. *)
Theorem rename_gesture_rejected p (oldName inputValue : string) :
  let newName := Js.trim inputValue in
  let viaSwitcher := snd (FrontEnd.handleRename oldName inputValue p) in
  let viaEditor := snd (FrontEnd.renameFromDialog oldName inputValue p) in
  newName = EmptyString \/ newName = oldName \/
  Manager.hasWorkspace newName (Manager.storage (Plugin.manager p)) = true ->
  (fst (FrontEnd.handleRename oldName inputValue p) = Ok tt /\
   Plugin.settings viaSwitcher = Plugin.settings p /\
   Plugin.navigationLayouts viaSwitcher = Plugin.navigationLayouts p /\
   Manager.storage (Plugin.manager viaSwitcher) = Manager.storage (Plugin.manager p) /\
   Manager.world (Plugin.manager viaSwitcher) = Manager.world (Plugin.manager p)) /\
  (fst (FrontEnd.renameFromDialog oldName inputValue p) = Ok tt /\
   Plugin.settings viaEditor = Plugin.settings p /\
   Plugin.navigationLayouts viaEditor = Plugin.navigationLayouts p /\
   Manager.storage (Plugin.manager viaEditor) = Manager.storage (Plugin.manager p) /\
   Manager.world (Plugin.manager viaEditor) = Manager.world (Plugin.manager p)).
Proof.
  intros newName viaSwitcher viaEditor Hrej. subst viaSwitcher viaEditor.
  destruct p as [cfg navs [st w t]]. simpl in *. gesture. fold newName.
  destruct (String.eqb_spec oldName "") as [Ho|Ho]; simpl;
    destruct (String.eqb_spec newName "") as [Hn|Hn]; simpl;
    try (repeat split; reflexivity);
    (destruct (String.eqb_spec oldName newName) as [He|He];
     destruct (String.eqb_spec newName oldName) as [He'|He']; simpl;
     try congruence; try (repeat split; reflexivity);
     destruct Hrej as [H|[H|H]]; try congruence;
     rewrite H; simpl; repeat split; reflexivity).
Qed.

(** [saveWorkspace] writes no own property but the one of its name and
    leaves the host's state as it is, whether it goes through or not. *)
Lemma save_frame s (name : string) (saveFolderState : bool) :
  Manager.world (snd (Manager.saveWorkspace name saveFolderState s)) = Manager.world s /\
  (forall k, k <> name ->
     Js.get k (Manager.workspaces
                 (Manager.storage (snd (Manager.saveWorkspace name saveFolderState s))))
     = Js.get k (Manager.workspaces (Manager.storage s))) /\
  (Manager.hasWorkspace name (Manager.storage s) = false ->
   Manager.prototype (Manager.storage (snd (Manager.saveWorkspace name saveFolderState s)))
   = Manager.prototype (Manager.storage s)).
Proof.
  destruct s as [st w t].
  assert (Hproto : forall (v : Manager.Value Layout),
            Manager.hasWorkspace name st = false ->
            Manager.prototype (Manager.assign name v st) = Manager.prototype st).
  { intros v H. now rewrite (StoreFacts.assign_fresh name v st H). }
  assert (Hother : forall (v : Manager.Value Layout) k, k <> name ->
            Js.get k (Manager.workspaces (Manager.assign name v st)) =
            Js.get k (Manager.workspaces st)).
  { intros v k Hk. unfold Manager.assign.
    destruct (negb (Js.has name (Manager.workspaces st)) && (name =? "__proto__")%string).
    - now destruct v.
    - simpl. rewrite JsFacts.get_set. now rewrite (eqb_false k name Hk). }
  StoreFacts.run.
  destruct (Js.blank name); simpl; [auto|].
  destruct (getLayoutFault w); simpl; [auto|].
  destruct saveFolderState; simpl; [|auto].
  destruct (loadLocalStorageFault w); simpl; [auto|].
  destruct (folderCell w); simpl; auto.
Qed.

(** X16. [createNewWorkspace] (and the 'Save' button of the editor) never
    overwrites: whatever is typed and whatever the host does, every own
    property of [workspaces] and its prototype are the same afterwards, and
    no sidebar snapshot is written.  An input that is empty once trimmed, or
    a name of which [in] holds (a stored name, or one inherited from the
    prototype chain such as ['__proto__']), leaves the whole store as it is
    and shows one notice.  A free name gets a record of the current layout
    and becomes the active workspace when the host does not raise; what is
    done to the host is then the save of the log, the write of the plugin's
    data and the notice 'Created workspace: ...', in this order. *)
Theorem create_never_overwrites p (inputValue : string) :
  let name := Js.trim inputValue in
  let p' := snd (FrontEnd.createNewWorkspace inputValue p) in
  let st := Manager.storage (Plugin.manager p) in
  let st' := Manager.storage (Plugin.manager p') in
  let w := Manager.world (Plugin.manager p) in
  (forall k, Js.has k (Manager.workspaces st) = true ->
     Js.get k (Manager.workspaces st') = Js.get k (Manager.workspaces st)) /\
  Manager.prototype st' = Manager.prototype st /\
  Plugin.navigationLayouts p' = Plugin.navigationLayouts p /\
  (name = EmptyString ->
     fst (FrontEnd.createNewWorkspace inputValue p) = Ok tt /\ st' = st /\
     Store.emitted (Plugin.manager p) (Plugin.manager p')
       [Notice "Please enter a workspace name"]) /\
  (name <> EmptyString -> Manager.hasWorkspace name st = true ->
     fst (FrontEnd.createNewWorkspace inputValue p) = Ok tt /\ st' = st /\
     Store.emitted (Plugin.manager p) (Plugin.manager p')
       [Notice ("Workspace " ++ Js.quoted name ++ " already exists")]) /\
  (name <> EmptyString -> Manager.hasWorkspace name st = false ->
   getLayoutFault w = None -> loadLocalStorageFault w = None ->
     fst (FrontEnd.createNewWorkspace inputValue p) = Ok tt /\
     Manager.getWorkspace name st' =
       Some (Manager.Stored
               {| Manager.layout := currentLayout w;
                  Manager.lastSaved := now w;
                  Manager.folderExpandState :=
                    if Plugin.rememberNavigationLayout (Plugin.settings p)
                    then Store.capturedFolderState w else FsUndefined;
                  Manager.metadata := None |}) /\
     Manager.activeWorkspace st' = Some name /\
     Store.emitted (Plugin.manager p) (Plugin.manager p')
       [LogSave; SaveData; Notice ("Created workspace: " ++ name)]).
Proof.
  intros name p' st st' w. subst p' st st' w. unfold Store.emitted.
  destruct p as [cfg navs m]. simpl. gesture. fold name.
  destruct (String.eqb_spec name "") as [Hn|Hn]; simpl.
  { repeat split; auto; intros; try contradiction; congruence. }
  destruct (Manager.hasWorkspace name (Manager.storage m)) eqn:Hfree; simpl.
  { repeat split; auto; intros; try contradiction; congruence. }
  pose proof (save_frame m name (Plugin.rememberNavigationLayout cfg)) as (_ & Hother & Hproto).
  specialize (Hproto Hfree).
  pose proof (save_ok m name (Plugin.rememberNavigationLayout cfg)
                (trim_not_blank inputValue Hn)) as Hsave.
  fold name in Hsave.
  destruct (Manager.saveWorkspace name (Plugin.rememberNavigationLayout cfg) m)
    as [[[]|e] m'] eqn:Hrun; simpl in *.
  - split; [|split; [exact Hproto|split; [reflexivity|split; [|split]]]].
    + intros k Hk. apply Hother. intros ->.
      rewrite (StoreFacts.hasWorkspace_own _ _ Hk) in Hfree. discriminate.
    + intros H. contradiction.
    + intros _ H. discriminate.
    + intros _ _ Hlay Hload. specialize (Hsave Hlay Hload).
      injection Hsave as ->. simpl.
      split; [reflexivity|]. split; [apply StoreFacts.getWorkspace_saved|].
      split; [reflexivity|]. repeat rewrite <- app_assoc. reflexivity.
  - split; [|split; [exact Hproto|split; [reflexivity|split; [|split]]]].
    + intros k Hk. apply Hother. intros ->.
      rewrite (StoreFacts.hasWorkspace_own _ _ Hk) in Hfree. discriminate.
    + intros H. contradiction.
    + intros _ H. discriminate.
    + intros _ _ Hlay Hload. specialize (Hsave Hlay Hload). discriminate.
Qed.

(** [deleteWorkspace], as a run. *)
Lemma delete_run s (name : string) :
  exists s',
    Manager.deleteWorkspace name s = (Ok tt, s') /\
    Js.has name (Manager.workspaces (Manager.storage s')) = false /\
    (forall k, k <> name ->
       Js.get k (Manager.workspaces (Manager.storage s')) =
       Js.get k (Manager.workspaces (Manager.storage s))) /\
    Manager.prototype (Manager.storage s') = Manager.prototype (Manager.storage s) /\
    Manager.activeWorkspace (Manager.storage s') =
      (if Manager.hasWorkspace name (Manager.storage s) &&
          bool_decide (Manager.activeWorkspace (Manager.storage s) = Some name)
       then None else Manager.activeWorkspace (Manager.storage s)) /\
    Manager.trace s' = Manager.trace s ++ Outcome.deleteEvents name (Manager.storage s).
Proof.
  unfold Outcome.deleteEvents.
  destruct (Manager.hasWorkspace name (Manager.storage s)) eqn:Hin.
  - rewrite (StoreFacts.delete_ok s name Hin). eexists. split; [reflexivity|]. simpl.
    split; [now rewrite JsFacts.has_delete, String.eqb_refl|].
    split; [|auto].
    intros k Hk. rewrite JsFacts.get_delete. now rewrite (eqb_false k name Hk).
  - rewrite (StoreFacts.delete_refused s name Hin). eexists. split; [reflexivity|]. simpl.
    destruct (StoreFacts.absent_name name (Manager.storage s) Hin) as (Hown & _).
    auto.
Qed.

(** X17. The delete gesture of the switcher.  The name it works on is its
    argument or, when that is missing or empty, the item selected in the
    chooser; with none of the two it returns at once.  With the confirmation
    dialog enabled and declined nothing happens at all.  When the gesture
    goes through (dialog disabled, or accepted), [workspaces] has no own
    property of the name afterwards and the sidebar snapshot of the name is
    gone, every other own property and snapshot and the prototype are as
    before, and the active pointer is cleared exactly when it was the name
    and [in] held of it.  What is done to the host is the manager's part
    (the event ['workspace-delete'] and the save of the log, or the notice
    'not found'), the notice 'Deleted workspace: ...' and then the write of
    the plugin's data, which is queued and not awaited. *)
Theorem delete_gesture p (workspaceName selected : option string) (name : string)
    (accepted : bool) :
  let p' := snd (FrontEnd.deleteWorkspace workspaceName selected accepted p) in
  let st := Manager.storage (Plugin.manager p) in
  let st' := Manager.storage (Plugin.manager p') in
  FrontEnd.chosenName workspaceName selected = Some name ->
  (name <> EmptyString /\
   (workspaceName = Some name \/
    ((workspaceName = None \/ workspaceName = Some EmptyString) /\ selected = Some name))) /\
  (Plugin.showDeleteConfirmation (Plugin.settings p) = true -> accepted = false -> p' = p) /\
  (Plugin.showDeleteConfirmation (Plugin.settings p) = false \/ accepted = true ->
     fst (FrontEnd.deleteWorkspace workspaceName selected accepted p) = Ok tt /\
     Js.has name (Manager.workspaces st') = false /\
     Plugin.navigationLayouts p' !! name = None /\
     (forall k, k <> name ->
        Js.get k (Manager.workspaces st') = Js.get k (Manager.workspaces st) /\
        Plugin.navigationLayouts p' !! k = Plugin.navigationLayouts p !! k) /\
     Manager.prototype st' = Manager.prototype st /\
     Manager.activeWorkspace st' =
       (if Manager.hasWorkspace name st &&
           bool_decide (Manager.activeWorkspace st = Some name)
        then None else Manager.activeWorkspace st) /\
     Store.emitted (Plugin.manager p) (Plugin.manager p')
       (Outcome.deleteEvents name st ++
        [Notice ("Deleted workspace: " ++ name); SaveData])).
Proof.
  intros p' st st' Hname. subst p' st st'.
  split.
  { unfold FrontEnd.chosenName, FrontEnd.truthyName in Hname.
    destruct workspaceName as [n|]; [destruct (String.eqb_spec n "") as [->|Hn]|].
    - destruct selected as [x|]; [|discriminate].
      destruct (String.eqb_spec x "") as [->|Hx]; [discriminate|].
      injection Hname as ->. auto.
    - rewrite (eqb_false n "" Hn) in Hname. injection Hname as ->. auto.
    - destruct selected as [x|]; [|discriminate].
      destruct (String.eqb_spec x "") as [->|Hx]; [discriminate|].
      injection Hname as ->. auto. }
  destruct p as [cfg navs m]. simpl.
  destruct (delete_run m name) as (m' & Hrun & Hgone & Hother & Hproto & Hact & Htrace).
  unfold Store.emitted. gesture. rewrite Hname. simpl.
  destruct (Plugin.showDeleteConfirmation cfg), accepted; simpl;
    rewrite ?Hrun; simpl; rewrite ?Htrace; repeat rewrite <- app_assoc; simpl;
    (split; [intros; try discriminate; try reflexivity
            |intros [H|H]; try discriminate; simpl;
             repeat split; auto;
             try apply lookup_delete_eq; try (now apply lookup_delete_ne);
             try (now apply Hother)]).
Qed.

(** The delete gesture without a name: no argument (or an empty one) and no
    item selected in the chooser (or an empty one). *)
Lemma delete_gesture_without_name p (workspaceName selected : option string)
    (accepted : bool) :
  FrontEnd.chosenName workspaceName selected = None ->
  FrontEnd.deleteWorkspace workspaceName selected accepted p = (Ok tt, p).
Proof.
  intros Hnone. unfold FrontEnd.deleteWorkspace. now rewrite Hnone.
Qed.

End FrontEndFacts.

(** ** The name of a duplicate *)

Lemma append_cons (c : ascii) (a b : string) :
  (String c a ++ b)%string = String c (a ++ b)%string.
Proof. reflexivity. Qed.

Lemma append_empty (b : string) : (EmptyString ++ b)%string = b.
Proof. reflexivity. Qed.

Lemma append_inv_head (s a b : string) : (s ++ a = s ++ b)%string -> a = b.
Proof.
  induction s as [|c s IH]; rewrite ?append_empty, ?append_cons; [auto|].
  intros H. injection H as H. auto.
Qed.

Lemma length_append (a b : string) :
  String.length (a ++ b) = String.length a + String.length b.
Proof.
  induction a as [|c a IH]; rewrite ?append_empty, ?append_cons; simpl;
    [reflexivity|now rewrite IH].
Qed.

Lemma append_inv_tail (a b t : string) : (a ++ t = b ++ t)%string -> a = b.
Proof.
  revert b. induction a as [|c a IH]; intros [|d b] H;
    rewrite ?append_empty, ?append_cons in H.
  - reflexivity.
  - exfalso. apply (f_equal String.length) in H. simpl in H.
    rewrite length_append in H. lia.
  - exfalso. apply (f_equal String.length) in H. simpl in H.
    rewrite length_append in H. lia.
  - injection H as -> H. f_equal. auto.
Qed.

Lemma numberToString_inj (m n : nat) :
  FrontEnd.numberToString m = FrontEnd.numberToString n -> m = n.
Proof.
  unfold FrontEnd.numberToString. intros H.
  apply DecimalNat.Unsigned.to_uint_inj.
  pose proof (NilEmpty.usu (Nat.to_uint m)) as Hm.
  pose proof (NilEmpty.usu (Nat.to_uint n)) as Hn.
  rewrite H in Hm. congruence.
Qed.

Lemma copyNameNumbered_inj (sourceName : string) (m n : nat) :
  FrontEnd.copyNameNumbered sourceName m = FrontEnd.copyNameNumbered sourceName n -> m = n.
Proof.
  unfold FrontEnd.copyNameNumbered. intros H.
  apply append_inv_head in H. apply (append_inv_head " (copy ") in H.
  apply append_inv_tail in H. now apply numberToString_inj.
Qed.

Lemma copyName_not_numbered (sourceName : string) (n : nat) :
  FrontEnd.copyName sourceName <> FrontEnd.copyNameNumbered sourceName n.
Proof.
  unfold FrontEnd.copyName, FrontEnd.copyNameNumbered. intros H.
  apply append_inv_head in H. rewrite !append_cons in H. discriminate H.
Qed.

Lemma candidates_NoDup (sourceName : string) (counter turns : nat) :
  List.NoDup (Outcome.candidates sourceName (FrontEnd.copyName sourceName) counter turns).
Proof.
  unfold Outcome.candidates. constructor.
  - intros Hin. apply in_map_iff in Hin as (n & Hn & _).
    symmetry in Hn. now apply copyName_not_numbered in Hn.
  - apply Finite.Injective_map_NoDup; [|apply seq_NoDup].
    intros m n. apply copyNameNumbered_inj.
Qed.

(** The names the loop tries end with a closing parenthesis. *)
Lemma ends_append (a b : string) (c : ascii) :
  String.get (String.length b - 1) b = Some c ->
  String.get (String.length (a ++ b) - 1) (a ++ b) = Some c.
Proof.
  intros H. rewrite length_append.
  assert (Hb : 1 <= String.length b).
  { destruct b; [discriminate|simpl; lia]. }
  replace (String.length a + String.length b - 1)
    with ((String.length b - 1) + String.length a) by lia.
  now rewrite <- String.append_correct2.
Qed.

Lemma candidates_end (sourceName : string) (counter turns : nat) (x : string) :
  In x (Outcome.candidates sourceName (FrontEnd.copyName sourceName) counter turns) ->
  String.get (String.length x - 1) x = Some ")"%char.
Proof.
  unfold Outcome.candidates. intros [<-|Hin].
  - unfold FrontEnd.copyName. now apply ends_append.
  - apply in_map_iff in Hin as (n & <- & _). unfold FrontEnd.copyNameNumbered.
    now repeat apply ends_append.
Qed.

Section UniqueName.
Context {Layout : Type}.
Implicit Types (st : Manager.WorkspacesStorage Layout).

(** No name that ends with a closing parenthesis comes from the prototype
    chain. *)
Lemma closing_not_inherited st (x : string) :
  String.get (String.length x - 1) x = Some ")"%char ->
  Manager.inheritedName x st = false.
Proof.
  intros H.
  assert (Hno : forall k, In k (Manager.recordKeys ++ Js.objectPrototype) ->
                  String.eqb x k = false).
  { intros k Hk. apply eqb_false. intros ->.
    unfold Manager.recordKeys, Js.objectPrototype in Hk. simpl in Hk.
    repeat (destruct Hk as [<-|Hk]; [vm_compute in H; discriminate|]).
    exact Hk. }
  assert (Hinc : forall l, incl l (Manager.recordKeys ++ Js.objectPrototype) ->
                   Js.includes x l = false).
  { induction l as [|k l IH]; intros Hl; [reflexivity|].
    rewrite StoreFacts.includes_cons, (Hno k (Hl k (or_introl eq_refl))). simpl.
    apply IH. intros y Hy. apply Hl. now right. }
  unfold Manager.inheritedName, Js.inherited.
  rewrite (Hinc Js.objectPrototype) by (intros y Hy; apply in_or_app; now right).
  rewrite (Hinc Manager.recordKeys) by (intros y Hy; apply in_or_app; now left).
  now destruct (Manager.prototype st).
Qed.

(** A loop that runs out of turns has found every name it tried stored. *)
Lemma uniqueNameFrom_None st (sourceName : string) (fuel : nat) :
  forall (newName : string) (counter : nat),
    FrontEnd.uniqueNameFrom fuel st sourceName newName counter = None ->
    forall x, In x (Outcome.candidates sourceName newName counter fuel) ->
              Manager.hasWorkspace x st = true.
Proof.
  unfold Outcome.candidates.
  induction fuel as [|fuel IH]; intros newName counter Hrun x Hx; simpl in *;
    destruct (Manager.hasWorkspace newName st) eqn:Hhas; try discriminate.
  - destruct Hx as [<-|[]]. exact Hhas.
  - destruct Hx as [<-|Hx]; [exact Hhas|].
    apply (IH _ _ Hrun). exact Hx.
Qed.

(** The name the loop returns is the first of the names it tries that is
    not stored, and more turns do not change it. *)
Lemma uniqueNameFrom_Some st (sourceName : string) (fuel : nat) :
  forall (newName : string) (counter : nat) (name : string),
    FrontEnd.uniqueNameFrom fuel st sourceName newName counter = Some name ->
    Manager.hasWorkspace name st = false /\
    (exists tried, exists later,
       Outcome.candidates sourceName newName counter fuel = tried ++ name :: later /\
       Forall (fun x => Manager.hasWorkspace x st = true) tried) /\
    (forall more, FrontEnd.uniqueNameFrom (fuel + more) st sourceName newName counter
                  = Some name).
Proof.
  unfold Outcome.candidates.
  induction fuel as [|fuel IH]; intros newName counter name Hrun; simpl in *;
    destruct (Manager.hasWorkspace newName st) eqn:Hhas; try discriminate.
  - injection Hrun as <-. split; [exact Hhas|]. split.
    + exists [], []. split; [reflexivity|constructor].
    + intros more. destruct more; simpl; now rewrite Hhas.
  - destruct (IH _ _ _ Hrun) as (Hfree & (tried & later & Heq & Hall) & Hmore).
    split; [exact Hfree|]. split.
    + exists (newName :: tried), later. split; [simpl; now rewrite Heq|].
      apply List.Forall_cons; assumption.
    + exact Hmore.
  - injection Hrun as <-. split; [exact Hhas|]. split.
    + exists [], (map (FrontEnd.copyNameNumbered sourceName) (seq counter (S fuel))).
      split; [reflexivity|constructor].
    + intros more. reflexivity.
Qed.

(** X18. The loop that names a duplicate
    ([cloneWorkspace], 'duplicate-current-workspace') ends within as many
    turns as the store has records, and the name it returns is not stored:
    it is ['name (copy)'] when that is free, otherwise ['name (copy n)'] for
    the least [n >= 2] that is free; giving the loop more turns does not
    change the name. *)
Theorem uniqueCopyName_fresh st (sourceName : string) (fuel : nat) :
  length (Manager.workspaces st) <= fuel ->
  exists name,
    FrontEnd.uniqueCopyName fuel st sourceName = Some name /\
    Manager.hasWorkspace name st = false /\
    (Manager.hasWorkspace (FrontEnd.copyName sourceName) st = false ->
       name = FrontEnd.copyName sourceName) /\
    (Manager.hasWorkspace (FrontEnd.copyName sourceName) st = true ->
       exists n, 2 <= n /\ name = FrontEnd.copyNameNumbered sourceName n /\
         forall k, 2 <= k < n ->
           Manager.hasWorkspace (FrontEnd.copyNameNumbered sourceName k) st = true).
Proof.
  intros Hfuel. unfold FrontEnd.uniqueCopyName.
  destruct (FrontEnd.uniqueNameFrom (length (Manager.workspaces st)) st sourceName
              (FrontEnd.copyName sourceName) 2) as [name|] eqn:Hrun.
  - destruct (uniqueNameFrom_Some st sourceName _ _ _ _ Hrun)
      as (Hfree & (tried & later & Heq & Hall) & Hmore).
    exists name. split.
    { replace fuel with (length (Manager.workspaces st) +
                         (fuel - length (Manager.workspaces st))) by lia.
      apply Hmore. }
    split; [exact Hfree|]. unfold Outcome.candidates in Heq.
    destruct tried as [|first tried]; simpl in Heq.
    + injection Heq as Hname _. subst name. split; [auto|]. congruence.
    + injection Heq as <- Heq. split.
      { intros Hc. apply List.Forall_inv in Hall. congruence. }
      intros _. apply List.Forall_inv_tail in Hall.
      assert (Hlen : length tried < length (Manager.workspaces st)).
      { apply (f_equal (@length string)) in Heq.
        rewrite length_map, length_seq, length_app in Heq. simpl in Heq. lia. }
      exists (2 + length tried). split; [lia|].
      set (f := FrontEnd.copyNameNumbered sourceName) in *.
      assert (Hnth : forall i, i < length (Manager.workspaces st) ->
                nth_error (map f (seq 2 (length (Manager.workspaces st)))) i = Some (f (2 + i))).
      { intros i Hi. rewrite nth_error_map, nth_error_seq.
        destruct (Nat.ltb_spec i (length (Manager.workspaces st))); [reflexivity|lia]. }
      split.
      * specialize (Hnth (length tried) Hlen). rewrite Heq in Hnth.
        rewrite nth_error_app2 in Hnth by lia. rewrite Nat.sub_diag in Hnth.
        change (Some name = Some (f (2 + length tried))) in Hnth. congruence.
      * intros k Hk. rewrite List.Forall_forall in Hall. apply Hall.
        assert (Hi : k - 2 < length (Manager.workspaces st)) by lia.
        specialize (Hnth (k - 2) Hi). rewrite Heq in Hnth.
        rewrite nth_error_app1 in Hnth by lia.
        replace (2 + (k - 2)) with k in Hnth by lia.
        eapply nth_error_In. exact Hnth.
  - exfalso.
    pose proof (uniqueNameFrom_None st sourceName _ _ _ Hrun) as Hall.
    pose proof (candidates_NoDup sourceName 2 (length (Manager.workspaces st))) as Hnd.
    assert (Hincl : incl (Outcome.candidates sourceName (FrontEnd.copyName sourceName) 2
                            (length (Manager.workspaces st)))
                         (Js.names (Manager.workspaces st))).
    { intros x Hx. apply has_In.
      pose proof (Hall x Hx) as Hin. unfold Manager.hasWorkspace in Hin.
      now rewrite (closing_not_inherited st x (candidates_end _ _ _ _ Hx)), orb_false_r in Hin. }
    pose proof (NoDup_incl_length Hnd Hincl) as Hlen.
    unfold Outcome.candidates, Js.names in Hlen. simpl in Hlen.
    rewrite !length_map, length_seq in Hlen. lia.
Qed.

End UniqueName.
End FrontEndFacts.

(* ===================================================================== *)
(** * Switching: what is saved and what is applied *)
(* ===================================================================== *)

Module SwitchFacts.
Import Host Eff.

Ltac session :=
  cbv [Session.onChooseItem Session.switchTo Session.saveCurrent Session.loadWorkspace
       Session.beforeWorkspaceLoad Session.onPlugin Session.with_plugin
       FrontEnd.saveSettings FrontEnd.notice Plugin.onManager
       Manager.emit Manager.notice Manager.getActiveWorkspace
       Eff.when Eff.zoom Eff.bind Eff.ret Eff.gets Eff.modify
       Plugin.with_manager Plugin.with_navigationLayouts];
  simpl.

Section SwitchFacts.
Context {Layout : Type}.
Implicit Types (s : Session.State Layout) (m : Manager.State Layout).


(** [loadWorkspace] writes no record. *)
Lemma load_keeps_records m (name : string) (restoreFolderState : bool) :
  Manager.workspaces (Manager.storage (snd (Manager.loadWorkspace name restoreFolderState m)))
  = Manager.workspaces (Manager.storage m).
Proof.
  destruct m as [st w t].
  cbv [Manager.loadWorkspace Manager.notice Manager.trigger Manager.emit
       Manager.loggerSave Manager.saveLocalStorage Manager.changeLayout
       Eff.bind Eff.ret Eff.gets Eff.modify Eff.throw Eff.try_catch
       Manager.with_storage Manager.with_world]. simpl.
  destruct (Manager.getWorkspace name st) as [v|]; simpl; [|reflexivity].
  assert (Hstep : forall (w0 : World Layout) t0, exists r w',
    Manager.refreshFileExplorer restoreFolderState (Manager.folderOf v)
      {| Manager.storage := st; Manager.world := w0; Manager.trace := t0 |} =
    (r, {| Manager.storage := st; Manager.world := w'; Manager.trace := t0 |})).
  { intros w0 t0.
    destruct (LoadFacts.refresh_run restoreFolderState (Manager.folderOf v)
                {| Manager.storage := st; Manager.world := w0; Manager.trace := t0 |})
      as (w' & Hr & _). eauto. }
  destruct restoreFolderState; simpl;
    [destruct (truthy (Manager.folderOf v)); simpl;
     destruct (saveLocalStorageFault w); simpl; try reflexivity|];
    destruct (Manager.layoutOf v); simpl;
    destruct (changeLayoutFault w); simpl;
    match goal with
    | |- context [Manager.refreshFileExplorer ?b ?f
                    {| Manager.storage := _; Manager.world := ?w0; Manager.trace := ?t0 |}] =>
        destruct (Hstep w0 t0) as (r & w' & ->); destruct r as [[]|err]; reflexivity
    end.
Qed.






(** X20. Choosing a workspace without saving (plain Enter, or Shift and Alt
    together, with 'auto-save on switch' disabled) writes no record and no
    sidebar snapshot, whatever the host does: changes made to the layout
    since the last save are not kept. *)
Theorem switch_without_saving s (b : string) (shiftKey altKey : bool) :
  let p := Session.plugin s in
  let p' := Session.plugin (snd (Session.onChooseItem b shiftKey altKey s)) in
  Session.saves (Plugin.settings p) shiftKey altKey = false ->
  Manager.workspaces (Manager.storage (Plugin.manager p')) =
    Manager.workspaces (Manager.storage (Plugin.manager p)) /\
  Plugin.navigationLayouts p' = Plugin.navigationLayouts p /\
  Plugin.settings p' = Plugin.settings p.
Proof.
  destruct s as [[cfg navs m] flag]. simpl. unfold Session.saves.
  intros Hsaves.
  pose proof (load_keeps_records m b
                (Plugin.rememberNavigationLayout cfg &&
                 negb (Plugin.maintainLayoutAcrossWorkspaces cfg))) as Hrec.
  destruct shiftKey, altKey; simpl in Hsaves; try discriminate;
    session; rewrite Hsaves; simpl;
    destruct (Manager.loadWorkspace b _ m) as [[[]|e] m'];
    simpl in *; auto.
Qed.

End SwitchFacts.
End SwitchFacts.

(* ===================================================================== *)
(** * Names outside the prototype chain *)
(* ===================================================================== *)

Module ChainFacts.
Import Host Eff Manager Store.

Section ChainFacts.
Context {Layout : Type}.
Implicit Types (s : State Layout) (st : WorkspacesStorage Layout).

(** Whether a name is inherited depends on the prototype only. *)
Lemma inheritedName_prototype (name : string) st st' :
  prototype st' = prototype st -> inheritedName name st' = inheritedName name st.
Proof. unfold inheritedName. now intros ->. Qed.

(** X21. [renameWorkspace], on every store.  It always returns.  When [in]
    holds of [oldName] and not of [newName], which is not blank, what was
    read under [oldName] is an own property under [newName] afterwards,
    there is no own property [oldName] (and [in] is false of it unless the
    name comes from the prototype chain), the other own properties and the
    prototype are as before, the active pointer follows the name, and the
    event ['workspace-rename'] is triggered before the log is saved.
    Otherwise the store is exactly as before and one notice is shown: 'not
    found', 'already exists' or 'cannot be empty', tested in this order. *)
Theorem rename_moves_property s (oldName newName : string) :
  let s' := snd (renameWorkspace oldName newName s) in
  let st := storage s in
  let st' := storage s' in
  fst (renameWorkspace oldName newName s) = Ok tt /\
  (hasWorkspace oldName st = true -> hasWorkspace newName st = false ->
   Js.blank newName = false ->
     Js.get newName (workspaces st') = Some (read oldName st) /\
     Js.has oldName (workspaces st') = false /\
     hasWorkspace newName st' = true /\
     (inheritedName oldName st = false -> hasWorkspace oldName st' = false) /\
     (forall k, k <> oldName -> k <> newName ->
        Js.get k (workspaces st') = Js.get k (workspaces st)) /\
     prototype st' = prototype st /\
     activeWorkspace st' =
       (if bool_decide (activeWorkspace st = Some oldName)
        then Some newName else activeWorkspace st) /\
     emitted s s' [Trigger "workspace-rename" [newName; oldName]; LogSave]) /\
  (hasWorkspace oldName st = false \/ hasWorkspace newName st = true \/
   Js.blank newName = true ->
     st' = st /\
     emitted s s'
       [Notice (if negb (hasWorkspace oldName st)
                then "Workspace " ++ Js.quoted oldName ++ " not found"
                else if hasWorkspace newName st
                then "Workspace " ++ Js.quoted newName ++ " already exists"
                else "Workspace name cannot be empty")]).
Proof.
  split; [|split].
  - destruct s as [st w t]. StoreFacts.run.
    destruct (hasWorkspace oldName st); simpl; [|reflexivity].
    destruct (hasWorkspace newName st); simpl; [reflexivity|].
    destruct (Js.blank newName); reflexivity.
  - intros Hold Hnew Hb.
    destruct (FrontEndFacts.rename_run s oldName newName Hnew Hb)
      as (s1 & Hrun & Hstore & _ & Htrace).
    rewrite Hrun. cbn [snd]. unfold Outcome.renamedStore, Outcome.renameEvents in *.
    rewrite Hold in Hstore, Htrace.
    destruct Hstore as (Hget & Hgone & Hother & Hproto & Hact).
    split; [exact Hget|]. split; [exact Hgone|].
    split; [apply StoreFacts.hasWorkspace_own, JsFacts.has_get; eauto|].
    split.
    { intros Hinh. unfold hasWorkspace.
      now rewrite Hgone, (inheritedName_prototype oldName _ _ Hproto), Hinh. }
    split; [exact Hother|]. split; [exact Hproto|]. split; [exact Hact|exact Htrace].
  - intros Hcase. destruct s as [st w t]. unfold emitted. simpl in *. StoreFacts.run.
    destruct (hasWorkspace oldName st); simpl; [|auto].
    destruct (hasWorkspace newName st); simpl; [auto|].
    destruct (Js.blank newName); simpl; [auto|].
    destruct Hcase as [H|[H|H]]; discriminate.
Qed.

(** X22. [deleteWorkspace], on every store.  It always returns.  When [in]
    holds of the name, [workspaces] has no own property of that name
    afterwards (and [in] is false of it unless the name comes from the
    prototype chain), the other own properties and the prototype are as
    before, the active pointer is [null] if it was the name and unchanged
    if not, and the event ['workspace-delete'] is triggered before the log
    is saved.  When [in] does not hold, the store is exactly as before and
    the notice 'not found' is shown. *)
Theorem delete_removes_property s (name : string) :
  let s' := snd (deleteWorkspace name s) in
  let st := storage s in
  let st' := storage s' in
  fst (deleteWorkspace name s) = Ok tt /\
  (hasWorkspace name st = true ->
     Js.has name (workspaces st') = false /\
     (inheritedName name st = false -> hasWorkspace name st' = false) /\
     (forall k, k <> name -> Js.get k (workspaces st') = Js.get k (workspaces st)) /\
     prototype st' = prototype st /\
     activeWorkspace st' =
       (if bool_decide (activeWorkspace st = Some name)
        then None else activeWorkspace st) /\
     emitted s s' [Trigger "workspace-delete" [name]; LogSave]) /\
  (hasWorkspace name st = false ->
     st' = st /\
     emitted s s' [Notice ("Workspace " ++ Js.quoted name ++ " not found")]).
Proof.
  split; [|split].
  - destruct (FrontEndFacts.delete_run s name) as (s1 & -> & _). reflexivity.
  - intros Hin.
    destruct (FrontEndFacts.delete_run s name)
      as (s1 & Hrun & Hgone & Hother & Hproto & Hact & Htrace).
    rewrite Hrun. cbn [snd]. unfold Outcome.deleteEvents in Htrace.
    rewrite Hin in Hact, Htrace. simpl in Hact.
    split; [exact Hgone|]. split.
    { intros Hinh. unfold hasWorkspace.
      now rewrite Hgone, (inheritedName_prototype name _ _ Hproto), Hinh. }
    split; [exact Hother|]. split; [exact Hproto|]. split; [exact Hact|exact Htrace].
  - intros Hin. rewrite (StoreFacts.delete_refused s name Hin). unfold emitted. simpl.
    split; reflexivity.
Qed.

(** What [loadWorkspace] does to the store: nothing, or it makes the name
    active, and this only when [getWorkspace] gave a value. *)
Lemma load_storage s (name : string) (restoreFolderState : bool) :
  storage (snd (loadWorkspace name restoreFolderState s)) = storage s \/
  (storage (snd (loadWorkspace name restoreFolderState s)) =
     set_activeWorkspace (Some name) (storage s) /\
   exists v, getWorkspace name (storage s) = Some v).
Proof.
  destruct s as [st w t].
  cbv [loadWorkspace notice trigger emit loggerSave saveLocalStorage changeLayout
       Eff.bind Eff.ret Eff.gets Eff.modify Eff.throw Eff.try_catch
       with_storage with_world]. simpl.
  destruct (getWorkspace name st) as [v|] eqn:Hget; simpl; [|now left].
  assert (Hstep : forall (w0 : World Layout) t0, exists r w',
    refreshFileExplorer restoreFolderState (folderOf v)
      {| storage := st; world := w0; trace := t0 |} =
    (r, {| storage := st; world := w'; trace := t0 |})).
  { intros w0 t0.
    destruct (LoadFacts.refresh_run restoreFolderState (folderOf v)
                {| storage := st; world := w0; trace := t0 |})
      as (w' & Hr & _). eauto. }
  destruct restoreFolderState; simpl;
    [destruct (truthy (folderOf v)); simpl;
     destruct (saveLocalStorageFault w); simpl; try (now left)|];
    destruct (layoutOf v); simpl;
    destruct (changeLayoutFault w); simpl;
    match goal with
    | |- context [refreshFileExplorer ?b ?f
                    {| storage := _; world := ?w0; trace := ?t0 |}] =>
        destruct (Hstep w0 t0) as (r & w' & ->); destruct r as [[]|err]; simpl;
        [right; split; [reflexivity|eauto]|now left]
    end.
Qed.

(** X23. The active pointer stays valid.  In a store whose active pointer is
    [null] or an own key of [workspaces], it is so again after
    [deleteWorkspace] and [renameWorkspace] with any names, after
    [saveWorkspace] of any name but a ['__proto__'] that is no own key,
    and after [loadWorkspace] and [setActiveWorkspace] of any name that is
    an own key or does not come from the prototype chain, whatever the host
    does; [setActiveWorkspace] with a name of which [in] is false leaves the
    store as it is. *)
Theorem active_pointer_stays_valid s (name : string) :
  activeValid (storage s) ->
  (forall saveFolderState,
     Js.has name (workspaces (storage s)) = true \/ name <> "__proto__" ->
     activeValid (storage (snd (saveWorkspace name saveFolderState s)))) /\
  (forall restoreFolderState,
     Js.has name (workspaces (storage s)) = true \/ inheritedName name (storage s) = false ->
     activeValid (storage (snd (loadWorkspace name restoreFolderState s)))) /\
  activeValid (storage (snd (deleteWorkspace name s))) /\
  (forall newName, activeValid (storage (snd (renameWorkspace name newName s)))) /\
  (Js.has name (workspaces (storage s)) = true \/ inheritedName name (storage s) = false ->
   activeValid (storage (snd (setActiveWorkspace name s)))) /\
  (hasWorkspace name (storage s) = false ->
   storage (snd (setActiveWorkspace name s)) = storage s).
Proof.
  intros Hvalid.
  assert (Hown : Js.has name (workspaces (storage s)) = true \/
                 inheritedName name (storage s) = false ->
                 hasWorkspace name (storage s) = true ->
                 Js.has name (workspaces (storage s)) = true).
  { intros [H|H] Hin; [exact H|]. unfold hasWorkspace in Hin.
    now rewrite H, orb_false_r in Hin. }
  split; [|split; [|split; [|split; [|split]]]].
  - intros saveFolderState Hcase.
    assert (Hplain : forall v, Js.has name (workspaces (assign name v (storage s))) = true).
    { intros v. unfold assign. destruct Hcase as [H|H].
      - rewrite H. simpl. now rewrite JsFacts.has_set, String.eqb_refl.
      - rewrite (proj2 (String.eqb_neq name "__proto__") H), andb_false_r. simpl.
        now rewrite JsFacts.has_set, String.eqb_refl. }
    destruct s as [st w t]. simpl in *. StoreFacts.run.
    destruct (Js.blank name); simpl; [exact Hvalid|].
    destruct (getLayoutFault w); simpl; [exact Hvalid|].
    destruct saveFolderState; simpl; [|apply Hplain].
    destruct (loadLocalStorageFault w); simpl; [exact Hvalid|].
    destruct (folderCell w); simpl; apply Hplain.
  - intros restoreFolderState Hcase.
    destruct (load_storage s name restoreFolderState) as [->|[-> [v Hget]]];
      [exact Hvalid|].
    unfold activeValid. simpl. apply Hown; [exact Hcase|].
    destruct (hasWorkspace name (storage s)) eqn:Hin; [reflexivity|].
    destruct (StoreFacts.absent_name name (storage s) Hin) as (_ & _ & _ & _ & _ & Hno).
    congruence.
  - destruct (FrontEndFacts.delete_run s name)
      as (s1 & Hrun & Hgone & Hother & _ & Hact & _).
    rewrite Hrun. cbn [snd]. unfold activeValid in *. rewrite Hact.
    destruct (activeWorkspace (storage s)) as [a|] eqn:Ha;
      [|now destruct (hasWorkspace name (storage s) && bool_decide (None = Some name))].
    destruct (String.eqb_spec a name) as [->|Hne].
    + rewrite (StoreFacts.hasWorkspace_own _ _ Hvalid). simpl.
      now rewrite bool_decide_eq_true_2.
    + rewrite bool_decide_eq_false_2 by congruence. rewrite andb_false_r.
      unfold Js.has in *. now rewrite (Hother a Hne).
  - intros newName.
    destruct (hasWorkspace name (storage s)) eqn:Hold;
      [destruct (hasWorkspace newName (storage s)) eqn:Hnew;
       [|destruct (Js.blank newName) eqn:Hb]|].
    + destruct (StoreFacts.rename_refused s name newName (or_intror (or_introl Hnew)))
        as (text & ->). exact Hvalid.
    + destruct (StoreFacts.rename_refused s name newName (or_intror (or_intror Hb)))
        as (text & ->). exact Hvalid.
    + rewrite (StoreFacts.rename_ok s name newName Hold Hnew Hb).
      destruct (StoreFacts.absent_name newName (storage s) Hnew) as (Hnown & _).
      unfold activeValid in *. simpl.
      destruct (activeWorkspace (storage s)) as [a|] eqn:Ha; simpl; [|exact I].
      destruct (bool_decide (Some a = Some name)) eqn:Hd.
      * apply bool_decide_eq_true in Hd. injection Hd as ->.
        rewrite JsFacts.has_delete. unfold Js.has. rewrite JsFacts.get_app.
        assert (Hne : newName <> name) by (intros ->; congruence).
        rewrite (proj2 (String.eqb_neq newName name) Hne). simpl.
        destruct (Js.get newName (workspaces (storage s))); [reflexivity|].
        simpl. now rewrite String.eqb_refl.
      * apply bool_decide_eq_false in Hd.
        assert (Hne : a <> name) by congruence.
        rewrite JsFacts.has_delete, (proj2 (String.eqb_neq a name) Hne). simpl.
        unfold Js.has in *. rewrite JsFacts.get_app.
        destruct (Js.get a (workspaces (storage s))); [reflexivity|discriminate].
    + destruct (StoreFacts.rename_refused s name newName (or_introl Hold))
        as (text & ->). exact Hvalid.
  - intros Hcase. destruct s as [st w t]. simpl in *. StoreFacts.run.
    destruct (hasWorkspace name st) eqn:Hin; simpl; [|exact Hvalid].
    unfold activeValid. simpl. now apply Hown.
  - intros Hin. destruct s as [st w t]. simpl in *. StoreFacts.run.
    now rewrite Hin.
Qed.

End ChainFacts.
End ChainFacts.

(* ===================================================================== *)
(** * The further theorems at work on the demonstration vault *)
(* ===================================================================== *)

Module MoreExamples.
Import Host Eff Manager Store Explorer.

(** X2 on a host whose [getLayout] raises. *)
Lemma save_failure_keeps_store_witness :
  let s' := snd (saveWorkspace "Notes" true Fixture.stateNoLayout) in
  fst (saveWorkspace "Notes" true Fixture.stateNoLayout) = Raised Demo.templaterError /\
  storage s' = Demo.store0 /\
  emitted Fixture.stateNoLayout s'
    [LogSave; ConsoleError Demo.templaterError;
     Notice "Failed to save workspace: Cannot read properties of null"].
Proof.
  pose proof (SaveLoadFacts.save_failure_keeps_store Fixture.stateNoLayout "Notes" true
                Demo.templaterError eq_refl (or_introl eq_refl)) as H.
  split; [exact (proj1 H)|]. split; [exact (proj1 (proj2 H))|].
  exact (proj2 (proj2 H)).
Defined.

(** X3: ["Notes"] becomes the last key, ["Research"] keeps its place, ["7"]
    comes first and ["__proto__"] is no key. *)
Lemma save_keeps_key_order_witness :
  Js.keys (workspaces (storage (snd (saveWorkspace "Notes" false Demo.state0))))
    = ["Research"; "Writing"; "Notes"] /\
  Js.keys (workspaces (storage (snd (saveWorkspace "Research" false Demo.state0))))
    = ["Research"; "Writing"] /\
  Js.keys (workspaces (storage (snd (saveWorkspace "7" false Demo.state0))))
    = ["7"; "Research"; "Writing"] /\
  Js.keys (workspaces (storage (snd (saveWorkspace "__proto__" false Demo.state0))))
    = ["Research"; "Writing"].
Proof.
  split; [|split; [|split]].
  - exact (proj1 (SaveLoadFacts.save_keeps_key_order Demo.state0 "Notes" false
                    eq_refl eq_refl eq_refl)).
  - exact (proj1 (SaveLoadFacts.save_keeps_key_order Demo.state0 "Research" false
                    eq_refl eq_refl eq_refl)).
  - exact (proj1 (SaveLoadFacts.save_keeps_key_order Demo.state0 "7" false
                    eq_refl eq_refl eq_refl)).
  - exact (proj1 (SaveLoadFacts.save_keeps_key_order Demo.state0 "__proto__" false
                    eq_refl eq_refl eq_refl)).
Defined.

(** X4 on a name that is neither stored nor inherited. *)
Lemma load_missing_name_witness :
  let s' := snd (loadWorkspace "Missing" true Demo.state0) in
  getWorkspace "Missing" (storage Demo.state0) = None /\
  storage s' = storage Demo.state0 /\
  emitted Demo.state0 s' [LogSave; Notice ("Workspace " ++ Js.quoted "Missing" ++ " not found")].
Proof.
  pose proof (SaveLoadFacts.load_missing_name Demo.state0 "Missing" true eq_refl) as H.
  split; [reflexivity|]. split; [exact (proj1 (proj2 H))|exact (proj2 (proj2 H))].
Defined.

(** X5: ["Research"] loaded without its folder state. *)
Lemma load_without_restore_witness :
  let s' := snd (loadWorkspace "Research" false Demo.state0) in
  activeWorkspace (storage s') = Some "Research" /\
  emitted Demo.state0 s'
    [ChangeLayoutCall "panes: paper | notes"; ChangeLayoutDone;
     Trigger "workspace-open" ["Research"]; LogSave].
Proof.
  pose proof (SaveLoadFacts.load_without_restore Demo.state0 "Research" Demo.research
                eq_refl) as (_ & Hst & _ & Hev).
  split; [now rewrite Hst|exact Hev].
Defined.


(** X7: ["Research"] renamed to ["Reading"] and back. *)
Lemma rename_there_and_back_witness :
  let s1 := snd (renameWorkspace "Research" "Reading" Demo.state0) in
  let s2 := snd (renameWorkspace "Reading" "Research" s1) in
  activeValid (storage Demo.state0) /\
  (forall k, Js.get k (workspaces (storage s2)) =
             Js.get k (workspaces (storage Demo.state0))) /\
  activeWorkspace (storage s2) = Some "Research".
Proof.
  assert (H0 : activeValid (storage Demo.state0)) by reflexivity.
  pose proof (SaveLoadFacts.rename_there_and_back Demo.state0 "Research" "Reading"
                (Stored Demo.research) eq_refl eq_refl eq_refl eq_refl eq_refl H0)
    as (Hall & _ & Hact & _).
  split; [exact H0|]. split; [exact Hall|exact Hact].
Defined.

(** X8: ["Notes"] created and deleted again. *)
Lemma save_then_delete_witness :
  let s1 := snd (saveWorkspace "Notes" false Demo.state0) in
  let s2 := snd (deleteWorkspace "Notes" s1) in
  activeWorkspace (storage Demo.state0) = Some "Research" /\
  workspaces (storage s2) = workspaces (storage Demo.state0) /\
  activeWorkspace (storage s2) = None /\
  emitted Demo.state0 s2 [LogSave; Trigger "workspace-delete" ["Notes"]; LogSave].
Proof.
  pose proof (SaveLoadFacts.save_then_delete Demo.state0 "Notes" false
                eq_refl eq_refl eq_refl eq_refl) as (Hws & _ & Hact & Hev).
  split; [reflexivity|]. split; [exact Hws|]. split; [exact Hact|exact Hev].
Defined.

(** X10: loading ["Research"], whose folder state is [["Projects"]], on the
    demonstration tree. *)
Lemma load_refreshes_explorer_witness :
  let s' := snd (loadWorkspace "Research" true Demo.state0) in
  let saved := savedPaths (folderExpandState Demo.research) in
  (fst (loadWorkspace "Research" true Demo.state0) = Ok tt /\
   activeWorkspace (storage s') = Some "Research" /\
   exists root',
     fileExplorer (world s') = Some {| enabled := true; treeRoot := Some root' |} /\
     items root' = map (refreshed saved) (items Demo.explorerTree) /\
     shape root' = shape Demo.explorerTree) \/
  (fst (loadWorkspace "Research" true Demo.state0) = Raised notAFunction /\
   storage s' = storage Demo.state0 /\
   Exists (unexpandable saved) (items Demo.explorerTree)).
Proof.
  exact (TreeFacts.load_refreshes_explorer Demo.state0 "Research" Demo.research
           {| enabled := true; treeRoot := Some Demo.explorerTree |} Demo.explorerTree
           eq_refl eq_refl eq_refl eq_refl eq_refl).
Defined.

(** X11 on the demonstration tree, whose root is the one expanded item. *)
Lemma folder_tree_round_trip_witness :
  let refreshedTree := expandSaved (checkNode Demo.explorerTree)
                         (collapseAll Demo.explorerTree) in
  checkNode Demo.explorerTree = ["/"] /\
  snd refreshedTree = None /\
  checkNode (fst refreshedTree) = ["/"].
Proof.
  assert (Hall : expandedCollapsible Demo.explorerTree).
  { unfold expandedCollapsible. simpl.
    repeat (apply List.Forall_cons; [intros H; try reflexivity; now elim H|]).
    apply List.Forall_nil. }
  assert (Hnd : List.NoDup (paths Demo.explorerTree)).
  { unfold paths. simpl.
    repeat (apply List.NoDup_cons; [simpl; intuition discriminate|]).
    apply List.NoDup_nil. }
  pose proof (TreeFacts.folder_tree_round_trip Demo.explorerTree Hall Hnd)
    as (Hsafe & Hsame & _).
  split; [reflexivity|]. split; [exact Hsafe|exact Hsame].
Defined.

(** X12: the sidebars of ["Research"] were closed when recorded and are open
    now; restoring closes them. *)
Lemma navigation_round_trip_witness :
  let p3 := snd (Plugin.restoreNavigationLayout "Research" Fixture.pluginLater) in
  Plugin.isOpen (leftSplit Fixture.worldLater) = true /\
  Plugin.isOpen (leftSplit (world (Plugin.manager p3))) = false /\
  Plugin.isOpen (rightSplit (world (Plugin.manager p3))) = false.
Proof.
  pose proof (NavigationFacts.navigation_round_trip (Demo.plugin0 true true)
                Fixture.pluginLater "Research" eq_refl eq_refl eq_refl eq_refl)
    as (_ & Hleft & Hright).
  split; [reflexivity|].
  split; [exact (Hleft _ false eq_refl eq_refl)|exact (Hright _ false eq_refl eq_refl)].
Defined.

(** X14: ["Research"] renamed from the switcher, the input typed with
    spaces around it. *)
Lemma rename_gesture_moves_record_and_snapshot_witness :
  let p := Demo.plugin0 true true in
  let p' := snd (FrontEnd.handleRename "Research" "  Reading " p) in
  Js.trim "  Reading " = "Reading" /\
  Outcome.renamedStore "Research" "Reading" Demo.store0 (storage (Plugin.manager p')) /\
  Plugin.navigationLayouts p' !! "Reading" = Some Demo.researchNavigation /\
  Plugin.navigationLayouts p' !! "Research" = None /\
  emitted (Plugin.manager p) (Plugin.manager p')
    [Trigger "workspace-rename" ["Reading"; "Research"]; LogSave; SaveData;
     Notice ("Renamed workspace to " ++ Js.quoted "Reading")].
Proof.
  assert (H1 : "Research" <> EmptyString) by discriminate.
  assert (H2 : Js.trim "  Reading " <> EmptyString) by discriminate.
  assert (H3 : Js.trim "  Reading " <> "Research") by discriminate.
  pose proof (FrontEndFacts.rename_gesture_moves_record_and_snapshot
                (Demo.plugin0 true true) "Research" "  Reading " H1 H2 H3 eq_refl)
    as (_ & (Hstore & _) & (Hnew & Hold & _) & (Hev & _)).
  split; [reflexivity|]. split; [exact Hstore|]. split; [exact Hnew|].
  split; [exact Hold|exact Hev].
Defined.

(** X15: ["Research"] cannot take the name of ["Writing"]. *)
Lemma rename_gesture_rejected_witness :
  let p := Demo.plugin0 true true in
  let p' := snd (FrontEnd.handleRename "Research" "Writing" p) in
  hasWorkspace "Writing" (storage (Plugin.manager p)) = true /\
  storage (Plugin.manager p') = storage (Plugin.manager p) /\
  Plugin.navigationLayouts p' = Plugin.navigationLayouts p.
Proof.
  pose proof (FrontEndFacts.rename_gesture_rejected (Demo.plugin0 true true)
                "Research" "Writing" (or_intror (or_intror eq_refl)))
    as ((_ & _ & Hnav & Hst & _) & _).
  split; [reflexivity|]. split; [exact Hst|exact Hnav].
Defined.

(** X17: ["Research"], the active workspace, deleted from the switcher with
    the dialog accepted, once named by the argument and once by the item
    selected in the chooser. *)
Lemma delete_gesture_witness :
  let p := Demo.plugin0 true true in
  let p' := snd (FrontEnd.deleteWorkspace (Some "Research") None true p) in
  Js.has "Research" (workspaces (storage (Plugin.manager p'))) = false /\
  Plugin.navigationLayouts p' !! "Research" = None /\
  activeWorkspace (storage (Plugin.manager p')) = None /\
  emitted (Plugin.manager p) (Plugin.manager p')
    [Trigger "workspace-delete" ["Research"]; LogSave;
     Notice "Deleted workspace: Research"; SaveData] /\
  snd (FrontEnd.deleteWorkspace None (Some "Research") true p) = p' /\
  snd (FrontEnd.deleteWorkspace (Some "Research") None false p) = p.
Proof.
  pose proof (FrontEndFacts.delete_gesture (Demo.plugin0 true true)
                (Some "Research") None "Research" true eq_refl)
    as (_ & _ & Hdone).
  destruct (Hdone (or_intror eq_refl)) as (_ & Hgone & Hnav & _ & _ & Hact & Hev).
  pose proof (FrontEndFacts.delete_gesture (Demo.plugin0 true true)
                (Some "Research") None "Research" false eq_refl)
    as (_ & Hnot & _).
  split; [exact Hgone|]. split; [exact Hnav|]. split; [exact Hact|].
  split; [exact Hev|]. split; [reflexivity|].
  exact (Hnot eq_refl eq_refl).
Defined.

(** X18 on a store in which ['Research (copy)'] is taken. *)
Lemma uniqueCopyName_fresh_witness :
  length (workspaces Fixture.storeWithCopy) <= 2 /\
  exists name,
    FrontEnd.uniqueCopyName 2 Fixture.storeWithCopy "Research" = Some name /\
    hasWorkspace name Fixture.storeWithCopy = false /\
    (hasWorkspace (FrontEnd.copyName "Research") Fixture.storeWithCopy = false ->
       name = FrontEnd.copyName "Research") /\
    (hasWorkspace (FrontEnd.copyName "Research") Fixture.storeWithCopy = true ->
       exists n, 2 <= n /\ name = FrontEnd.copyNameNumbered "Research" n /\
         forall k, 2 <= k < n ->
           hasWorkspace (FrontEnd.copyNameNumbered "Research" k) Fixture.storeWithCopy = true).
Proof.
  assert (H : length (workspaces Fixture.storeWithCopy) <= 2) by (simpl; lia).
  split; [exact H|].
  exact (FrontEndFacts.uniqueCopyName_fresh Fixture.storeWithCopy "Research" 2 H).
Defined.


(** X23 on the demonstration store, whose active workspace is
    ["Research"]. *)
Lemma active_pointer_stays_valid_witness :
  activeValid (storage Demo.state0) /\
  activeValid (storage (snd (saveWorkspace "Writing" true Demo.state0))) /\
  activeValid (storage (snd (loadWorkspace "Writing" true Demo.state0))) /\
  activeValid (storage (snd (deleteWorkspace "Writing" Demo.state0))) /\
  activeValid (storage (snd (renameWorkspace "Writing" "Drafts" Demo.state0))) /\
  activeValid (storage (snd (setActiveWorkspace "Writing" Demo.state0))).
Proof.
  assert (H0 : activeValid (storage Demo.state0)) by reflexivity.
  pose proof (ChainFacts.active_pointer_stays_valid Demo.state0 "Writing" H0)
    as (Hsave & Hload & Hdelete & Hrename & Hset & _).
  split; [exact H0|].
  split; [exact (Hsave true (or_introl eq_refl))|].
  split; [exact (Hload true (or_introl eq_refl))|].
  split; [exact Hdelete|].
  split; [exact (Hrename "Drafts")|exact (Hset (or_introl eq_refl))].
Defined.

(** X20: plain Enter on ["Writing"], auto-save disabled. *)
Lemma switch_without_saving_witness :
  let p' := Session.plugin (snd (Session.onChooseItem "Writing" false false
                                   Fixture.session0)) in
  Plugin.autoSaveOnSwitch (Plugin.settings (Session.plugin Fixture.session0)) = false /\
  workspaces (storage (Plugin.manager p')) = workspaces Demo.store0 /\
  Plugin.navigationLayouts p' = Plugin.navigationLayouts (Demo.plugin0 true true).
Proof.
  pose proof (SwitchFacts.switch_without_saving Fixture.session0 "Writing" false false
                eq_refl) as (Hrec & Hnav & _).
  split; [reflexivity|]. split; [exact Hrec|exact Hnav].
Defined.

End MoreExamples.
